(** * Verification of the container-image-puller service (src/main.py)

    Shallow embedding of the Python service: the IP allow-list, the
    request handlers, the host command gateway, the image inventory, the
    prune pass and the pull operation, and the lock discipline. *)

From Stdlib Require Import ZArith List String Ascii Bool Lia.
Import ListNotations.
Set Warnings "-register-all".

Open Scope string_scope.
Open Scope Z_scope.

(** ** Python text helpers

    Python text values are represented as [string]s of bytes: the UTF-8
    encoding of the text, a lone surrogate taking its three-byte form. *)
Module Py.

Definition code (c : ascii) : Z := Z.of_nat (nat_of_ascii c).

Definition chr (n : Z) : ascii := ascii_of_nat (Z.to_nat n).

(** The double-quote character. *)
Definition dquote : ascii := ascii_of_nat 34.

Definition is_digit (c : ascii) : bool := (48 <=? code c) && (code c <=? 57).

Definition digit_val (c : ascii) : Z := code c - 48.

(** [str.isascii() and str.isdigit()] *)
Definition all_digits (s : string) : bool :=
  match s with
  | EmptyString => false
  | _ => forallb is_digit (list_ascii_of_string s)
  end.

(** [int(s, 10)] on a string of ASCII digits. *)
Definition digits_value (s : string) : Z :=
  fold_left (fun acc c => acc * 10 + digit_val c) (list_ascii_of_string s) 0.

(** [s.split(sep)] for a one-character separator: every piece, empty
    pieces included. *)
Fixpoint split_aux (sep : ascii) (l : list ascii) (cur : list ascii)
  : list string :=
  match l with
  | [] => [string_of_list_ascii (rev cur)]
  | c :: l' =>
      if Ascii.eqb c sep
      then string_of_list_ascii (rev cur) :: split_aux sep l' []
      else split_aux sep l' (c :: cur)
  end.

Definition split (sep : ascii) (s : string) : list string :=
  split_aux sep (list_ascii_of_string s) [].

(** [s.split(sep, 1)] *)
Fixpoint split_once (sep : ascii) (s : string) : option (string * string) :=
  match s with
  | EmptyString => None
  | String c s' =>
      if Ascii.eqb c sep then Some (EmptyString, s')
      else match split_once sep s' with
           | Some (a, b) => Some (String c a, b)
           | None => None
           end
  end.

(** [s.count(c)] *)
Definition count (c : ascii) (s : string) : nat :=
  List.length (filter (fun d => Ascii.eqb d c) (list_ascii_of_string s)).

(** [c in s] *)
Definition contains (c : ascii) (s : string) : bool :=
  existsb (fun d => Ascii.eqb d c) (list_ascii_of_string s).

(** [s.startswith(p)] *)
Definition startswith (p s : string) : bool := String.prefix p s.

(** [s.rstrip(c)] *)
Definition rstrip_char (c : ascii) (s : string) : string :=
  let fix drop (l : list ascii) :=
    match l with
    | d :: l' => if Ascii.eqb d c then drop l' else l
    | [] => []
    end in
  string_of_list_ascii (rev (drop (rev (list_ascii_of_string s)))).

(** The UTF-8 encoding of a code point.  Surrogates are encoded like any
    other code point, as the [surrogatepass] error handler writes them. *)
Definition utf8 (cp : Z) : list ascii :=
  let cont k := chr (128 + Z.land (Z.shiftr cp (6 * k)) 63) in
  if cp <? 128 then [chr cp]
  else if cp <? 2048 then [chr (192 + Z.shiftr cp 6); cont 0]
  else if cp <? 65536 then [chr (224 + Z.shiftr cp 12); cont 1; cont 0]
  else [chr (240 + Z.shiftr cp 18); cont 2; cont 1; cont 0].

Definition is_cont (c : ascii) : bool := (128 <=? code c) && (code c <? 192).

(** [b.decode('utf-8', 'surrogatepass')]: the code points, or [None]
    when it raises [UnicodeDecodeError].  Overlong forms and code points
    above U+10FFFF are refused; encoded surrogates are let through. *)
Fixpoint utf8_decode (l : list ascii) : option (list Z) :=
  match l with
  | [] => Some []
  | a :: r =>
      let n := code a in
      if n <? 128 then option_map (cons n) (utf8_decode r)
      else if (194 <=? n) && (n <=? 223) then
        match r with
        | b :: r' =>
            if is_cont b
            then option_map (cons ((n - 192) * 64 + (code b - 128))) (utf8_decode r')
            else None
        | [] => None
        end
      else if (224 <=? n) && (n <=? 239) then
        match r with
        | b :: c :: r' =>
            let cp := ((n - 224) * 64 + (code b - 128)) * 64 + (code c - 128) in
            if is_cont b && is_cont c && (2048 <=? cp)
            then option_map (cons cp) (utf8_decode r')
            else None
        | _ => None
        end
      else if (240 <=? n) && (n <=? 244) then
        match r with
        | b :: c :: d :: r' =>
            let cp := (((n - 240) * 64 + (code b - 128)) * 64 + (code c - 128)) * 64
                      + (code d - 128) in
            if is_cont b && is_cont c && is_cont d && (65536 <=? cp) && (cp <=? 1114111)
            then option_map (cons cp) (utf8_decode r')
            else None
        | _ => None
        end
      else None
  end.

(** The characters of a text, each as its UTF-8 bytes: a character
    starts at every byte that is not a continuation byte. *)
Fixpoint chars_aux (l : list ascii) (cur : list ascii) : list (list ascii) :=
  match l with
  | [] => match cur with
          | [] => []
          | _ => [rev cur]
          end
  | c :: l' =>
      if is_cont c then chars_aux l' (c :: cur)
      else match cur with
           | [] => chars_aux l' [c]
           | _ => rev cur :: chars_aux l' [c]
           end
  end.

Definition chars (s : string) : list (list ascii) :=
  chars_aux (list_ascii_of_string s) [].

Definition bytes_eqb (a b : list ascii) : bool :=
  if list_eq_dec ascii_dec a b then true else false.

(** The character is one of the code points [cps]. *)
Definition char_in (cps : list Z) (ch : list ascii) : bool :=
  existsb (fun cp => bytes_eqb (utf8 cp) ch) cps.

(** The code points for which [str.isspace()] holds (Python's
    [_PyUnicode_IsWhitespace]). *)
Definition space_cps : list Z :=
  [9; 10; 11; 12; 13; 28; 29; 30; 31; 32; 133; 160; 5760;
   8192; 8193; 8194; 8195; 8196; 8197; 8198; 8199; 8200; 8201; 8202;
   8232; 8233; 8239; 8287; 12288].

Definition is_space (ch : list ascii) : bool := char_in space_cps ch.

Fixpoint drop_spaces (l : list (list ascii)) : list (list ascii) :=
  match l with
  | ch :: l' => if is_space ch then drop_spaces l' else l
  | [] => []
  end.

(** [s.strip()] *)
Definition strip (s : string) : string :=
  string_of_list_ascii (List.concat (rev (drop_spaces (rev (drop_spaces (chars s)))))).

(** The line boundaries of [str.splitlines()]: \n, \r, \v, \f, \x1c,
    \x1d, \x1e, \x85, U+2028 and U+2029 (and \r\n as one boundary). *)
Definition line_break_cps : list Z := [10; 11; 12; 13; 28; 29; 30; 133; 8232; 8233].

Definition is_line_break (ch : list ascii) : bool := char_in line_break_cps ch.

Fixpoint splitlines_aux (l : list (list ascii)) (cur : list (list ascii))
  : list string :=
  match l with
  | [] => match cur with
          | [] => []
          | _ => [string_of_list_ascii (List.concat (rev cur))]
          end
  | ch :: l' =>
      if is_line_break ch then
        let rest := match l' with
                    | d :: l'' => if bytes_eqb ch [chr 13] && bytes_eqb d [chr 10]
                                  then l'' else l'
                    | [] => l'
                    end in
        string_of_list_ascii (List.concat (rev cur)) :: splitlines_aux rest []
      else splitlines_aux l' (ch :: cur)
  end.

(** [s.splitlines()] *)
Definition splitlines (s : string) : list string :=
  splitlines_aux (chars s) [].

(** [int(s)] for a [str] argument, as CPython computes it: every
    character below U+007F is kept, other whitespace becomes a space and
    other decimal digits their ASCII digit
    ([_PyUnicode_TransformDecimalAndSpaceToASCII], which gives up at any
    other character); [PyLong_FromString] then reads the ASCII text:
    the bytes [Py_ISSPACE] accepts around it, an optional sign, and
    digits with single underscores between them.  [decimal cp] is the
    digit value of the code point [cp] in the interpreter's Unicode
    database ([unicodedata.decimal]); [max_str_digits] is
    [sys.get_int_max_str_digits()] (0 for no limit), and a longer
    literal raises [ValueError].  [None] when [int] raises
    [ValueError]. *)
Definition c_isspace (c : ascii) : bool :=
  let n := code c in ((9 <=? n) && (n <=? 13)) || (n =? 32).

Fixpoint drop_c_spaces (l : list ascii) : list ascii :=
  match l with
  | c :: l' => if c_isspace c then drop_c_spaces l' else l
  | [] => []
  end.

Fixpoint to_ascii_decimal (decimal : Z -> option Z) (l : list (list ascii))
  : option (list ascii) :=
  match l with
  | [] => Some []
  | ch :: l' =>
      let c := match utf8_decode ch with
               | Some [cp] =>
                   if cp <? 127 then Some (chr cp)
                   else if is_space ch then Some " "%char
                   else option_map (fun d => chr (48 + d)) (decimal cp)
               | _ => None
               end in
      match c, to_ascii_decimal decimal l' with
      | Some c, Some r => Some (c :: r)
      | _, _ => None
      end
  end.

Fixpoint int_digits (l : list ascii) (acc : Z) (after_digit : bool)
  : option Z :=
  match l with
  | [] => if after_digit then Some acc else None
  | c :: l' =>
      if is_digit c then int_digits l' (acc * 10 + digit_val c) true
      else if Ascii.eqb c "_"%char then
        match l' with
        | d :: _ => if after_digit && is_digit d
                    then int_digits l' acc false else None
        | [] => None
        end
      else None
  end.

(** The digit-count limit of [PyLong_FromString]: checked above 640
    digits, when a limit is set. *)
Definition too_many_digits (max_str_digits digits : Z) : bool :=
  (640 <? digits) && (0 <? max_str_digits) && (max_str_digits <? digits).

Definition int_of_str (decimal : Z -> option Z) (max_str_digits : Z) (s : string)
  : option Z :=
  match to_ascii_decimal decimal (chars s) with
  | None => None
  | Some l =>
      let '(sign, l) := match drop_c_spaces l with
                        | c :: l' => if Ascii.eqb c "-"%char then (-1, l')
                                     else if Ascii.eqb c "+"%char then (1, l')
                                     else (1, c :: l')
                        | [] => (1, [])
                        end in
      let body := rev (drop_c_spaces (rev l)) in
      if too_many_digits max_str_digits (Z.of_nat (List.length (filter is_digit body)))
      then None
      else option_map (Z.mul sign) (int_digits body 0 false)
  end.

End Py.

(** ** The allowed network: [get_allowed_network] and [is_allowed_ip]

    IPv4 parsing follows Python's [ipaddress] module; IPv6 parsing, which
    [ipaddress] tries when IPv4 parsing fails, is a parameter. *)
Module Net.

Record address := { addr_version : nat; addr_ip : Z }.

Record network :=
  { net_version : nat; network_address : Z; netmask : Z; prefixlen : Z }.

Definition ALL_ONES_V4 : Z := Z.ones 32.

(** [IPv4Address._parse_octet] *)
Definition parse_octet (s : string) : option Z :=
  if negb (Py.all_digits s) then None
  else if (3 <? Z.of_nat (String.length s))%Z then None
  else if negb (String.eqb s "0") && Py.startswith "0" s then None
  else let v := Py.digits_value s in
       if 255 <? v then None else Some v.

(** [IPv4Address._ip_int_from_string] *)
Definition ip_int_from_string (s : string) : option Z :=
  match Py.split "." s with
  | [a; b; c; d] =>
      match parse_octet a, parse_octet b, parse_octet c, parse_octet d with
      | Some a, Some b, Some c, Some d =>
          Some (((a * 256 + b) * 256 + c) * 256 + d)
      | _, _, _, _ => None
      end
  | _ => None
  end.

(** [_count_righthand_zero_bits] on 32 bits *)
Definition count_righthand_zero_bits (n : Z) : Z :=
  if n =? 0 then 32
  else Z.min 32 (Z.log2_up (Z.land (Z.lnot n) (n - 1) + 1)).

(** [_prefix_from_ip_int]: [None] when it raises [ValueError]. *)
Definition prefix_from_ip_int (ip_int : Z) : option Z :=
  let tz := count_righthand_zero_bits ip_int in
  let plen := 32 - tz in
  let leading_ones := Z.shiftr ip_int tz in
  let all_ones := Z.shiftl 1 plen - 1 in
  if leading_ones =? all_ones then Some plen else None.

(** [_prefix_from_prefix_string] *)
Definition prefix_from_prefix_string (s : string) : option Z :=
  if negb (Py.all_digits s) then None
  else let p := Py.digits_value s in
       if (0 <=? p) && (p <=? 32) then Some p else None.

(** [_prefix_from_ip_string]: a netmask, or else a hostmask. *)
Definition prefix_from_ip_string (s : string) : option Z :=
  match ip_int_from_string s with
  | None => None
  | Some ip_int =>
      match prefix_from_ip_int ip_int with
      | Some p => Some p
      | None => prefix_from_ip_int (Z.lxor ip_int ALL_ONES_V4)
      end
  end.

(** [_make_netmask] for a string argument (the prefix length when no
    "/" is present is the integer 32). *)
Definition make_netmask (m : option string) : option Z :=
  match m with
  | None => Some 32
  | Some s =>
      match prefix_from_prefix_string s with
      | Some p => Some p
      | None => prefix_from_ip_string s
      end
  end.

Definition ip_int_from_prefix (p : Z) : Z :=
  Z.lxor ALL_ONES_V4 (Z.shiftr ALL_ONES_V4 p).

(** Outcome of [IPv4Network(s)] with [strict=True]: a network, the plain
    [ValueError] "has host bits set", or an [AddressValueError] /
    [NetmaskValueError]. *)
Inductive v4_result := V4Net (n : network) | V4HostBits | V4Invalid.

Definition ipv4_network (s : string) : v4_result :=
  let parts := Py.split "/" s in
  if (2 <? Z.of_nat (List.length parts))%Z then V4Invalid
  else
    let addr := hd EmptyString parts in
    let mask := match parts with [_; m] => Some m | _ => None end in
    if Py.contains "/" addr then V4Invalid else
    match ip_int_from_string addr with
    | None => V4Invalid
    | Some packed =>
        match make_netmask mask with
        | None => V4Invalid
        | Some p =>
            let nm := ip_int_from_prefix p in
            if negb (Z.land packed nm =? packed) then V4HostBits
            else V4Net {| net_version := 4; network_address := packed;
                          netmask := nm; prefixlen := p |}
        end
    end.

(** [IPv4Address(s)] *)
Definition ipv4_address (s : string) : option address :=
  if Py.contains "/" s then None
  else option_map (fun n => {| addr_version := 4; addr_ip := n |})
                  (ip_int_from_string s).

Section Parsers.

(** [IPv6Network(s)] and [IPv6Address(s)]: [None] when they raise. *)
Variable ipv6_network : string -> option network.
Variable ipv6_address : string -> option address.

(** [ipaddress.ip_network(s)]: [None] when it raises [ValueError]. *)
Definition ip_network (s : string) : option network :=
  match ipv4_network s with
  | V4Net n => Some n
  | V4HostBits => None
  | V4Invalid => ipv6_network s
  end.

(** [ipaddress.ip_address(s)] *)
Definition ip_address (s : string) : option address :=
  match ipv4_address s with
  | Some a => Some a
  | None => ipv6_address s
  end.

(** [ip in network] ([_BaseNetwork.__contains__] for an address). *)
Definition net_contains (n : network) (a : address) : bool :=
  Nat.eqb (net_version n) (addr_version a)
  && (Z.land (addr_ip a) (netmask n) =? network_address n).

(** [get_allowed_network]: [env] is [os.getenv("ALLOWED_NETWORK")]. *)
Definition get_allowed_network (env : option string) : option network :=
  let env_cidr := match env with Some s => s | None => "0.0.0.0/1" end in
  ip_network env_cidr.

(** [is_allowed_ip], with [ALLOWED_NETWORK] passed explicitly. *)
Definition is_allowed_ip (ALLOWED_NETWORK : option network)
    (remote_ip : string) : bool :=
  match ip_address remote_ip with
  | None => false
  | Some ip =>
      match ALLOWED_NETWORK with
      | Some n => net_contains n ip
      | None => false
      end
  end.

End Parsers.

End Net.

(** ** [json.loads]

    Python's JSON decoder (strict mode, the C scanner): whitespace is
    [ \t\n\r]; a decoded string is kept as the UTF-8 bytes of its text,
    a lone surrogate in its three-byte form;
    an object keeps its members in order and [dict] lookup takes the last
    binding of a key.  A float is kept as its literal text. *)
Module Json.

Inductive json :=
| JNull
| JBool (b : bool)
| JInt (z : Z)
| JFloat (literal : string)
| JStr (s : string)
| JArr (l : list json)
| JObj (kvs : list (string * json)).

(** How [json.loads] fails: bytes that are not text in the detected
    encoding ([UnicodeDecodeError]), text that is not JSON
    ([JSONDecodeError]), an integer literal with more digits than
    [sys.get_int_max_str_digits()] allows ([ValueError]), or arrays and
    objects nested deeper than the interpreter's recursion guard allows
    ([RecursionError]). *)
Inductive failure := Undecodable | DecodeError | IntTooLong | TooDeep.

Definition is_ws (c : ascii) : bool :=
  let n := Py.code c in (n =? 32) || (n =? 9) || (n =? 10) || (n =? 13).

Fixpoint skip_ws (l : list ascii) : list ascii :=
  match l with
  | c :: l' => if is_ws c then skip_ws l' else l
  | [] => []
  end.

Definition hex_val (c : ascii) : option Z :=
  let n := Py.code c in
  if (48 <=? n) && (n <=? 57) then Some (n - 48)
  else if (97 <=? n) && (n <=? 102) then Some (n - 87)
  else if (65 <=? n) && (n <=? 70) then Some (n - 55)
  else None.

Definition hex4 (a b c d : ascii) : option Z :=
  match hex_val a, hex_val b, hex_val c, hex_val d with
  | Some a, Some b, Some c, Some d => Some (((a * 16 + b) * 16 + c) * 16 + d)
  | _, _, _, _ => None
  end.

(** UTF-8 bytes of a code point, in reverse order. *)
Definition utf8_rev (cp : Z) : list ascii := rev (Py.utf8 cp).

(** [scanstring]: the body of a string literal after its opening quote;
    [acc] holds the decoded bytes in reverse. *)
Fixpoint scan_string (l : list ascii) (acc : list ascii)
  : option (string * list ascii) :=
  match l with
  | [] => None
  | c :: r =>
      if Ascii.eqb c Py.dquote then Some (string_of_list_ascii (rev acc), r)
      else if Py.code c <? 32 then None
      else if Ascii.eqb c "\"%char then
        match r with
        | e :: r' =>
            if Ascii.eqb e "u"%char then
              match r' with
              | a :: b :: c0 :: d :: r'' =>
                  match hex4 a b c0 d with
                  | None => None
                  | Some u =>
                      let lone := scan_string r'' (utf8_rev u ++ acc) in
                      if (55296 <=? u) && (u <=? 56319) then
                        match r'' with
                        | s1 :: s2 :: e1 :: e2 :: e3 :: e4 :: r3 =>
                            if Ascii.eqb s1 "\"%char && Ascii.eqb s2 "u"%char
                            then match hex4 e1 e2 e3 e4 with
                                 | Some u2 =>
                                     if (56320 <=? u2) && (u2 <=? 57343) then
                                       scan_string r3
                                         (utf8_rev (65536 + Z.shiftl (u - 55296) 10
                                                     + (u2 - 56320)) ++ acc)
                                     else lone
                                 | None => lone
                                 end
                            else lone
                        | _ => lone
                        end
                      else lone
                  end
              | _ => None
              end
            else
              let esc :=
                match Py.code e with
                | 34 => Some 34 | 92 => Some 92 | 47 => Some 47
                | 98 => Some 8 | 102 => Some 12 | 110 => Some 10
                | 114 => Some 13 | 116 => Some 9 | _ => None
                end in
              match esc with
              | Some v => scan_string r' (Py.chr v :: acc)
              | None => None
              end
        | [] => None
        end
      else scan_string r (c :: acc)
  end.

Fixpoint take_digits (l : list ascii) : list ascii * list ascii :=
  match l with
  | c :: r => if Py.is_digit c
              then let (d, r') := take_digits r in (c :: d, r')
              else ([], l)
  | [] => ([], [])
  end.

(** [NUMBER_RE = (-?(?:0|[1-9]\d* ))(\.\d+)?([eE][-+]?\d+)?] *)
Definition scan_number (max_str_digits : Z) (l : list ascii)
  : option (failure + (json * list ascii)) :=
  let '(neg, l1) := match l with
                    | c :: r => if Ascii.eqb c "-"%char then (true, r) else (false, l)
                    | [] => (false, l)
                    end in
  let int_part :=
    match l1 with
    | c :: r => if Ascii.eqb c "0"%char then Some ([c], r)
                else if Py.is_digit c then
                  let (d, r') := take_digits r in Some (c :: d, r')
                else None
    | [] => None
    end in
  match int_part with
  | None => None
  | Some (ip, l2) =>
      let '(frac, l3) :=
        match l2 with
        | c :: r => if Ascii.eqb c "."%char then
                      match take_digits r with
                      | ([], _) => ([], l2)
                      | (d, r') => (c :: d, r')
                      end
                    else ([], l2)
        | [] => ([], l2)
        end in
      let '(exp, l4) :=
        match l3 with
        | c :: r =>
            if Ascii.eqb c "e"%char || Ascii.eqb c "E"%char then
              let '(sg, r1) := match r with
                               | s :: r1 => if Ascii.eqb s "+"%char || Ascii.eqb s "-"%char
                                            then ([s], r1) else ([], r)
                               | [] => ([], r)
                               end in
              match take_digits r1 with
              | ([], _) => ([], l3)
              | (d, r') => (c :: sg ++ d, r')
              end
            else ([], l3)
        | [] => ([], l3)
        end in
      match frac, exp with
      | [], [] =>
          (* [PyLong_FromString] on the literal *)
          if Py.too_many_digits max_str_digits (Z.of_nat (List.length ip))
          then Some (inl IntTooLong)
          else
            let v := Py.digits_value (string_of_list_ascii ip) in
            Some (inr (JInt (if neg then - v else v), l4))
      | _, _ =>
          Some (inr (JFloat (string_of_list_ascii
                               ((if neg then ["-"%char] else []) ++ ip ++ frac ++ exp)), l4))
      end
  end.

Fixpoint starts (p : list ascii) (l : list ascii) : option (list ascii) :=
  match p, l with
  | [], _ => Some l
  | a :: p', b :: l' => if Ascii.eqb a b then starts p' l' else None
  | _ :: _, [] => None
  end.

Definition lit (p : string) (l : list ascii) := starts (list_ascii_of_string p) l.

(** [scan_once] at a point where [depth] more arrays or objects may be
    opened before the interpreter's recursion guard raises
    [RecursionError].  The inner loops are bounded by the length of the
    text, which no object or array can exceed. *)
Fixpoint scan_once (max_str_digits : Z) (depth : nat) (l : list ascii)
  : failure + (json * list ascii) :=
  match l with
  | [] => inl DecodeError
  | c :: r =>
      if Ascii.eqb c Py.dquote then
        match scan_string r [] with
        | Some (s, r') => inr (JStr s, r')
        | None => inl DecodeError
        end
      else if Ascii.eqb c "{"%char then
        match depth with
        | O => inl TooDeep
        | S d =>
            let fix members (g : nat) (l : list ascii) (acc : list (string * json))
                : failure + (json * list ascii) :=
              match g with
              | O => inl DecodeError
              | S g' =>
                  match skip_ws l with
                  | q :: r0 =>
                      if Ascii.eqb q Py.dquote then
                        match scan_string r0 [] with
                        | None => inl DecodeError
                        | Some (k, r1) =>
                            match skip_ws r1 with
                            | col :: r2 =>
                                if Ascii.eqb col ":"%char then
                                  match scan_once max_str_digits d (skip_ws r2) with
                                  | inl e => inl e
                                  | inr (v, r3) =>
                                      match skip_ws r3 with
                                      | e :: r4 =>
                                          if Ascii.eqb e "}"%char
                                          then inr (JObj (rev ((k, v) :: acc)), r4)
                                          else if Ascii.eqb e ","%char
                                          then members g' r4 ((k, v) :: acc)
                                          else inl DecodeError
                                      | [] => inl DecodeError
                                      end
                                  end
                                else inl DecodeError
                            | [] => inl DecodeError
                            end
                        end
                      else inl DecodeError
                  | [] => inl DecodeError
                  end
              end in
            match skip_ws r with
            | e :: r' => if Ascii.eqb e "}"%char then inr (JObj [], r')
                         else members (S (List.length r)) r []
            | [] => inl DecodeError
            end
        end
      else if Ascii.eqb c "["%char then
        match depth with
        | O => inl TooDeep
        | S d =>
            let fix elems (g : nat) (l : list ascii) (acc : list json)
                : failure + (json * list ascii) :=
              match g with
              | O => inl DecodeError
              | S g' =>
                  match scan_once max_str_digits d (skip_ws l) with
                  | inl e => inl e
                  | inr (v, r1) =>
                      match skip_ws r1 with
                      | e :: r2 =>
                          if Ascii.eqb e "]"%char then inr (JArr (rev (v :: acc)), r2)
                          else if Ascii.eqb e ","%char then elems g' r2 (v :: acc)
                          else inl DecodeError
                      | [] => inl DecodeError
                      end
                  end
              end in
            match skip_ws r with
            | e :: r' => if Ascii.eqb e "]"%char then inr (JArr [], r')
                         else elems (S (List.length r)) r []
            | [] => inl DecodeError
            end
        end
      else match lit "null" l with
      | Some r' => inr (JNull, r')
      | None => match lit "true" l with
      | Some r' => inr (JBool true, r')
      | None => match lit "false" l with
      | Some r' => inr (JBool false, r')
      | None => match scan_number max_str_digits l with
      | Some res => res
      | None => match lit "NaN" l with
      | Some r' => inr (JFloat "NaN", r')
      | None => match lit "Infinity" l with
      | Some r' => inr (JFloat "Infinity", r')
      | None => match lit "-Infinity" l with
      | Some r' => inr (JFloat "-Infinity", r')
      | None => inl DecodeError
      end end end end end end end
  end.

(** [JSONDecoder.decode] on a text: one value between whitespace. *)
Definition decode_text (max_str_digits : Z) (depth : nat) (l : list ascii)
  : failure + json :=
  match scan_once max_str_digits depth (skip_ws l) with
  | inr (v, r) => match skip_ws r with [] => inr v | _ => inl DecodeError end
  | inl e => inl e
  end.

(** [json.loads(s)] on a [str]: a leading U+FEFF is refused. *)
Definition loads (max_str_digits : Z) (depth : nat) (s : string) : failure + json :=
  let l := list_ascii_of_string s in
  match starts (Py.utf8 65279) l with
  | Some _ => inl DecodeError
  | None => decode_text max_str_digits depth l
  end.

(** The codecs [json.detect_encoding] chooses from. *)
Inductive encoding :=
| UTF8 | UTF8_SIG | UTF16 | UTF16_LE | UTF16_BE | UTF32 | UTF32_LE | UTF32_BE.

Fixpoint prefixZ (p l : list Z) : bool :=
  match p, l with
  | [], _ => true
  | a :: p', b :: l' => (a =? b) && prefixZ p' l'
  | _ :: _, [] => false
  end.

(** [json.detect_encoding(b)] *)
Definition detect_encoding (b : list ascii) : encoding :=
  let n := map Py.code b in
  if prefixZ [255; 254; 0; 0] n || prefixZ [0; 0; 254; 255] n then UTF32
  else if prefixZ [255; 254] n || prefixZ [254; 255] n then UTF16
  else if prefixZ [239; 187; 191] n then UTF8_SIG
  else match n with
       | b0 :: b1 :: b2 :: b3 :: _ =>
           if b0 =? 0 then (if negb (b1 =? 0) then UTF16_BE else UTF32_BE)
           else if b1 =? 0 then
             (if negb (b2 =? 0) || negb (b3 =? 0) then UTF16_LE else UTF32_LE)
           else UTF8
       | [b0; b1] =>
           if b0 =? 0 then UTF16_BE else if b1 =? 0 then UTF16_LE else UTF8
       | _ => UTF8
       end.

(** UTF-16 code units; an odd trailing byte raises. *)
Fixpoint units16 (big : bool) (n : list Z) : option (list Z) :=
  match n with
  | [] => Some []
  | a :: b :: r =>
      option_map (cons (if big then a * 256 + b else b * 256 + a)) (units16 big r)
  | [_] => None
  end.

(** A high surrogate followed by a low one is one code point; with
    [surrogatepass] any other surrogate passes as it is. *)
Fixpoint combine16 (u : list Z) : list Z :=
  match u with
  | hi :: ((lo :: r) as t) =>
      if (55296 <=? hi) && (hi <=? 56319) && (56320 <=? lo) && (lo <=? 57343)
      then (65536 + (hi - 55296) * 1024 + (lo - 56320)) :: combine16 r
      else hi :: combine16 t
  | t => t
  end.

(** UTF-32 code units; a length that is not a multiple of 4, or a value
    above U+10FFFF, raises (surrogates pass). *)
Fixpoint units32 (big : bool) (n : list Z) : option (list Z) :=
  match n with
  | [] => Some []
  | a :: b :: c :: d :: r =>
      let cp := if big then ((a * 256 + b) * 256 + c) * 256 + d
                else ((d * 256 + c) * 256 + b) * 256 + a in
      if cp <=? 1114111 then option_map (cons cp) (units32 big r) else None
  | _ => None
  end.

(** [b.decode(encoding, 'surrogatepass')]: the code points, or [None]
    for [UnicodeDecodeError].  The [utf-16] and [utf-32] codecs read
    the byte order from a BOM and drop it (little-endian without one);
    [utf-8-sig] drops a UTF-8 BOM. *)
Definition decode (enc : encoding) (b : list ascii) : option (list Z) :=
  let n := map Py.code b in
  match enc with
  | UTF8 => Py.utf8_decode b
  | UTF8_SIG =>
      Py.utf8_decode (if prefixZ [239; 187; 191] n then skipn 3 b else b)
  | UTF16 =>
      option_map combine16
        (if prefixZ [255; 254] n then units16 false (skipn 2 n)
         else if prefixZ [254; 255] n then units16 true (skipn 2 n)
         else units16 false n)
  | UTF16_LE => option_map combine16 (units16 false n)
  | UTF16_BE => option_map combine16 (units16 true n)
  | UTF32 =>
      if prefixZ [255; 254; 0; 0] n then units32 false (skipn 4 n)
      else if prefixZ [0; 0; 254; 255] n then units32 true (skipn 4 n)
      else units32 false n
  | UTF32_LE => units32 false n
  | UTF32_BE => units32 true n
  end.

(** [json.loads(b)] on [bytes]: decoded with the detected encoding, then
    parsed as text (there is no BOM check on this path). *)
Definition loads_bytes (max_str_digits : Z) (depth : nat) (b : string)
  : failure + json :=
  let l := list_ascii_of_string b in
  match decode (detect_encoding l) l with
  | None => inl Undecodable
  | Some cps => decode_text max_str_digits depth (List.concat (map Py.utf8 cps))
  end.

(** [d.get(k, default)] on a [dict]; any other value has no [get] and
    raises [AttributeError] ([None] here). *)
Definition get (o : json) (k : string) (default : json) : option json :=
  match o with
  | JObj kvs =>
      match find (fun kv => String.eqb (fst kv) k) (rev kvs) with
      | Some (_, v) => Some v
      | None => Some default
      end
  | _ => None
  end.

End Json.

(** ** Timestamps: [parse_rfc3339]

    A [datetime] is kept as its fields; every value handled by the
    service is in UTC. *)
Module Time.

Record datetime :=
  { year : Z; month : Z; day : Z; hour : Z; minute : Z; second : Z;
    microsecond : Z }.

Definition is_leap (y : Z) : bool :=
  (Z.modulo y 4 =? 0) && (negb (Z.modulo y 100 =? 0) || (Z.modulo y 400 =? 0)).

Definition days_in_month (y m : Z) : Z :=
  match m with
  | 2 => if is_leap y then 29 else 28
  | 4 | 6 | 9 | 11 => 30
  | _ => 31
  end.

Definition days_before_month (y m : Z) : Z :=
  fold_left (fun acc k => acc + days_in_month y k)
            (map Z.of_nat (seq 1 (Z.to_nat (m - 1)))) 0.

Definition days_before_year (y : Z) : Z :=
  let y1 := y - 1 in y1 * 365 + y1 / 4 - y1 / 100 + y1 / 400.

(** Proleptic Gregorian ordinal of the date ([date.toordinal]). *)
Definition toordinal (d : datetime) : Z :=
  days_before_year (year d) + days_before_month (year d) (month d) + day d.

(** Microseconds since 0001-01-01T00:00:00: the difference of two such
    values is the exact [timedelta] of [d1 - d2]. *)
Definition to_us (d : datetime) : Z :=
  ((((toordinal d * 24 + hour d) * 60 + minute d) * 60 + second d) * 1000000)
  + microsecond d.

(** [a / b] on Python ints with [b > 0] ([long_true_divide]): the
    quotient correctly rounded to a binary64 value, ties to even, given as
    [(m, e)] for [m * 2 ^ e].  The significand is taken with 53 bits
    below the leading one of [|a| / b]; the exponent range is not bounded
    (quotients of datetime differences, below [2 ^ 39], are far from
    overflow and from subnormals). *)
Definition true_divide (a b : Z) : Z * Z :=
  if a =? 0 then (0, 0) else
  let n := Z.abs a in
  let ratio e := if e <? 0 then (n * 2 ^ (- e), b) else (n, b * 2 ^ e) in
  let e0 := Z.log2 n - Z.log2 b - 53 in
  let e := if fst (ratio e0) / snd (ratio e0) <? 2 ^ 53 then e0 else e0 + 1 in
  let '(num, den) := ratio e in
  let q := num / den in
  let r := num mod den in
  let m := if (den <? 2 * r) || ((2 * r =? den) && Z.odd q) then q + 1 else q in
  (if a <? 0 then - m else m, e).

(** [timedelta.total_seconds()] of a difference of [us] microseconds:
    [us / 10 ** 6] as a float. *)
Definition total_seconds (us : Z) : Z * Z := true_divide us 1000000.

(** [x < n] for the float [x = m * 2 ^ e] and the int [n]: Python compares
    a float with an int exactly. *)
Definition float_lt_int (x : Z * Z) (n : Z) : bool :=
  let '(m, e) := x in
  if e <? 0 then m <? n * 2 ^ (- e) else m * 2 ^ e <? n.

Definition valid (d : datetime) : bool :=
  (1 <=? year d) && (year d <=? 9999) && (1 <=? month d) && (month d <=? 12)
  && (1 <=? day d) && (day d <=? days_in_month (year d) (month d))
  && (0 <=? hour d) && (hour d <=? 23) && (0 <=? minute d) && (minute d <=? 59)
  && (0 <=? second d) && (second d <=? 59)
  && (0 <=? microsecond d) && (microsecond d <=? 999999).

Definition num (l : list ascii) : option Z :=
  if forallb Py.is_digit l && negb (match l with [] => true | _ => false end)
  then Some (Py.digits_value (string_of_list_ascii l)) else None.

(** Strings of the shapes [YYYY-MM-DDTHH:MM:SS] and
    [YYYY-MM-DDTHH:MM:SS.ffffff] (ASCII digits), on which every
    [datetime.fromisoformat] since Python 3.7 agrees: [Some (Some d)] for a
    valid date-time, [Some None] for [ValueError].  [None] for any other
    shape. *)
Definition fromisoformat_basic (s : string) : option (option datetime) :=
  match list_ascii_of_string s with
  | y1 :: y2 :: y3 :: y4 :: d1 :: m1 :: m2 :: d2 :: a1 :: a2 :: t
    :: h1 :: h2 :: c1 :: n1 :: n2 :: c2 :: s1 :: s2 :: rest =>
      let frac := match rest with
                  | [] => Some (Some 0)
                  | [p; f1; f2; f3; f4; f5; f6] =>
                      if Ascii.eqb p "."%char then Some (num [f1; f2; f3; f4; f5; f6])
                      else None
                  | _ => None
                  end in
      if Ascii.eqb d1 "-"%char && Ascii.eqb d2 "-"%char && Ascii.eqb t "T"%char
         && Ascii.eqb c1 ":"%char && Ascii.eqb c2 ":"%char then
        match num [y1; y2; y3; y4], num [m1; m2], num [a1; a2],
              num [h1; h2], num [n1; n2], num [s1; s2], frac with
        | Some y, Some mo, Some dd, Some hh, Some mi, Some ss, Some (Some us) =>
            let d := {| year := y; month := mo; day := dd; hour := hh;
                        minute := mi; second := ss; microsecond := us |} in
            Some (if valid d then Some d else None)
        | _, _, _, _, _, _, _ => None
        end
      else None
  | _ => None
  end.

Section Parse.

(** [datetime.fromisoformat] on the shapes [fromisoformat_basic] does not
    cover (they differ between Python versions): [None] when it raises;
    otherwise the wall-clock fields, its offset being overwritten by
    [.replace(tzinfo=timezone.utc)]. *)
Variable fromisoformat_other : string -> option datetime.

Definition fromisoformat (s : string) : option datetime :=
  match fromisoformat_basic s with
  | Some r => r
  | None => fromisoformat_other s
  end.

(** [parse_rfc3339]: [None] when it raises. *)
Definition parse_rfc3339 (ts : string) : option datetime :=
  let ts := Py.rstrip_char "Z" ts in
  let ts := if Py.contains "." ts then
              match Py.split_once "." ts with
              | Some (base, frac) =>
                  base ++ "." ++ substring 0 6 (frac ++ "000000")
              | None => ts
              end
            else ts in
  fromisoformat ts.

End Parse.

End Time.

(** ** The host command gateway, the inventory and the two operations *)
Module Host.

Import Json Time.

(** The exceptions the modelled code raises or catches. *)
Inductive exn :=
| RuntimeError
| JSONDecodeError
| AttributeError
| TypeError
| ValueError
| OverflowError
| TimeoutExpired
| FileNotFoundError
| OSError
| RecursionError
| UnicodeDecodeError
| HTTPException (status_code : Z).

(** The exception [json.loads] raises on each kind of failure: a
    [UnicodeDecodeError] and a [JSONDecodeError] are [ValueError]s
    handled as their own classes, the digit limit raises a plain
    [ValueError]. *)
Definition exn_of_failure (f : failure) : exn :=
  match f with
  | Undecodable => UnicodeDecodeError
  | DecodeError => JSONDecodeError
  | IntTooLong => ValueError
  | TooDeep => RecursionError
  end.

(** [subprocess.CompletedProcess] with [text=True]. *)
Record completed := { returncode : Z; stdout : string; stderr : string }.

(** What a launched command does: it fails to start (raising), it exits
    after [seconds] seconds, or it never exits. *)
Inductive proc :=
| Launch_error (e : exn)
| Finished (seconds : Z) (r : completed)
| Never_exits.

(** Outcome of a computation: a value, an exception, or no return. *)
Inductive outcome (A : Type) :=
| Ok (a : A)
| Raise (e : exn)
| Diverge.
Arguments Ok {A} a.
Arguments Raise {A} e.
Arguments Diverge {A}.

(** [subprocess.run(full_cmd, check=False, capture_output=True, text=True,
    timeout=timeout)] on a command behaving as [p]. *)
Definition subprocess_run (timeout : option Z) (p : proc) : outcome completed :=
  match p, timeout with
  | Launch_error e, _ => Raise e
  | Finished secs r, Some t => if t <? secs then Raise TimeoutExpired else Ok r
  | Finished _ r, None => Ok r
  | Never_exits, Some _ => Raise TimeoutExpired
  | Never_exits, None => Diverge
  end.

Inductive level := Debug | Info | Warning | Error.

Section Program.

(** The host: its file system probes, command execution, free disk space
    ([shutil.disk_usage(path).free], or the exception it raises) and
    clock ([datetime.now(timezone.utc)]). *)
Variable World : Type.
Variable path_exists : World -> string -> bool.
Variable exec : World -> list string -> World * proc.
Variable disk_free : World -> string -> exn + Z.
Variable clock : World -> datetime.

(** [IN_CONTAINER], computed once at start-up by [is_container()]. *)
Variable IN_CONTAINER : bool.

(** [datetime.fromisoformat] outside the shapes modelled in [Time]. *)
Variable fromisoformat_other : string -> option datetime.

(** Truth value of a JSON float, given by its literal. *)
Variable float_truthy : string -> bool.

(** [sys.get_int_max_str_digits()] (4300 unless configured). *)
Variable int_max_str_digits : Z.

(** How many containers [json.loads] may nest, beyond the outermost one,
    before the recursion limit is reached: it depends on the stack depth
    of the call.  The service never lowers Python's recursion limit
    (1000) and calls [json.loads] a few dozen frames deep, so an outermost
    container always fits. *)
Variable json_depth : World -> nat.

(** Program state: the host, [image_lock], the log (level and leading
    text of each record) and, as instrumentation, the [cmd] argument of
    every [run_in_host] call. *)
Record St := { world : World; locked : bool; logs : list (level * string);
               cmds : list (list string) }.

Definition M (A : Type) := St -> outcome A * St.

Definition ret {A} (a : A) : M A := fun s => (Ok a, s).

Definition bind {A B} (m : M A) (k : A -> M B) : M B :=
  fun s => match m s with
           | (Ok a, s') => k a s'
           | (Raise e, s') => (Raise e, s')
           | (Diverge, s') => (Diverge, s')
           end.

Notation "x <- m ;; k" := (bind m (fun x => k))
  (at level 61, m at next level, right associativity).
Notation "m ;; k" := (bind m (fun _ => k)) (at level 61, right associativity).

Definition raise {A} (e : exn) : M A := fun s => (Raise e, s).

Definition log (l : level) (msg : string) : M unit :=
  fun s => (Ok tt, {| world := world s; locked := locked s;
                      logs := logs s ++ [(l, msg)]; cmds := cmds s |}).

(** [try: m except: h] *)
Definition catch {A} (m : M A) (h : exn -> M A) : M A :=
  fun s => match m s with
           | (Raise e, s') => h e s'
           | r => r
           end.

(** [with image_lock: body].  Acquiring a lock that is held blocks; with
    no other thread to release it, for ever. *)
Definition with_image_lock {A} (body : M A) : M A :=
  fun s =>
    if locked s then (Diverge, s)
    else
      match body {| world := world s; locked := true; logs := logs s;
                    cmds := cmds s |} with
      | (Diverge, s') => (Diverge, s')
      | (r, s') => (r, {| world := world s'; locked := false;
                          logs := logs s'; cmds := cmds s' |})
      end.

Definition now : M datetime := fun s => (Ok (clock (world s)), s).

Definition opt_raise {A} (e : exn) (o : option A) : M A :=
  match o with Some a => ret a | None => raise e end.

(** [json.loads(text)] on a [str], with its failure kept as a value. *)
Definition json_loads (text : string) : M (failure + json) :=
  fun s => (Ok (loads int_max_str_digits (S (json_depth (world s))) text), s).

(** The exception of a failed [json.loads]. *)
Definition raise_failure {A} (r : failure + A) : M A :=
  match r with inl f => raise (exn_of_failure f) | inr a => ret a end.

Fixpoint fold_m {A B} (f : A -> B -> M A) (acc : A) (l : list B) : M A :=
  match l with
  | [] => ret acc
  | b :: l' => a <- f acc b ;; fold_m f a l'
  end.

(** [run_in_host] *)
Definition full_cmd (w : World) (cmd : list string) : list string :=
  if IN_CONTAINER then
    if path_exists w "/host/nix"
    then ["chroot"; "/host"; "/nix/var/nix/profiles/system/sw/bin/crictl"] ++ cmd
    else ["chroot"; "/host"; "/usr/bin/crictl"] ++ cmd
  else
    if path_exists w "/nix/var/nix/profiles/system/sw/bin/crictl"
    then ["/nix/var/nix/profiles/system/sw/bin/crictl"] ++ cmd
    else ["/usr/bin/crictl"] ++ cmd.

Definition run_in_host (cmd : list string) : M completed :=
  fun s =>
    let (w', p) := exec (world s) (full_cmd (world s) cmd) in
    let s1 := {| world := w'; locked := locked s; logs := logs s;
                 cmds := cmds s ++ [cmd] |} in
    match subprocess_run None p with
    | Ok result =>
        (log Debug "Command completed with return code" ;;
         (if String.eqb (stderr result) EmptyString then ret tt
          else log Debug "Command stderr: ") ;;
         (if String.eqb (stdout result) EmptyString then ret tt
          else log Debug "Command stdout: ") ;;
         ret result) s1
    | Raise _ =>
        (log Debug "Error executing command " ;; raise RuntimeError) s1
    | Diverge => (Diverge, s1)
    end.

(** Python truth value of a decoded JSON value. *)
Definition truthy (v : json) : bool :=
  match v with
  | JNull => false
  | JBool b => b
  | JInt z => negb (z =? 0)
  | JFloat lit => float_truthy lit
  | JStr s => negb (String.eqb s EmptyString)
  | JArr l => match l with [] => false | _ => true end
  | JObj kvs => match kvs with [] => false | _ => true end
  end.

Definition json_eqb (a b : json) : bool :=
  match a, b with
  | JNull, JNull => true
  | JBool x, JBool y => Bool.eqb x y
  | JInt x, JInt y => x =? y
  | JFloat x, JFloat y => String.eqb x y
  | JStr x, JStr y => String.eqb x y
  | _, _ => false
  end.

(** [used.add(ref)]: a list or dict is unhashable.  The set is kept as a
    list without repeated elements. *)
Definition set_add (ref : json) (used : list json) : M (list json) :=
  match ref with
  | JArr _ | JObj _ => raise TypeError
  | _ => if existsb (json_eqb ref) used then ret used else ret (app used [ref])
  end.

(** [img in used_images] for a [str] image id. *)
Definition mem (img : string) (used : list json) : bool :=
  existsb (json_eqb (JStr img)) used.

(** [get_used_images] *)
Definition get_used_images : M (list json) :=
  ps <- run_in_host ["ps"; "-a"; "-q"] ;;
  if negb (returncode ps =? 0) then
    log Error "crictl ps failed: " ;; ret []
  else
    let ids := Py.splitlines (Py.strip (stdout ps)) in
    match ids with
    | [] => log Debug "No running containers found" ;; ret []
    | _ =>
        used <- fold_m (fun used cid =>
          log Debug "Checking container ID: " ;;
          insp <- run_in_host ["inspect"; cid] ;;
          if negb (returncode insp =? 0) then
            log Debug "Failed to inspect container " ;; ret used
          else
            parsed <- json_loads (stdout insp) ;;
            obj <- raise_failure parsed ;;
            st <- opt_raise AttributeError (get obj "status" (JObj [])) ;;
            ref <- opt_raise AttributeError (get st "imageRef" JNull) ;;
            if truthy ref then
              log Debug "Container uses image: " ;; set_add ref used
            else ret used) [] ids ;;
        log Info "Identified used images" ;;
        ret used
    end.

(** [get_all_images] *)
Definition get_all_images : M (list string) :=
  log Debug "Fetching list of all images" ;;
  img <- run_in_host ["images"; "-q"] ;;
  if negb (returncode img =? 0) then
    log Error "crictl images failed: " ;; ret []
  else
    let image_list := Py.splitlines (Py.strip (stdout img)) in
    log Debug "Found images to check: " ;;
    ret image_list.

(** [get_image_created] *)
Definition get_image_created (img_id : string) : M (option datetime) :=
  insp <- run_in_host ["inspecti"; img_id] ;;
  if negb (returncode insp =? 0) then
    log Error "Inspect failed for image " ;; ret None
  else
    (* [except json.JSONDecodeError] *)
    parsed <- json_loads (stdout insp) ;;
    match parsed with
    | inl DecodeError => ret None
    | inl f => raise (exn_of_failure f)
    | inr data =>
        info <- opt_raise AttributeError (get data "info" (JObj [])) ;;
        spec <- opt_raise AttributeError (get info "imageSpec" (JObj [])) ;;
        created <- opt_raise AttributeError (get spec "created" JNull) ;;
        if negb (truthy created) then ret None
        else
          (* [parse_rfc3339] raises on a non-string, caught by [except] *)
          match created with
          | JStr c => ret (parse_rfc3339 fromisoformat_other c)
          | _ => ret None
          end
    end.

(** The body of the [for img in all_images] loop of [run_prune], with
    the counters [(images_pruned, errors)].  [age_seconds] is the float
    [(now - created_dt).total_seconds()]; it is compared with the int
    [cutoff_seconds] exactly. *)
Definition prune_one (now_dt : datetime) (cutoff_seconds : Z)
    (used_images : list json) (counts : Z * Z) (img : string) : M (Z * Z) :=
  let '(images_pruned, errors) := counts in
  log Debug "Processing image: " ;;
  created_dt <- get_image_created img ;;
  match created_dt with
  | None =>
      log Warning "Could not determine creation time for image: " ;;
      ret counts
  | Some c =>
      let age_seconds := total_seconds (to_us now_dt - to_us c) in
      if float_lt_int age_seconds cutoff_seconds then
        log Debug "Skipping image: too new" ;; ret counts
      else if mem img used_images then
        log Debug "Skipping image: in use by running container" ;; ret counts
      else
        log Debug "Attempting to prune image: " ;;
        r <- run_in_host ["rmi"; img] ;;
        if negb (returncode r =? 0) then
          log Error "Failed to remove image " ;; ret (images_pruned, errors + 1)
        else
          log Info "Successfully pruned image: " ;; ret (images_pruned + 1, errors)
  end.

(** [run_prune] *)
Definition run_prune (days : Z) : M unit :=
  log Info "Pruning operation started" ;;
  counts <- with_image_lock (
    log Debug "Lock acquired for pruning operation" ;;
    now_dt <- now ;;
    let cutoff_seconds := days * 24 * 60 * 60 in
    used_images <- get_used_images ;;
    all_images <- get_all_images ;;
    log Info "Found total images, in use" ;;
    fold_m (prune_one now_dt cutoff_seconds used_images) (0, 0) all_images) ;;
  log Info "Pruning operation completed.".

(** [run_prune_job]: the scheduled prune, with [PRUNE_DAYS]. *)
Definition run_prune_job (PRUNE_DAYS : Z) : M unit :=
  log Info "Scheduled prune operation started" ;;
  run_prune PRUNE_DAYS.

Definition disk_usage_free (path : string) : M Z :=
  fun s => match disk_free (world s) path with
           | inl e => (Raise e, s)
           | inr f => (Ok f, s)
           end.

(** [run_pull].  [free / (1024 ** 3) > 50] is compared exactly. *)
Definition run_pull (image : string) : M unit :=
  log Debug "Lock acquired for pull operation on image: " ;;
  with_image_lock (
    log Debug "Lock acquired for pull operation on image: " ;;
    catch (
      let disk_path := if IN_CONTAINER then "/host" else "/" in
      free <- disk_usage_free disk_path ;;
      if 50 * 1024 ^ 3 <? free then
        result <- run_in_host ["pull"; image] ;;
        if returncode result =? 0 then
          log Info "Successfully pulled image: " ;;
          created_time <- get_image_created image ;;
          match created_time with
          | Some _ => log Debug "  Image creation time: "
          | None => log Warning "Image creation time missing"
          end
        else log Error "Failed to pull image "
      else log Warning "Insufficient storage available for pulling image: ")
    (fun e =>
       match e with
       | TimeoutExpired =>
           log Error "Pull operation timed out for image: , command was blocked after 30 minutes"
       | FileNotFoundError =>
           log Error "Required binary not found during pull for image "
       | _ => log Error "Unexpected error during pull for "
       end)) ;;
  log Debug "Lock released after pull operation for image: ".

End Program.

End Host.

(** ** The HTTP endpoints [POST /pull-image] and [POST /prune-images] *)
Module Http.

Import Json Host.

(** The response of a handler: an error status (an [HTTPException], or
    500 for an exception FastAPI does not map), or one of the two
    acknowledgements. *)
Inductive response :=
| RStatus (status_code : Z)
| ROkPull
| ROkPrune (days : Z).

Definition status_of (r : response) : Z :=
  match r with RStatus c => c | _ => 200 end.

(** Work handed to [background_tasks.add_task]. *)
Inductive task := TPull (image : string) | TPrune (days : Z).

Section Handlers.

Variable ipv6_address : string -> option Net.address.
Variable float_truthy : string -> bool.

(** [int(x)] on a JSON float, given by its literal: the integer, or the
    exception ([OverflowError] for infinities, [ValueError] for NaN). *)
Variable float_int : string -> exn + Z.

(** The decimal digits [int()] reads besides the ASCII ones: the value of
    a code point of Unicode category Nd. *)
Variable decimal : Z -> option Z.

(** [sys.get_int_max_str_digits()] *)
Variable int_max_str_digits : Z.

(** How many containers [json.loads] may nest in a request body, beyond
    the outermost one, before the recursion limit is reached (as for
    [Host.json_depth]). *)
Variable body_depth : nat.

(** [await request.json()]: [json.loads] on the body bytes. *)
Definition request_json (body : string) : failure + json :=
  loads_bytes int_max_str_digits (S body_depth) body.

(** [ALLOWED_NETWORK] *)
Variable ALLOWED_NETWORK : option Net.network.

(** [int(x)] on a decoded JSON value. *)
Definition py_int (v : json) : exn + Z :=
  match v with
  | JBool b => inr (if b then 1 else 0)
  | JInt z => inr z
  | JFloat lit => float_int lit
  | JStr s => match Py.int_of_str decimal int_max_str_digits s with
               | Some z => inr z
               | None => inl ValueError
               end
  | JNull | JArr _ | JObj _ => inl TypeError
  end.

(** The image-name rewriting of [pull_image]. *)
Definition normalize_image (image : string) : string :=
  if (Py.count "/" image <=? 1)%nat && negb (Py.startswith "docker.io/" image)
  then "docker.io/" ++ image
  else image.

(** [pull_image]: the client address and the request body. *)
Definition pull_image (remote_ip : string) (body : string)
  : response * list task :=
  if negb (Net.is_allowed_ip ipv6_address ALLOWED_NETWORK remote_ip) then
    (RStatus 403, [])
  else
    match request_json body with
    | inl _ => (RStatus 500, [])
    | inr data =>
        match get data "image" JNull with
        | None => (RStatus 500, [])
        | Some image =>
            if negb (truthy float_truthy image) then (RStatus 400, [])
            else
              match image with
              | JStr image =>
                  let image := normalize_image image in
                  if String.eqb image EmptyString || String.eqb (Py.strip image) EmptyString
                  then (RStatus 400, [])
                  else (ROkPull, [TPull image])
              | _ => (RStatus 500, [])
              end
        end
    end.

(** The inner [try] block of [prune_images]: the value of [days] it
    leaves, or the exception leaving it. *)
Definition prune_days_block (body : string) : exn + Z :=
  match request_json body with
  | inl f => inl (exn_of_failure f)
  | inr data =>
      if truthy float_truthy data then
        match get data "days" (JInt 14) with
        | None => inl AttributeError
        | Some days =>
            match py_int days with
            | inr d => inr d
            | inl TypeError | inl ValueError => inl (HTTPException 400)
            | inl e => inl e
            end
        end
      else inr 14
  end.

(** [prune_images] *)
Definition prune_images (remote_ip : string) (body : string)
  : response * list task :=
  if negb (Net.is_allowed_ip ipv6_address ALLOWED_NETWORK remote_ip) then
    (RStatus 403, [])
  else
    let days := match prune_days_block body with
                | inr d => d
                | inl _ => 14   (* [except Exception] *)
                end in
    (ROkPrune days, [TPrune days]).

End Handlers.

End Http.

(** ** Container detection and the prune scheduler

    [is_container], [configure_scheduler], [cleanup_scheduler] and the
    two lifecycle hooks [startup_event] and [shutdown_event]. *)
Module Startup.

Import Host.

(** [sub in s] for strings. *)
Fixpoint contains_sub (sub s : string) : bool :=
  String.prefix sub s ||
  match s with
  | EmptyString => false
  | String _ s' => contains_sub sub s'
  end.

(** [os.environ.get(k)]: the environment as its list of entries, keys
    distinct. *)
Definition env_get (environ : list (string * string)) (k : string) : option string :=
  option_map snd (find (fun kv => String.eqb (fst kv) k) environ).

(** [is_container]: [cgroup] is the outcome of reading [/proc/1/cgroup]
    (its text, or the exception raised by [open] or [read]: [OSError],
    of which [FileNotFoundError] and [IOError] are cases, or [ValueError]
    for a [UnicodeDecodeError]); [dockerenv] is
    [os.path.exists('/.dockerenv')]. *)
Definition is_container (cgroup : exn + string) (dockerenv : bool)
    (environ : list (string * string)) : exn + bool :=
  let methods_2_to_4 :=
    if dockerenv then inr true
    else if match env_get environ "KUBERNETES_SERVICE_HOST" with
            | Some v => negb (String.eqb v EmptyString)
            | None => false
            end then inr true
    else if existsb (fun env_var => String.prefix "DOCKER_" env_var
                                    || String.prefix "containerd_" env_var)
                    (map fst environ) then inr true
    else inr false in
  match cgroup with
  | inr cgroup_content =>
      if contains_sub "docker" cgroup_content || contains_sub "kubepods" cgroup_content
         || contains_sub "kublet" cgroup_content
      then inr true else methods_2_to_4
  | inl FileNotFoundError | inl OSError => methods_2_to_4
  | inl e => inl e
  end.

Section Scheduler.

(** APScheduler's triggers, and [CronTrigger.from_crontab]: [None] when
    it raises. *)
Variable Trigger : Type.
Variable from_crontab : string -> option Trigger.

(** The [BackgroundScheduler]: its job store (job id and trigger), whether
    it runs, and the service log. *)
Record sched := { jobs : list (string * Trigger); running : bool;
                  slogs : list (level * string) }.

Definition slog (l : level) (msg : string) (s : sched) : sched :=
  {| jobs := jobs s; running := running s; slogs := slogs s ++ [(l, msg)] |}.

(** [scheduler.add_job(run_prune_job, trigger=..., id=..., replace_existing=True)] *)
Definition add_job (id : string) (t : Trigger) (s : sched) : sched :=
  {| jobs := filter (fun j => negb (String.eqb (fst j) id)) (jobs s) ++ [(id, t)];
     running := running s; slogs := slogs s |}.

(** [scheduler.start()]: [None] when it raises
    [SchedulerAlreadyRunningError]. *)
Definition start (s : sched) : option sched :=
  if running s then None
  else Some {| jobs := jobs s; running := true; slogs := slogs s |}.

(** [configure_scheduler] *)
Definition configure_scheduler (PRUNE_SCHEDULE : string) (s : sched) : sched :=
  let on_error s :=
    slog Warning "Prune scheduler will not run; manual operation only"
      (slog Error "Failed to configure scheduler with cron expression '" s) in
  if String.eqb PRUNE_SCHEDULE EmptyString then s
  else
    match from_crontab PRUNE_SCHEDULE with
    | None => on_error s
    | Some trigger =>
        let s := add_job "image_prune_job" trigger s in
        let s := slog Info "Cron scheduler configured successfully with expression: " s in
        match start s with
        | None => on_error s
        | Some s => slog Info "Image prune scheduler started" s
        end
    end.

(** [cleanup_scheduler]: [remove_all_jobs], then [shutdown(wait=True)]. *)
Definition cleanup_scheduler (s : sched) : sched :=
  if running s then
    slog Info "Image prune scheduler stopped"
      {| jobs := []; running := false; slogs := slogs s |}
  else s.

Definition startup_event (PRUNE_SCHEDULE : string) (s : sched) : sched :=
  slog Info "Application startup complete" (configure_scheduler PRUNE_SCHEDULE s).

Definition shutdown_event (s : sched) : sched :=
  slog Info "Application shutdown complete" (cleanup_scheduler s).

(** The scheduler created at import time: no job, not started. *)
Definition fresh (logs0 : list (level * string)) : sched :=
  {| jobs := []; running := false; slogs := logs0 |}.

End Scheduler.

End Startup.

(** ** Interleavings of Pull and Prune bodies under [image_lock]

    Each thread runs [run_pull] (an HTTP background task) or [run_prune]
    (an HTTP background task or a scheduler fire).  Both enter their body
    through [with image_lock:] on the one module-level [threading.Lock];
    the body runs some number of atomic steps and leaves the [with] block
    normally or by an exception, releasing the lock either way. *)
Module Interleave.

Inductive op := OpPull | OpPrune.

Inductive pc := Before | Inside (steps_left : nat) | After.

Record thread := { t_op : op; t_pc : pc }.

Record config := { held : bool; threads : list thread }.

Fixpoint set_nth {A} (l : list A) (i : nat) (x : A) : list A :=
  match l, i with
  | [], _ => []
  | _ :: l', O => x :: l'
  | y :: l', S i' => y :: set_nth l' i' x
  end.

Definition in_body (t : thread) : bool :=
  match t_pc t with Inside _ => true | _ => false end.

Definition bodies_running (ts : list thread) : nat :=
  List.length (filter in_body ts).

Inductive step : config -> config -> Prop :=
| step_spawn c o :
    step c {| held := held c; threads := threads c ++ [{| t_op := o; t_pc := Before |}] |}
| step_acquire c i t n :
    nth_error (threads c) i = Some t -> t_pc t = Before -> held c = false ->
    step c {| held := true;
              threads := set_nth (threads c) i {| t_op := t_op t; t_pc := Inside n |} |}
| step_body c i t n :
    nth_error (threads c) i = Some t -> t_pc t = Inside (S n) ->
    step c {| held := held c;
              threads := set_nth (threads c) i {| t_op := t_op t; t_pc := Inside n |} |}
| step_exit c i t n :
    nth_error (threads c) i = Some t -> t_pc t = Inside n ->
    step c {| held := false;
              threads := set_nth (threads c) i {| t_op := t_op t; t_pc := After |} |}.

Definition init : config := {| held := false; threads := [] |}.

Inductive reachable : config -> Prop :=
| reach_init : reachable init
| reach_step c c' : reachable c -> step c c' -> reachable c'.

End Interleave.

(** ** Concrete hosts and requests, used to evaluate the definitions *)
Module Fixtures.

Import Host Json Time.

(** Text with ['] standing for the double quote. *)
Definition dq (s : string) : string :=
  string_of_list_ascii
    (map (fun c => if Ascii.eqb c "'"%char then Py.dquote else c)
         (list_ascii_of_string s)).

(** Lines joined by "\n", each one terminated. *)
Definition lines (l : list string) : string :=
  fold_right (fun x acc => x ++ String (Py.chr 10) acc) EmptyString l.

Definition dt (y mo d h mi s us : Z) : datetime :=
  {| year := y; month := mo; day := d; hour := h; minute := mi;
     second := s; microsecond := us |}.

(** A host outside a container, without /nix, whose commands answer as
    [resp] (given the [cmd] part of the command line). *)
Definition no_paths (_ : unit) (_ : string) : bool := false.

Definition host_exec (resp : list string -> proc) (_ : unit) (full : list string)
  : unit * proc := (tt, resp (tl full)).

Definition disk (free : Z) (_ : unit) (_ : string) : exn + Z := inr free.

Definition clock_2024 (_ : unit) : datetime := dt 2024 6 1 0 0 0 0.

Definition no_other_iso (_ : string) : option datetime := None.

Definition floats_true (_ : string) : bool := true.

Definition float_int_none (_ : string) : exn + Z := inl OverflowError.

Definition no_v6_net (_ : string) : option Net.network := None.

(** The default [sys.get_int_max_str_digits()]. *)
Definition MAX_DIGITS : Z := 4300.

(** A stack with room for 900 more nested containers. *)
Definition depth_900 (_ : unit) : nat := 900.

Definition BODY_DEPTH : nat := 900.

(** The first code points of the 65 blocks of ten non-ASCII decimal
    digits (Unicode category Nd) of Python 3.11. *)
Definition nd_blocks : list Z :=
  [1632; 1776; 1984; 2406; 2534; 2662; 2790; 2918; 3046; 3174; 3302; 3430;
   3558; 3664; 3792; 3872; 4160; 4240; 6112; 6160; 6470; 6608; 6784; 6800;
   6992; 7088; 7232; 7248; 42528; 43216; 43264; 43472; 43504; 43600; 44016;
   65296; 66720; 68912; 69734; 69872; 69942; 70096; 70384; 70736; 70864;
   71248; 71360; 71472; 71904; 72016; 72784; 73040; 73120; 92768; 92864;
   93008; 120782; 120792; 120802; 120812; 120822; 123200; 123632; 125264;
   130032].

Definition decimal_nd (cp : Z) : option Z :=
  match find (fun b => (b <=? cp) && (cp <? b + 10)) nd_blocks with
  | Some b => Some (cp - b)
  | None => None
  end.

Definition no_v6_addr (_ : string) : option Net.address := None.

Definition ok (out : string) : proc :=
  Finished 1 {| returncode := 0; stdout := out; stderr := EmptyString |}.

Definition failed : proc :=
  Finished 1 {| returncode := 1; stdout := EmptyString; stderr := "error" |}.

Definition is_cmd (c p : list string) : bool :=
  if list_eq_dec string_dec c p then true else false.

(** Images A (young), B (old, used by container c1), C (old, unused). *)
Definition prune_host (cmd : list string) : proc :=
  if is_cmd cmd ["ps"; "-a"; "-q"] then ok (lines ["c1"])
  else if is_cmd cmd ["inspect"; "c1"] then ok (dq "{'status': {'imageRef': 'B'}}")
  else if is_cmd cmd ["images"; "-q"] then ok (lines ["A"; "B"; "C"])
  else if is_cmd cmd ["inspecti"; "A"] then
    ok (dq "{'info': {'imageSpec': {'created': '2024-05-30T00:00:00Z'}}}")
  else if is_cmd cmd ["inspecti"; "B"] || is_cmd cmd ["inspecti"; "C"] then
    ok (dq "{'info': {'imageSpec': {'created': '2020-01-01T00:00:00.5Z'}}}")
  else if is_cmd cmd ["rmi"; "C"] then ok EmptyString
  else failed.



(** A container whose inspection prints text that is not JSON. *)
Definition bad_inspect_host (cmd : list string) : proc :=
  if is_cmd cmd ["ps"; "-a"; "-q"] then ok (lines ["c1"; "c2"])
  else if is_cmd cmd ["inspect"; "c1"] then ok "not json"
  else if is_cmd cmd ["inspect"; "c2"] then ok (dq "{'status': {'imageRef': 'B'}}")
  else if is_cmd cmd ["images"; "-q"] then ok EmptyString
  else failed.

(** An image whose inspection has a null [info]. *)
Definition null_info_host (cmd : list string) : proc :=
  if is_cmd cmd ["inspecti"; "img"] then ok (dq "{'info': null}") else failed.

(** A registry that never answers the pull. *)
Definition hanging_pull_host (cmd : list string) : proc :=
  if is_cmd cmd ["pull"; "docker.io/nginx"] then Never_exits else failed.

Definition pull_ok_host (cmd : list string) : proc :=
  if is_cmd cmd ["pull"; "docker.io/nginx"] then ok EmptyString else failed.

Definition st0 : St unit :=
  {| world := tt; locked := false; logs := []; cmds := [] |}.

Definition GiB : Z := 1024 ^ 3.


(** [0.0.0.0/1], the network of the default [ALLOWED_NETWORK]. *)
Definition net_0_0_0_0_1 : Net.network :=
  {| Net.net_version := 4; Net.network_address := 0;
     Net.netmask := 2147483648; Net.prefixlen := 1 |}.

End Fixtures.

(** ** The eviction policy as the specification states it

    [Decide(image, now, thresholdDays, used)]: an image of unknown
    creation time is kept; one younger than [thresholdDays * 86400]
    seconds is kept; one referenced by a container is kept; any other is
    evicted. *)
Module Policy.

Import Host Time.




End Policy.

(** ** Commands only accumulate

    [grows m]: whatever the state, [m] leaves the commands run so far in
    place and may only append to them. *)
Module Frame.

Import Host.

Definition grows {World A} (m : M World A) : Prop :=
  forall s, exists l, cmds World (snd (m s)) = app (cmds World s) l.

(** [keeps Pc Pl m]: [m] only appends to the commands run and to the
    log, every appended command satisfying [Pc] and every appended log
    record [Pl]. *)
Definition keeps {World A} (Pc : list string -> Prop) (Pl : level * string -> Prop)
    (m : M World A) : Prop :=
  forall s, exists lc ll,
    cmds World (snd (m s)) = app (cmds World s) lc /\ Forall Pc lc /\
    logs World (snd (m s)) = app (logs World s) ll /\ Forall Pl ll.

(** The log records [run_in_host] writes. *)
Definition host_log (e : level * string) : Prop :=
  e = (Debug, "Command completed with return code") \/
  e = (Debug, "Command stderr: ") \/
  e = (Debug, "Command stdout: ") \/
  e = (Debug, "Error executing command ").

(** [raises_only E m]: every exception [m] raises satisfies [E]. *)
Definition raises_only {World A} (E : exn -> Prop) (m : M World A) : Prop :=
  forall s e, fst (m s) = Raise e -> E e.

End Frame.

(** * Properties *)

Module Props.

Import Host Json Time Http Fixtures.

(** ** Helper lemmas *)

Lemma land_bit31_zero (a : Z) :
  (Z.land a 2147483648 =? 0) = negb (Z.testbit a 31).
Proof.
  change 2147483648 with (2 ^ 31).
  destruct (Z.testbit a 31) eqn:Hb; cbn [negb].
  - apply Z.eqb_neq. intro H0.
    assert (Ht : Z.testbit (Z.land a (2 ^ 31)) 31 = true).
    { rewrite Z.land_spec, Hb, Z.pow2_bits_true; [reflexivity | lia]. }
    rewrite H0 in Ht. discriminate.
  - apply Z.eqb_eq. apply Z.bits_inj'. intros n Hn.
    rewrite Z.land_spec, Z.bits_0, Z.pow2_bits_eqb by lia.
    destruct (Z.eqb_spec 31 n) as [<- | _].
    + rewrite Hb. reflexivity.
    + apply andb_false_r.
Qed.

(** Every byte of a whitespace character. *)
Definition space_bytes : list ascii := List.concat (map Py.utf8 Py.space_cps).

Lemma concat_chars_aux (l cur : list ascii) :
  List.concat (Py.chars_aux l cur) = app (rev cur) l.
Proof.
  revert cur. induction l as [|c l IH]; intro cur; simpl.
  - destruct cur; simpl; [reflexivity|]. rewrite !app_nil_r. reflexivity.
  - destruct (Py.is_cont c).
    + rewrite IH. simpl. rewrite <- app_assoc. reflexivity.
    + destruct cur as [|d cur']; [apply IH|].
      simpl. rewrite IH. simpl. rewrite <- !app_assoc. reflexivity.
Qed.

Lemma in_chars (s : string) (c : ascii) :
  In c (list_ascii_of_string s) -> exists ch, In ch (Py.chars s) /\ In c ch.
Proof.
  intro H. apply in_concat. unfold Py.chars. rewrite concat_chars_aux. exact H.
Qed.

Lemma space_chunk_bytes (ch : list ascii) (c : ascii) :
  Py.is_space ch = true -> In c ch -> In c space_bytes.
Proof.
  unfold Py.is_space, Py.char_in, space_bytes. intros Hs Hc.
  apply existsb_exists in Hs as [cp [Hcp Heq]].
  unfold Py.bytes_eqb in Heq.
  destruct (list_eq_dec ascii_dec (Py.utf8 cp) ch) as [E|]; [|discriminate].
  apply in_concat. exists (Py.utf8 cp). split; [apply in_map; exact Hcp|].
  rewrite E. exact Hc.
Qed.

Lemma drop_spaces_keeps (l : list (list ascii)) (ch : list ascii) :
  In ch l -> Py.is_space ch = false -> In ch (Py.drop_spaces l).
Proof.
  induction l as [|d l IH]; simpl; [tauto|].
  intros [-> | Hin] Hc.
  - rewrite Hc. left. reflexivity.
  - destruct (Py.is_space d); [apply IH; assumption | right; assumption].
Qed.

Lemma strip_nonempty (s : string) (c : ascii) :
  In c (list_ascii_of_string s) -> ~ In c space_bytes ->
  Py.strip s <> EmptyString.
Proof.
  intros Hin Hc. unfold Py.strip.
  destruct (in_chars s c Hin) as [ch [Hch Hcch]].
  assert (Hns : Py.is_space ch = false).
  { destruct (Py.is_space ch) eqn:E; [|reflexivity].
    exfalso. exact (Hc (space_chunk_bytes ch c E Hcch)). }
  pose proof (drop_spaces_keeps _ _ Hch Hns) as H1.
  apply in_rev in H1.
  pose proof (drop_spaces_keeps _ _ H1 Hns) as H2.
  apply in_rev in H2.
  assert (H3 : In c (List.concat (rev (Py.drop_spaces (rev (Py.drop_spaces (Py.chars s)))))))
    by (apply in_concat; exists ch; split; assumption).
  destruct (List.concat (rev (Py.drop_spaces (rev (Py.drop_spaces (Py.chars s))))));
    [destruct H3 | discriminate].
Qed.

Lemma count_pos_in (c : ascii) (s : string) :
  (1 <= Py.count c s)%nat -> In c (list_ascii_of_string s).
Proof.
  unfold Py.count. intro H.
  destruct (filter (fun d => Ascii.eqb d c) (list_ascii_of_string s)) as [|x r] eqn:Hf;
    simpl in H; [lia|].
  assert (Hx : In x (filter (fun d => Ascii.eqb d c) (list_ascii_of_string s)))
    by (rewrite Hf; left; reflexivity).
  apply filter_In in Hx as [Hx Heq].
  apply Ascii.eqb_eq in Heq. subst. assumption.
Qed.

Lemma startswith_docker_head (s : string) :
  Py.startswith "docker.io/" s = true -> In "d"%char (list_ascii_of_string s).
Proof.
  unfold Py.startswith. destruct s as [|b s']; [discriminate|].
  cbn [String.prefix list_ascii_of_string].
  destruct (ascii_dec "d" b) as [<- | _]; [left; reflexivity | discriminate].
Qed.

Lemma normalize_image_nonblank (s : string) :
  s <> EmptyString ->
  String.eqb (normalize_image s) EmptyString = false /\
  String.eqb (Py.strip (normalize_image s)) EmptyString = false.
Proof.
  intro Hs.
  assert (Hne : forall t, Py.strip t <> EmptyString -> t <> EmptyString).
  { intros t Ht ->. apply Ht. reflexivity. }
  assert (Hstrip : Py.strip (normalize_image s) <> EmptyString).
  { unfold normalize_image.
    destruct ((Py.count "/" s <=? 1)%nat && negb (Py.startswith "docker.io/" s)) eqn:Hc.
    - apply (strip_nonempty _ "d"%char); [left; reflexivity | vm_compute; intuition discriminate].
    - apply andb_false_iff in Hc as [Hc | Hc].
      + apply Nat.leb_gt in Hc.
        apply (strip_nonempty _ "/"%char); [apply count_pos_in; lia | vm_compute; intuition discriminate].
      + apply negb_false_iff in Hc.
        apply (strip_nonempty _ "d"%char);
          [apply startswith_docker_head; assumption | vm_compute; intuition discriminate]. }
  split; apply String.eqb_neq; [apply Hne|]; assumption.
Qed.


Section MonadFacts.

Context {World : Type}.

Lemma bind_ok {A B} (m : M World A) (k : A -> M World B) s a s' :
  m s = (Ok a, s') -> bind World m k s = k a s'.
Proof. intro H. unfold bind. rewrite H. reflexivity. Qed.

Lemma bind_raise {A B} (m : M World A) (k : A -> M World B) s e s' :
  m s = (Raise e, s') -> bind World m k s = (Raise e, s').
Proof. intro H. unfold bind. rewrite H. reflexivity. Qed.

Lemma bind_diverge {A B} (m : M World A) (k : A -> M World B) s s' :
  m s = (Diverge, s') -> bind World m k s = (Diverge, s').
Proof. intro H. unfold bind. rewrite H. reflexivity. Qed.

Lemma log_step (l : level) (msg : string) (s : St World) :
  log World l msg s
  = (Ok tt, {| world := world World s; locked := locked World s;
               logs := app (logs World s) [(l, msg)]; cmds := cmds World s |}).
Proof. reflexivity. Qed.

Variable path_exists : World -> string -> bool.
Variable exec : World -> list string -> World * proc.
Variable IN_CONTAINER : bool.

(** A command that exits: [run_in_host] returns its result, records the
    command and changes nothing but the host and the log. *)
Lemma run_in_host_finished (cmd : list string) (s : St World) w' secs r :
  exec (world World s) (full_cmd World path_exists IN_CONTAINER (world World s) cmd)
    = (w', Finished secs r) ->
  exists lg, run_in_host World path_exists exec IN_CONTAINER cmd s
             = (Ok r, {| world := w'; locked := locked World s; logs := lg;
                         cmds := app (cmds World s) [cmd] |}).
Proof.
  intro H. unfold run_in_host. rewrite H. cbn [subprocess_run].
  destruct (String.eqb (stderr r) EmptyString), (String.eqb (stdout r) EmptyString);
    eexists; reflexivity.
Qed.

(** A command that never exits: [run_in_host] never returns. *)
Lemma run_in_host_never_exits (cmd : list string) (s : St World) w' :
  exec (world World s) (full_cmd World path_exists IN_CONTAINER (world World s) cmd)
    = (w', Never_exits) ->
  run_in_host World path_exists exec IN_CONTAINER cmd s
  = (Diverge, {| world := w'; locked := locked World s; logs := logs World s;
                 cmds := app (cmds World s) [cmd] |}).
Proof. intro H. unfold run_in_host. rewrite H. reflexivity. Qed.

(** [run_in_host] never raises [TimeoutExpired]: no timeout is passed to
    [subprocess.run], and any exception becomes a [RuntimeError]. *)
Lemma run_in_host_no_timeout (cmd : list string) (s : St World) :
  fst (run_in_host World path_exists exec IN_CONTAINER cmd s) <> Raise TimeoutExpired.
Proof.
  unfold run_in_host.
  destruct (exec (world World s) (full_cmd World path_exists IN_CONTAINER (world World s) cmd))
    as [w' [e|secs r|]]; cbn; [discriminate| |discriminate].
  destruct (String.eqb (stderr r) EmptyString), (String.eqb (stdout r) EmptyString);
    cbn; discriminate.
Qed.

End MonadFacts.

Section Grows.

Import Frame.

Context {World : Type}.
Variable path_exists : World -> string -> bool.
Variable exec : World -> list string -> World * proc.
Variable IN_CONTAINER : bool.
Variable fo : string -> option datetime.
Variable ft : string -> bool.
Variable mx : Z.
Variable jd : World -> nat.

Lemma grows_ret {A} (a : A) : grows (ret World a).
Proof. intro s. exists []. cbn. symmetry. apply app_nil_r. Qed.

Lemma grows_raise {A} (e : exn) : grows (raise World (A := A) e).
Proof. intro s. exists []. cbn. symmetry. apply app_nil_r. Qed.

Lemma grows_log (l : level) (msg : string) : grows (log World l msg).
Proof. intro s. exists []. cbn. symmetry. apply app_nil_r. Qed.

Lemma grows_opt_raise {A} (e : exn) (o : option A) : grows (opt_raise World e o).
Proof. destruct o; [apply grows_ret | apply grows_raise]. Qed.

Lemma grows_json_loads (text : string) : grows (json_loads World mx jd text).
Proof. intro s. exists []. cbn. symmetry. apply app_nil_r. Qed.

Lemma grows_raise_failure {A} (r : failure + A) : grows (raise_failure World r).
Proof. destruct r; [apply grows_raise | apply grows_ret]. Qed.

Lemma grows_bind {A B} (m : M World A) (k : A -> M World B) :
  grows m -> (forall a, grows (k a)) -> grows (bind World m k).
Proof.
  intros Hm Hk s. unfold bind.
  destruct (Hm s) as [l1 E1].
  destruct (m s) as [[a|e|] s1] eqn:Em; cbn [snd] in E1 |- *.
  - destruct (Hk a s1) as [l2 E2]. exists (app l1 l2).
    rewrite E2, E1, app_assoc. reflexivity.
  - exists l1. exact E1.
  - exists l1. exact E1.
Qed.

Lemma grows_run_in_host (cmd : list string) :
  grows (run_in_host World path_exists exec IN_CONTAINER cmd).
Proof.
  intro s. unfold run_in_host.
  destruct (exec (world World s) (full_cmd World path_exists IN_CONTAINER (world World s) cmd))
    as [w' [e|secs r|]]; cbn; [eexists; reflexivity| |eexists; reflexivity].
  destruct (String.eqb (stderr r) EmptyString), (String.eqb (stdout r) EmptyString);
    cbn; eexists; reflexivity.
Qed.

Ltac grows_tac :=
  repeat match goal with
  | |- forall _, _ => intro
  | |- grows (bind World _ _) => apply grows_bind
  | |- grows (ret World _) => apply grows_ret
  | |- grows (raise World _) => apply grows_raise
  | |- grows (log World _ _) => apply grows_log
  | |- grows (opt_raise World _ _) => apply grows_opt_raise
  | |- grows (json_loads World mx jd _) => apply grows_json_loads
  | |- grows (raise_failure World _) => apply grows_raise_failure
  | |- grows (run_in_host World path_exists exec IN_CONTAINER _) => apply grows_run_in_host
  | |- grows (if ?b then _ else _) => destruct b
  | |- grows (match ?x with _ => _ end) => destruct x
  end.

Lemma grows_get_image_created (img : string) :
  grows (get_image_created World path_exists exec IN_CONTAINER fo ft mx jd img).
Proof. unfold get_image_created. grows_tac. Qed.

Lemma grows_catch {A} (m : M World A) (h : exn -> M World A) :
  grows m -> (forall e, grows (h e)) -> grows (catch World m h).
Proof.
  intros Hm Hh s. unfold catch.
  destruct (Hm s) as [l1 E1].
  destruct (m s) as [[a|e|] s1] eqn:Em; cbn [snd] in E1 |- *; try (exists l1; exact E1).
  destruct (Hh e s1) as [l2 E2]. exists (app l1 l2).
  rewrite E2, E1, app_assoc. reflexivity.
Qed.

Lemma bind_cmds {A B} (m : M World A) (k : A -> M World B) s :
  (forall a, grows (k a)) ->
  exists l, cmds World (snd (bind World m k s)) = app (cmds World (snd (m s))) l.
Proof.
  intros Hk. unfold bind.
  destruct (m s) as [[a|e|] s1]; cbn [snd]; [apply Hk | |];
    exists []; symmetry; apply app_nil_r.
Qed.

Lemma catch_cmds {A} (m : M World A) (h : exn -> M World A) s :
  (forall e, grows (h e)) ->
  exists l, cmds World (snd (catch World m h s)) = app (cmds World (snd (m s))) l.
Proof.
  intros Hh. unfold catch.
  destruct (m s) as [[a|e|] s1]; cbn [snd]; [| apply Hh |];
    exists []; symmetry; apply app_nil_r.
Qed.

Lemma run_in_host_cmds (cmd : list string) s :
  cmds World (snd (run_in_host World path_exists exec IN_CONTAINER cmd s))
  = app (cmds World s) [cmd].
Proof.
  unfold run_in_host.
  destruct (exec (world World s) (full_cmd World path_exists IN_CONTAINER (world World s) cmd))
    as [w' [e|secs r|]]; cbn; [reflexivity| |reflexivity].
  destruct (String.eqb (stderr r) EmptyString), (String.eqb (stdout r) EmptyString);
    reflexivity.
Qed.

Lemma with_image_lock_cmds {A} (body : M World A) s :
  locked World s = false ->
  cmds World (snd (with_image_lock World body s))
  = cmds World (snd (body {| world := world World s; locked := true;
                             logs := logs World s; cmds := cmds World s |})).
Proof.
  intro Hl. unfold with_image_lock. rewrite Hl.
  destruct (body _) as [[a|e|] s1]; reflexivity.
Qed.

(** [with image_lock:] releases the lock whenever its body returns or
    raises. *)
Lemma with_image_lock_released {A} (body : M World A) s :
  locked World s = false ->
  fst (with_image_lock World body s) <> Diverge ->
  locked World (snd (with_image_lock World body s)) = false.
Proof.
  intros Hl. unfold with_image_lock. rewrite Hl.
  destruct (body _) as [[a|e|] s1]; cbn; auto. congruence.
Qed.

(** A final log line changes neither the lock nor whether the
    computation returns. *)
Lemma bind_log_locked {A} (m : M World A) (l : level) (msg : string) s :
  locked World (snd (bind World m (fun _ => log World l msg) s)) = locked World (snd (m s)) /\
  (fst (bind World m (fun _ => log World l msg) s) <> Diverge -> fst (m s) <> Diverge).
Proof.
  unfold bind. destruct (m s) as [[a|e|] s1]; cbn; split; auto; intros _; discriminate.
Qed.

Variable disk_free : World -> string -> exn + Z.

(** With [image_lock] free and more than 50 GiB free, the first command
    [run_pull] runs is the pull of the image. *)
Lemma run_pull_invokes_pull (image : string) (s : St World) (free : Z) :
  locked World s = false ->
  disk_free (world World s) (if IN_CONTAINER then "/host" else "/") = inr free ->
  50 * 1024 ^ 3 < free ->
  exists rest,
    cmds World (snd (run_pull World path_exists exec disk_free IN_CONTAINER fo ft mx jd image s))
    = app (cmds World s) (["pull"; image] :: rest).
Proof.
  intros Hl Hd Hf. apply Z.ltb_lt in Hf.
  unfold run_pull.
  rewrite (bind_ok _ _ _ _ _ (log_step _ _ s)).
  match goal with |- context [cmds World (snd (bind World ?m ?k ?st))] =>
    destruct (bind_cmds m k st) as [l1 E1]; [intros; apply grows_log|] end.
  rewrite E1. clear E1.
  rewrite with_image_lock_cmds by exact Hl.
  rewrite (bind_ok _ _ _ _ _ (log_step _ _ _)).
  match goal with |- context [cmds World (snd (catch World ?m ?h ?st))] =>
    destruct (catch_cmds m h st) as [l2 E2]; [intros e; destruct e; apply grows_log|] end.
  match goal with |- context [catch World ?m ?h ?st] =>
    set (s3 := st) in *; set (body := m) in *; set (hd := h) in * end.
  assert (Hdu : disk_usage_free World disk_free (if IN_CONTAINER then "/host" else "/") s3
                = (Ok free, s3)) by (unfold disk_usage_free; cbn [s3 world]; rewrite Hd; reflexivity).
  assert (Hb : exists l3, cmds World (snd (body s3))
                          = app (cmds World s3) (["pull"; image] :: l3)).
  { unfold body. rewrite (bind_ok _ _ _ _ _ Hdu). rewrite Hf.
    match goal with |- context [cmds World (snd (bind World ?m ?k ?st))] =>
      destruct (bind_cmds m k st) as [l3 E3];
      [|rewrite E3, run_in_host_cmds; exists l3; rewrite <- app_assoc; reflexivity] end.
    intro r. destruct (returncode r =? 0); [|apply grows_log].
    apply grows_bind; [apply grows_log|]. intros [].
    apply grows_bind; [apply grows_get_image_created|].
    intros [c|]; apply grows_log. }
  destruct Hb as [l3 Hb].
  destruct (catch World body hd s3) as [[u|e|] s4] eqn:Ec; cbn [snd fst] in E2 |- *;
    rewrite Hb in E2; rewrite E2.
  all: exists (app l3 (app l2 l1)); cbn [s3 cmds]; rewrite <- !app_assoc; reflexivity.
Qed.

End Grows.

Section Keeps.

Import Frame.

Context {World : Type}.
Variable Pc : list string -> Prop.
Variable Pl : level * string -> Prop.

Lemma keeps_ret {A} (a : A) : keeps Pc Pl (ret World a).
Proof.
  intro s. exists [], []. cbn. rewrite !app_nil_r. auto.
Qed.

Lemma keeps_raise {A} (e : exn) : keeps Pc Pl (raise World (A := A) e).
Proof.
  intro s. exists [], []. cbn. rewrite !app_nil_r. auto.
Qed.

Lemma keeps_log (l : level) (msg : string) :
  Pl (l, msg) -> keeps Pc Pl (log World l msg).
Proof.
  intros H s. exists [], [(l, msg)]. cbn. rewrite app_nil_r. auto.
Qed.

Lemma keeps_opt_raise {A} (e : exn) (o : option A) : keeps Pc Pl (opt_raise World e o).
Proof. destruct o; [apply keeps_ret | apply keeps_raise]. Qed.

Lemma keeps_bind {A B} (m : M World A) (k : A -> M World B) :
  keeps Pc Pl m -> (forall a, keeps Pc Pl (k a)) -> keeps Pc Pl (bind World m k).
Proof.
  intros Hm Hk s. unfold bind.
  destruct (Hm s) as (lc1 & ll1 & C1 & F1 & L1 & G1).
  destruct (m s) as [[a|e|] s1]; cbn [snd] in C1, L1 |- *.
  - destruct (Hk a s1) as (lc2 & ll2 & C2 & F2 & L2 & G2).
    exists (app lc1 lc2), (app ll1 ll2).
    rewrite C2, C1, L2, L1, !app_assoc.
    repeat split; auto; apply Forall_app; auto.
  - exists lc1, ll1. auto.
  - exists lc1, ll1. auto.
Qed.

Lemma keeps_catch_only {A} (E : exn -> Prop) (m : M World A) (h : exn -> M World A) :
  keeps Pc Pl m -> raises_only E m -> (forall e, E e -> keeps Pc Pl (h e)) ->
  keeps Pc Pl (catch World m h).
Proof.
  intros Hm He Hh s. unfold catch.
  destruct (Hm s) as (lc1 & ll1 & C1 & F1 & L1 & G1).
  specialize (He s).
  destruct (m s) as [[a|e|] s1]; cbn [snd fst] in C1, L1, He |- *.
  - exists lc1, ll1. auto.
  - destruct (Hh e (He e eq_refl) s1) as (lc2 & ll2 & C2 & F2 & L2 & G2).
    exists (app lc1 lc2), (app ll1 ll2).
    rewrite C2, C1, L2, L1, !app_assoc.
    repeat split; auto; apply Forall_app; auto.
  - exists lc1, ll1. auto.
Qed.

Lemma keeps_catch {A} (m : M World A) (h : exn -> M World A) :
  keeps Pc Pl m -> (forall e, keeps Pc Pl (h e)) -> keeps Pc Pl (catch World m h).
Proof.
  intros Hm Hh. apply (keeps_catch_only (fun _ => True)); auto.
  intros s e _. exact I.
Qed.

Lemma keeps_with_image_lock {A} (body : M World A) :
  keeps Pc Pl body -> keeps Pc Pl (with_image_lock World body).
Proof.
  intros Hb s. unfold with_image_lock.
  destruct (locked World s).
  - exists [], []. cbn. rewrite !app_nil_r. auto.
  - destruct (Hb {| world := world World s; locked := true; logs := logs World s;
                    cmds := cmds World s |}) as (lc & ll & C & F & L & G).
    cbn [cmds logs] in C, L.
    destruct (body _) as [[a|e|] s1]; cbn [snd cmds logs] in C, L |- *;
      exists lc, ll; auto.
Qed.

Lemma keeps_now (clock : World -> datetime) : keeps Pc Pl (now World clock).
Proof.
  intro s. exists [], []. cbn. rewrite !app_nil_r. auto.
Qed.

Lemma keeps_disk_usage_free (disk_free : World -> string -> exn + Z) (path : string) :
  keeps Pc Pl (disk_usage_free World disk_free path).
Proof.
  intro s. unfold disk_usage_free. exists [], [].
  destruct (disk_free (world World s) path); cbn; rewrite !app_nil_r; auto.
Qed.

Lemma keeps_fold_m {A B} (f : A -> B -> M World A) :
  (forall a b, keeps Pc Pl (f a b)) -> forall l acc, keeps Pc Pl (fold_m World f acc l).
Proof.
  intros Hf l. induction l as [|b l IH]; intro acc; cbn [fold_m].
  - apply keeps_ret.
  - apply keeps_bind; auto.
Qed.

Lemma keeps_json_loads (mx : Z) (jd : World -> nat) (text : string) :
  keeps Pc Pl (json_loads World mx jd text).
Proof.
  intro s. exists [], []. cbn. rewrite !app_nil_r. auto.
Qed.

Lemma keeps_set_add (ref : json) (used : list json) : keeps Pc Pl (set_add World ref used).
Proof.
  unfold set_add. destruct ref; try apply keeps_raise;
    destruct (existsb _ used); apply keeps_ret.
Qed.

Variable path_exists : World -> string -> bool.
Variable exec : World -> list string -> World * proc.
Variable IN_CONTAINER : bool.

Lemma keeps_run_in_host (cmd : list string) :
  Pc cmd -> (forall e, host_log e -> Pl e) ->
  keeps Pc Pl (run_in_host World path_exists exec IN_CONTAINER cmd).
Proof.
  intros Hc Hl s. unfold run_in_host, host_log in *.
  destruct (exec (world World s) (full_cmd World path_exists IN_CONTAINER (world World s) cmd))
    as [w' [e|secs r|]]; cbn.
  - exists [cmd], [(Debug, "Error executing command ")]. repeat split; auto 10.
  - destruct (String.eqb (stderr r) EmptyString), (String.eqb (stdout r) EmptyString); cbn;
      eexists [cmd], _; (split; [reflexivity|]); (split; [auto|]);
      (split; [rewrite <- ?app_assoc; reflexivity|]); cbn [app]; repeat constructor; auto 10.
  - exists [cmd], []. rewrite app_nil_r. auto.
Qed.

End Keeps.

Section RaisesOnly.

Import Frame.

Context {World : Type}.
Variable E : exn -> Prop.

Lemma ro_ret {A} (a : A) : raises_only E (ret World a).
Proof. intros s e H. discriminate H. Qed.

Lemma ro_raise {A} (e : exn) : E e -> raises_only E (raise World (A := A) e).
Proof. intros He s e' H. injection H as <-. exact He. Qed.

Lemma ro_log (l : level) (msg : string) : raises_only E (log World l msg).
Proof. intros s e H. discriminate H. Qed.

Lemma ro_opt_raise {A} (e : exn) (o : option A) : E e -> raises_only E (opt_raise World e o).
Proof. destruct o; [intros _; apply ro_ret | apply ro_raise]. Qed.

Lemma ro_bind {A B} (m : M World A) (k : A -> M World B) :
  raises_only E m -> (forall a, raises_only E (k a)) -> raises_only E (bind World m k).
Proof.
  intros Hm Hk s e. unfold bind. specialize (Hm s).
  destruct (m s) as [[a|e'|] s1]; cbn [fst] in Hm |- *.
  - apply Hk.
  - intro H. injection H as <-. apply Hm. reflexivity.
  - discriminate.
Qed.

Lemma ro_catch {A} (m : M World A) (h : exn -> M World A) :
  (forall e, raises_only E (h e)) -> raises_only E (catch World m h).
Proof.
  intros Hh s e. unfold catch.
  destruct (m s) as [[a|e'|] s1]; cbn [fst]; [discriminate | apply Hh | discriminate].
Qed.

Lemma ro_with_image_lock {A} (body : M World A) :
  raises_only E body -> raises_only E (with_image_lock World body).
Proof.
  intros Hb s e. unfold with_image_lock.
  destruct (locked World s); [discriminate|].
  specialize (Hb {| world := world World s; locked := true; logs := logs World s;
                    cmds := cmds World s |} e).
  destruct (body _) as [[a|e'|] s1]; cbn [fst] in Hb |- *; auto; discriminate.
Qed.

Lemma ro_json_loads (mx : Z) (jd : World -> nat) (text : string) :
  raises_only E (json_loads World mx jd text).
Proof. intros s e H. discriminate H. Qed.

Lemma ro_set_add (ref : json) (used : list json) :
  E TypeError -> raises_only E (set_add World ref used).
Proof.
  intro Ht. unfold set_add. destruct ref; try (apply ro_raise; exact Ht);
    destruct (existsb _ used); apply ro_ret.
Qed.

Variable path_exists : World -> string -> bool.
Variable exec : World -> list string -> World * proc.
Variable IN_CONTAINER : bool.

Lemma ro_run_in_host (cmd : list string) :
  E RuntimeError -> raises_only E (run_in_host World path_exists exec IN_CONTAINER cmd).
Proof.
  intros Hr s e. unfold run_in_host.
  destruct (exec (world World s) (full_cmd World path_exists IN_CONTAINER (world World s) cmd))
    as [w' [e'|secs r|]]; cbn.
  - intro H. injection H as <-. exact Hr.
  - destruct (String.eqb (stderr r) EmptyString), (String.eqb (stdout r) EmptyString);
      cbn; discriminate.
  - discriminate.
Qed.

Lemma ro_disk_usage_free (disk_free : World -> string -> exn + Z) (path : string) :
  (forall w e, disk_free w path = inl e -> E e) ->
  raises_only E (disk_usage_free World disk_free path).
Proof.
  intros Hd s e. unfold disk_usage_free.
  destruct (disk_free (world World s) path) as [e'|f] eqn:D; cbn; [|discriminate].
  intro H. injection H as <-. exact (Hd _ _ D).
Qed.

End RaisesOnly.

(** [bind m k] when every value [m] returns satisfies [Q]. *)
Lemma keeps_bind_post {World A B} (Pc : list string -> Prop) (Pl : level * string -> Prop)
    (Q : A -> Prop) (m : M World A) (k : A -> M World B) :
  Frame.keeps Pc Pl m -> (forall s a s', m s = (Ok a, s') -> Q a) ->
  (forall a, Q a -> Frame.keeps Pc Pl (k a)) -> Frame.keeps Pc Pl (bind World m k).
Proof.
  intros Hm Hq Hk s. unfold bind.
  destruct (Hm s) as (lc1 & ll1 & C1 & F1 & L1 & G1).
  specialize (Hq s).
  destruct (m s) as [[a|e|] s1]; cbn [snd] in C1, L1 |- *.
  - destruct (Hk a (Hq a s1 eq_refl) s1) as (lc2 & ll2 & C2 & F2 & L2 & G2).
    exists (app lc1 lc2), (app ll1 ll2).
    rewrite C2, C1, L2, L1, !app_assoc.
    repeat split; auto; apply Forall_app; auto.
  - exists lc1, ll1. auto.
  - exists lc1, ll1. auto.
Qed.

(** Proves [keeps] and [raises_only] goals for the program's operations,
    leaving the conditions on the commands, log records and exceptions. *)
Ltac frame_tac :=
  repeat match goal with
  | |- forall _, _ => intro
  | |- Frame.keeps _ _ (bind _ _ _) => apply keeps_bind
  | |- Frame.keeps _ _ (ret _ _) => apply keeps_ret
  | |- Frame.keeps _ _ (raise _ _) => apply keeps_raise
  | |- Frame.keeps _ _ (log _ _ _) => apply keeps_log
  | |- Frame.keeps _ _ (opt_raise _ _ _) => apply keeps_opt_raise
  | |- Frame.keeps _ _ (run_in_host _ _ _ _ _) => apply keeps_run_in_host
  | |- Frame.keeps _ _ (with_image_lock _ _) => apply keeps_with_image_lock
  | |- Frame.keeps _ _ (catch _ _ _) => apply keeps_catch
  | |- Frame.keeps _ _ (now _ _) => apply keeps_now
  | |- Frame.keeps _ _ (disk_usage_free _ _ _) => apply keeps_disk_usage_free
  | |- Frame.keeps _ _ (fold_m _ _ _ _) => apply keeps_fold_m
  | |- Frame.keeps _ _ (set_add _ _ _) => apply keeps_set_add
  | |- Frame.keeps _ _ (json_loads _ _ _ _) => apply keeps_json_loads
  | |- Frame.keeps _ _ (raise_failure _ _) => unfold raise_failure
  | |- Frame.raises_only _ (bind _ _ _) => apply ro_bind
  | |- Frame.raises_only _ (ret _ _) => apply ro_ret
  | |- Frame.raises_only _ (raise _ _) => apply ro_raise
  | |- Frame.raises_only _ (log _ _ _) => apply ro_log
  | |- Frame.raises_only _ (opt_raise _ _ _) => apply ro_opt_raise
  | |- Frame.raises_only _ (run_in_host _ _ _ _ _) => apply ro_run_in_host
  | |- Frame.raises_only _ (with_image_lock _ _) => apply ro_with_image_lock
  | |- Frame.raises_only _ (set_add _ _ _) => apply ro_set_add
  | |- Frame.raises_only _ (json_loads _ _ _ _) => apply ro_json_loads
  | |- Frame.raises_only _ (raise_failure _ _) => unfold raise_failure
  | |- Frame.raises_only _ (catch _ _ _) => apply ro_catch
  | |- Frame.raises_only _ (disk_usage_free _ _ _) => apply ro_disk_usage_free
  | |- Frame.keeps _ _ (get_image_created _ _ _ _ _ _ _ _ _) => unfold get_image_created
  | |- Frame.raises_only _ (get_image_created _ _ _ _ _ _ _ _ _) => unfold get_image_created
  | |- Frame.keeps _ _ (get_used_images _ _ _ _ _ _ _) => unfold get_used_images
  | |- Frame.keeps _ _ (get_all_images _ _ _ _) => unfold get_all_images
  | |- Frame.keeps _ _ (prune_one _ _ _ _ _ _ _ _ _ _ _ _ _) => unfold prune_one
  | |- Frame.keeps _ _ (if ?b then _ else _) => destruct b
  | |- Frame.keeps _ _ (match ?x with _ => _ end) => destruct x
  | |- Frame.raises_only _ (if ?b then _ else _) => destruct b
  | |- Frame.raises_only _ (match ?x with _ => _ end) => destruct x
  end.



Section Interleaving.

Import Interleave.

Lemma bodies_running_snoc (ts : list thread) (t : thread) :
  bodies_running (ts ++ [t]) = (bodies_running ts + (if in_body t then 1 else 0))%nat.
Proof.
  unfold bodies_running. rewrite filter_app, length_app.
  cbn. destruct (in_body t); reflexivity.
Qed.

(** Replacing the [i]-th thread [t] by [x] changes the number of
    bodies running by the difference of their states. *)
Lemma bodies_running_set_nth (ts : list thread) (i : nat) (t x : thread) :
  nth_error ts i = Some t ->
  (bodies_running (set_nth ts i x) + (if in_body t then 1 else 0))%nat
  = (bodies_running ts + (if in_body x then 1 else 0))%nat.
Proof.
  unfold bodies_running. revert i.
  induction ts as [|y ts IH]; intros [|i] H; cbn in H |- *; try discriminate.
  - injection H as ->. cbn. destruct (in_body t), (in_body x); cbn; lia.
  - specialize (IH i H). destruct (in_body y); cbn; lia.
Qed.

(** The lock is held exactly when one body runs; otherwise none runs. *)
Lemma lock_invariant (c : config) :
  reachable c -> bodies_running (threads c) = if held c then 1%nat else 0%nat.
Proof.
  induction 1 as [|c c' Hr IH Hs]; [reflexivity|].
  revert IH.
  destruct Hs as [c o|c i t n Ht Hpc Hh|c i t n Ht Hpc|c i t n Ht Hpc]; intro IH; cbn [held threads].
  - rewrite bodies_running_snoc, IH. cbn [in_body t_pc]. destruct (held c); lia.
  - pose proof (bodies_running_set_nth _ _ t {| t_op := t_op t; t_pc := Inside n |} Ht) as E.
    unfold in_body in E at 1. rewrite Hpc in E. cbn in E. rewrite IH, Hh in E. lia.
  - pose proof (bodies_running_set_nth _ _ t {| t_op := t_op t; t_pc := Inside n |} Ht) as E.
    unfold in_body in E at 1. rewrite Hpc in E. cbn in E. rewrite IH in E.
    destruct (held c); lia.
  - pose proof (bodies_running_set_nth _ _ t {| t_op := t_op t; t_pc := After |} Ht) as E.
    unfold in_body in E at 1. rewrite Hpc in E. cbn in E. rewrite IH in E.
    destruct (held c); lia.
Qed.

End Interleaving.



(** ** Claims *)

(** C1 (amended).  When [ALLOWED_NETWORK] is set to a string that
    [ipaddress.ip_network] rejects, no network is configured, every
    caller address is denied and both endpoints answer 403.  When the
    variable is absent, the default "0.0.0.0/1" applies: a caller is
    admitted exactly when its address is an IPv4 address whose top bit is
    clear (0.0.0.0 to 127.255.255.255). *)
Theorem C1_allowed_network_config :
  forall (v6net : string -> option Net.network)
         (v6addr : string -> option Net.address) (ft : string -> bool)
         (fi : string -> exn + Z) (dec : Z -> option Z) (mx : Z) (bd : nat)
         (env remote_ip body : string),
    Net.ip_network v6net env = None ->
    (Net.get_allowed_network v6net (Some env) = None /\
     Net.is_allowed_ip v6addr (Net.get_allowed_network v6net (Some env)) remote_ip
       = false /\
     pull_image v6addr ft mx bd (Net.get_allowed_network v6net (Some env)) remote_ip body
       = (RStatus 403, []) /\
     prune_images v6addr ft fi dec mx bd (Net.get_allowed_network v6net (Some env)) remote_ip body
       = (RStatus 403, [])) /\
    (Net.get_allowed_network v6net None = Some net_0_0_0_0_1 /\
     forall ip,
       Net.is_allowed_ip v6addr (Net.get_allowed_network v6net None) ip
       = match Net.ip_address v6addr ip with
         | Some a => Nat.eqb (Net.addr_version a) 4 && negb (Z.testbit (Net.addr_ip a) 31)
         | None => false
         end).
Proof.
  intros v6net v6addr ft fi dec mx bd env remote_ip body Henv.
  assert (Hnone : Net.get_allowed_network v6net (Some env) = None) by exact Henv.
  assert (Hdeny : Net.is_allowed_ip v6addr (Net.get_allowed_network v6net (Some env))
                    remote_ip = false).
  { rewrite Hnone. unfold Net.is_allowed_ip.
    destruct (Net.ip_address v6addr remote_ip); reflexivity. }
  assert (Hdef : Net.get_allowed_network v6net None = Some net_0_0_0_0_1).
  { unfold Net.get_allowed_network, Net.ip_network.
    replace (Net.ipv4_network "0.0.0.0/1") with (Net.V4Net net_0_0_0_0_1)
      by (vm_compute; reflexivity).
    reflexivity. }
  split; [split; [exact Hnone | split; [exact Hdeny | split]] | split; [exact Hdef |]].
  - unfold pull_image. rewrite Hdeny. reflexivity.
  - unfold prune_images. rewrite Hdeny. reflexivity.
  - intro ip. rewrite Hdef. unfold Net.is_allowed_ip.
    destruct (Net.ip_address v6addr ip) as [a|]; [|reflexivity].
    unfold Net.net_contains. cbn [Net.net_version Net.netmask Net.network_address].
    rewrite Nat.eqb_sym, land_bit31_zero. reflexivity.
Qed.

Lemma C1_allowed_network_config_witness :
  Net.ip_network no_v6_net "not-a-network" = None /\
  ((Net.get_allowed_network no_v6_net (Some "not-a-network")) = None /\
   Net.is_allowed_ip no_v6_addr (Net.get_allowed_network no_v6_net (Some "not-a-network"))
     "10.0.0.1" = false /\
   pull_image no_v6_addr floats_true MAX_DIGITS BODY_DEPTH
     (Net.get_allowed_network no_v6_net (Some "not-a-network")) "10.0.0.1" "{}"
     = (RStatus 403, []) /\
   prune_images no_v6_addr floats_true float_int_none decimal_nd MAX_DIGITS BODY_DEPTH
     (Net.get_allowed_network no_v6_net (Some "not-a-network")) "10.0.0.1" "{}"
     = (RStatus 403, [])) /\
  (Net.get_allowed_network no_v6_net None = Some net_0_0_0_0_1 /\
   forall ip,
     Net.is_allowed_ip no_v6_addr (Net.get_allowed_network no_v6_net None) ip
     = match Net.ip_address no_v6_addr ip with
       | Some a => Nat.eqb (Net.addr_version a) 4 && negb (Z.testbit (Net.addr_ip a) 31)
       | None => false
       end).
Proof.
  assert (H : Net.ip_network no_v6_net "not-a-network" = None)
    by (vm_compute; reflexivity).
  split; [exact H|].
  exact (C1_allowed_network_config no_v6_net no_v6_addr floats_true float_int_none
           decimal_nd MAX_DIGITS BODY_DEPTH "not-a-network" "10.0.0.1" "{}" H).
Defined.

(** C1 counterexample: with [ALLOWED_NETWORK] absent, the caller 10.0.0.1
    is admitted and its prune request is accepted, not refused with 403. *)
Lemma C1_absent_env_admits_caller :
  Net.is_allowed_ip no_v6_addr (Net.get_allowed_network no_v6_net None) "10.0.0.1"
    = true /\
  prune_images no_v6_addr floats_true float_int_none decimal_nd MAX_DIGITS BODY_DEPTH
    (Net.get_allowed_network no_v6_net None) "10.0.0.1" (dq "{'days': 5}")
    = (ROkPrune 5, [TPrune 5]).
Proof. split; vm_compute; reflexivity. Qed.

(** C2 (code bug).  A prune request from an admitted caller whose [days]
    is the string "abc" is answered 200 and schedules a prune with 14
    days: the [HTTPException(400)] raised for the bad value is caught by
    the enclosing [except Exception], which resets [days] to 14. *)
Theorem C2_non_integer_days_accepted :
  forall v6addr ft fi dec mx bd net remote_ip,
    Net.is_allowed_ip v6addr net remote_ip = true ->
    prune_images v6addr ft fi dec mx bd net remote_ip (dq "{'days': 'abc'}")
    = (ROkPrune 14, [TPrune 14]).
Proof.
  intros v6addr ft fi dec mx bd net remote_ip Hallow.
  unfold prune_images. rewrite Hallow. destruct bd; vm_compute; reflexivity.
Qed.

Lemma C2_non_integer_days_accepted_witness :
  Net.is_allowed_ip no_v6_addr (Some net_0_0_0_0_1) "10.0.0.1" = true /\
  prune_images no_v6_addr floats_true float_int_none decimal_nd MAX_DIGITS BODY_DEPTH (Some net_0_0_0_0_1) "10.0.0.1"
    (dq "{'days': 'abc'}") = (ROkPrune 14, [TPrune 14]).
Proof.
  assert (H : Net.is_allowed_ip no_v6_addr (Some net_0_0_0_0_1) "10.0.0.1" = true)
    by (vm_compute; reflexivity).
  split; [exact H|].
  exact (C2_non_integer_days_accepted no_v6_addr floats_true float_int_none decimal_nd
           MAX_DIGITS BODY_DEPTH _ _ H).
Defined.

(** C6 (amended).  For an admitted pull request whose body
    [request.json()] parses (the body bytes decoded in the encoding
    [json.detect_encoding] finds, then read by [json.loads]) into an
    object whose [image] is a non-empty string [s], the pull scheduled
    is for [normalize_image s]:
    a name with at most one "/" that does not start with "docker.io/"
    gets the "docker.io/" prefix (so "myregistry.example.com/nginx",
    with one "/", does too), and a name with two or more "/" or starting
    with "docker.io/" is unchanged. *)
Theorem C6_pull_normalization :
  forall v6addr ft mx bd net remote_ip body data s,
    Net.is_allowed_ip v6addr net remote_ip = true ->
    request_json mx bd body = inr data ->
    get data "image" JNull = Some (JStr s) ->
    s <> EmptyString ->
    pull_image v6addr ft mx bd net remote_ip body = (ROkPull, [TPull (normalize_image s)]) /\
    ((Py.count "/" s <= 1)%nat -> Py.startswith "docker.io/" s = false ->
     normalize_image s = "docker.io/" ++ s) /\
    ((2 <= Py.count "/" s)%nat \/ Py.startswith "docker.io/" s = true ->
     normalize_image s = s).
Proof.
  intros v6addr ft mx bd net remote_ip body data s Hallow Hl Hg Hs.
  split; [|split].
  - unfold pull_image. rewrite Hallow. cbn [negb]. rewrite Hl, Hg.
    assert (Ht : truthy ft (JStr s) = true).
    { cbn [truthy]. apply String.eqb_neq in Hs. rewrite Hs. reflexivity. }
    rewrite Ht. cbn [negb]. cbv zeta.
    destruct (normalize_image_nonblank s Hs) as [E1 E2].
    rewrite E1, E2. reflexivity.
  - intros Hc Hp. unfold normalize_image.
    apply Nat.leb_le in Hc. rewrite Hc, Hp. reflexivity.
  - intros Hc. unfold normalize_image.
    destruct Hc as [Hc | Hc].
    + replace (Py.count "/" s <=? 1)%nat with false
        by (symmetry; apply Nat.leb_gt; lia).
      reflexivity.
    + rewrite Hc. rewrite andb_false_r. reflexivity.
Qed.

Lemma C6_pull_normalization_witness :
  (Net.is_allowed_ip no_v6_addr (Some net_0_0_0_0_1) "10.0.0.1" = true /\
   request_json MAX_DIGITS BODY_DEPTH (dq "{'image': 'nginx'}")
     = inr (JObj [("image", JStr "nginx")]) /\
   get (JObj [("image", JStr "nginx")]) "image" JNull = Some (JStr "nginx") /\
   "nginx" <> EmptyString) /\
  (pull_image no_v6_addr floats_true MAX_DIGITS BODY_DEPTH (Some net_0_0_0_0_1) "10.0.0.1"
     (dq "{'image': 'nginx'}") = (ROkPull, [TPull (normalize_image "nginx")]) /\
   ((Py.count "/" "nginx" <= 1)%nat -> Py.startswith "docker.io/" "nginx" = false ->
    normalize_image "nginx" = "docker.io/" ++ "nginx") /\
   ((2 <= Py.count "/" "nginx")%nat \/ Py.startswith "docker.io/" "nginx" = true ->
    normalize_image "nginx" = "nginx")).
Proof.
  assert (H1 : Net.is_allowed_ip no_v6_addr (Some net_0_0_0_0_1) "10.0.0.1" = true)
    by (vm_compute; reflexivity).
  assert (H2 : request_json MAX_DIGITS BODY_DEPTH (dq "{'image': 'nginx'}")
                = inr (JObj [("image", JStr "nginx")]))
    by (vm_compute; reflexivity).
  assert (H3 : get (JObj [("image", JStr "nginx")]) "image" JNull = Some (JStr "nginx"))
    by reflexivity.
  assert (H4 : "nginx" <> EmptyString) by discriminate.
  split; [repeat split; assumption|].
  exact (C6_pull_normalization no_v6_addr floats_true MAX_DIGITS BODY_DEPTH _ _ _ _ _ H1 H2 H3 H4).
Defined.

(** C6 counterexample: "myregistry.example.com/nginx" contains a single
    "/" and is rewritten to "docker.io/myregistry.example.com/nginx". *)
Lemma C6_registry_reference_prefixed :
  normalize_image "myregistry.example.com/nginx"
    = "docker.io/myregistry.example.com/nginx" /\
  pull_image no_v6_addr floats_true MAX_DIGITS BODY_DEPTH (Some net_0_0_0_0_1) "10.0.0.1"
    (dq "{'image': 'myregistry.example.com/nginx'}")
    = (ROkPull, [TPull "docker.io/myregistry.example.com/nginx"]).
Proof. split; vm_compute; reflexivity. Qed.




Lemma get_used_images_bad_json :
  forall (World : Type) (path_exists : World -> string -> bool)
         (exec : World -> list string -> World * proc) (IN_CONTAINER : bool)
         (ft : string -> bool) (mx : Z) (jd : World -> nat) (s : St World)
         (w1 w2 : World) (d1 d2 : Z) (err1 err2 : string),
    exec (world World s) (full_cmd World path_exists IN_CONTAINER (world World s) ["ps"; "-a"; "-q"])
      = (w1, Finished d1 {| returncode := 0; stdout := lines ["c1"; "c2"]; stderr := err1 |}) ->
    exec w1 (full_cmd World path_exists IN_CONTAINER w1 ["inspect"; "c1"])
      = (w2, Finished d2 {| returncode := 0; stdout := "not json"; stderr := err2 |}) ->
    exists s', get_used_images World path_exists exec IN_CONTAINER ft mx jd s = (Raise JSONDecodeError, s')
      /\ cmds World s' = app (cmds World s) [["ps"; "-a"; "-q"]; ["inspect"; "c1"]]
      /\ locked World s' = locked World s.
Proof.
  intros World pe ex ic ft mx jd s w1 w2 d1 d2 e1 e2 H1 H2.
  assert (Hids : Py.splitlines (Py.strip (lines ["c1"; "c2"])) = ["c1"; "c2"])
    by (vm_compute; reflexivity).
  assert (Hbad : forall d, loads mx d "not json" = inl DecodeError)
    by (intro d; destruct d; vm_compute; reflexivity).
  unfold get_used_images.
  destruct (run_in_host_finished pe ex ic ["ps"; "-a"; "-q"] s _ _ _ H1) as [lg1 R1].
  rewrite (bind_ok _ _ _ _ _ R1).
  cbn [returncode stdout negb Z.eqb]. rewrite Hids. cbn [fold_m].
  cbv [bind log ret opt_raise raise json_loads raise_failure].
  match goal with |- context [run_in_host World pe ex ic ["inspect"; "c1"] ?st] =>
    destruct (run_in_host_finished pe ex ic ["inspect"; "c1"] st _ _ _ H2) as [lg2 R2];
    rewrite R2 end.
  cbn [returncode stdout negb Z.eqb]. rewrite Hbad. cbn.
  eexists; split; [reflexivity|]. cbn [cmds locked].
  split; [rewrite <- app_assoc; reflexivity | reflexivity].
Qed.

(** Claim C5: when the inspection of the first container exits with
    status 0 but prints text that is not JSON, [get_used_images] does not
    skip it: [json.loads] raises [JSONDecodeError], the second container
    is never inspected, and the whole prune pass [run_prune] raises the
    same exception (after releasing [image_lock]). *)
Theorem C5_malformed_inspect_aborts :
  forall (World : Type) (path_exists : World -> string -> bool)
         (exec : World -> list string -> World * proc) (clock : World -> datetime)
         (IN_CONTAINER : bool) (fo : string -> option datetime)
         (ft : string -> bool) (mx : Z) (jd : World -> nat) (days : Z) (s : St World)
         (w1 w2 : World) (d1 d2 : Z) (err1 err2 : string),
    locked World s = false ->
    exec (world World s) (full_cmd World path_exists IN_CONTAINER (world World s) ["ps"; "-a"; "-q"])
      = (w1, Finished d1 {| returncode := 0; stdout := lines ["c1"; "c2"]; stderr := err1 |}) ->
    exec w1 (full_cmd World path_exists IN_CONTAINER w1 ["inspect"; "c1"])
      = (w2, Finished d2 {| returncode := 0; stdout := "not json"; stderr := err2 |}) ->
    fst (get_used_images World path_exists exec IN_CONTAINER ft mx jd s) = Raise JSONDecodeError /\
    cmds World (snd (get_used_images World path_exists exec IN_CONTAINER ft mx jd s))
      = app (cmds World s) [["ps"; "-a"; "-q"]; ["inspect"; "c1"]] /\
    fst (run_prune World path_exists exec clock IN_CONTAINER fo ft mx jd days s) = Raise JSONDecodeError /\
    cmds World (snd (run_prune World path_exists exec clock IN_CONTAINER fo ft mx jd days s))
      = app (cmds World s) [["ps"; "-a"; "-q"]; ["inspect"; "c1"]] /\
    locked World (snd (run_prune World path_exists exec clock IN_CONTAINER fo ft mx jd days s)) = false.
Proof.
  intros World pe ex clk ic fo ft mx jd days s w1 w2 d1 d2 e1 e2 Hl H1 H2.
  destruct (get_used_images_bad_json World pe ex ic ft mx jd s w1 w2 d1 d2 e1 e2 H1 H2)
    as [s' [R [Rc _]]].
  rewrite R. split; [reflexivity|]. split; [exact Rc|].
  unfold run_prune, with_image_lock.
  cbv [bind log now].
  cbn [locked]. rewrite Hl.
  match goal with |- context [get_used_images World pe ex ic ft mx jd ?st] =>
    destruct (get_used_images_bad_json World pe ex ic ft mx jd st w1 w2 d1 d2 e1 e2 H1 H2)
      as [s2 [R2 [Rc2 _]]]; rewrite R2 end.
  cbn. rewrite Rc2. cbn. auto.
Qed.

Lemma C5_malformed_inspect_aborts_witness :
  fst (run_prune unit no_paths (host_exec bad_inspect_host) clock_2024 false
         no_other_iso floats_true MAX_DIGITS depth_900 14 st0) = Raise JSONDecodeError.
Proof.
  apply (C5_malformed_inspect_aborts unit no_paths (host_exec bad_inspect_host)
           clock_2024 false no_other_iso floats_true MAX_DIGITS depth_900 14 st0 tt tt 1 1
           EmptyString EmptyString); reflexivity.
Defined.


(** Claim C8: [parse_rfc3339] reads "2024-01-02T03:04:05Z" as
    2024-01-02 03:04:05 and "2024-01-02T03:04:05.1Z" as the same time with
    100000 microseconds; but an inspection that exits with status 0 and
    whose [info] is [null] makes [get_image_created] raise
    [AttributeError] ([None.get]) instead of returning [None]. *)
Theorem C8_created_parsing :
  forall (World : Type) (path_exists : World -> string -> bool)
         (exec : World -> list string -> World * proc) (IN_CONTAINER : bool)
         (fo : string -> option datetime) (ft : string -> bool) (mx : Z)
         (jd : World -> nat) (img : string) (s : St World) (w : World) (d : Z)
         (err : string),
    exec (world World s) (full_cmd World path_exists IN_CONTAINER (world World s) ["inspecti"; img])
      = (w, Finished d {| returncode := 0; stdout := dq "{'info': null}"; stderr := err |}) ->
    (parse_rfc3339 fo "2024-01-02T03:04:05Z" = Some (dt 2024 1 2 3 4 5 0)) /\
    (parse_rfc3339 fo "2024-01-02T03:04:05.1Z" = Some (dt 2024 1 2 3 4 5 100000)) /\
    (fst (get_image_created World path_exists exec IN_CONTAINER fo ft mx jd img s)
       = Raise AttributeError).
Proof.
  intros World pe ex ic fo ft mx jd img s w d err H.
  split; [reflexivity|]. split; [reflexivity|].
  assert (Hj : forall k, loads mx (S k) (dq "{'info': null}") = inr (JObj [("info", JNull)]))
    by (intros [|k]; vm_compute; reflexivity).
  unfold get_image_created.
  destruct (run_in_host_finished pe ex ic ["inspecti"; img] s _ _ _ H) as [lg R].
  rewrite (bind_ok _ _ _ _ _ R).
  cbn [returncode stdout negb Z.eqb]. unfold bind at 1, json_loads. rewrite Hj.
  reflexivity.
Qed.

Lemma C8_created_parsing_witness :
  fst (get_image_created unit no_paths (host_exec null_info_host) false
         no_other_iso floats_true MAX_DIGITS depth_900 "img" st0) = Raise AttributeError.
Proof.
  apply (C8_created_parsing unit no_paths (host_exec null_info_host) false
           no_other_iso floats_true MAX_DIGITS depth_900 "img" st0 tt 1 EmptyString);
    reflexivity.
Defined.


(** Claim C4: [run_in_host] passes no timeout to [subprocess.run], so it
    never raises [TimeoutExpired]; and when the pull command never exits,
    [run_pull] never returns: no timeout ends it, no timeout is logged,
    and [image_lock] stays held. *)
Theorem C4_pull_unbounded :
  forall (World : Type) (path_exists : World -> string -> bool)
         (exec : World -> list string -> World * proc)
         (disk_free : World -> string -> exn + Z) (IN_CONTAINER : bool)
         (fo : string -> option datetime) (ft : string -> bool) (mx : Z)
         (jd : World -> nat)
         (image : string) (s : St World) (free : Z) (w' : World),
    locked World s = false ->
    disk_free (world World s) (if IN_CONTAINER then "/host" else "/") = inr free ->
    50 * 1024 ^ 3 < free ->
    exec (world World s) (full_cmd World path_exists IN_CONTAINER (world World s) ["pull"; image])
      = (w', Never_exits) ->
    (forall cmd s0, fst (run_in_host World path_exists exec IN_CONTAINER cmd s0)
                    <> Raise TimeoutExpired) /\
    (fst (run_pull World path_exists exec disk_free IN_CONTAINER fo ft mx jd image s) = Diverge) /\
    (locked World (snd (run_pull World path_exists exec disk_free IN_CONTAINER fo ft mx jd image s))
       = true) /\
    (logs World (snd (run_pull World path_exists exec disk_free IN_CONTAINER fo ft mx jd image s))
       = app (logs World s)
           [(Debug, "Lock acquired for pull operation on image: ");
            (Debug, "Lock acquired for pull operation on image: ")]).
Proof.
  intros World pe ex df ic fo ft mx jd image s free w' Hl Hd Hf He.
  split; [intros; apply run_in_host_no_timeout|].
  apply Z.ltb_lt in Hf.
  unfold run_pull, with_image_lock.
  cbv [bind log catch disk_usage_free].
  cbn [locked world]. rewrite Hl, Hd, Hf.
  match goal with |- context [run_in_host World pe ex ic ["pull"; image] ?st] =>
    rewrite (run_in_host_never_exits pe ex ic ["pull"; image] st w' He) end.
  cbn. rewrite <- app_assoc. auto.
Qed.

Lemma C4_pull_unbounded_witness :
  fst (run_pull unit no_paths (host_exec hanging_pull_host) (disk (100 * GiB)) false
         no_other_iso floats_true MAX_DIGITS depth_900 "docker.io/nginx" st0) = Diverge.
Proof.
  apply (C4_pull_unbounded unit no_paths (host_exec hanging_pull_host) (disk (100 * GiB))
           false no_other_iso floats_true MAX_DIGITS depth_900 "docker.io/nginx" st0 (100 * GiB) tt);
    [reflexivity | reflexivity | vm_compute; reflexivity | reflexivity].
Defined.


(** Counterexample to claim C7: with exactly 50 GiB free, which is not
    below the floor, [run_pull] still aborts with the warning and runs no
    command. *)
Lemma C7_at_floor_no_pull :
  cmds unit (snd (run_pull unit no_paths (host_exec pull_ok_host) (disk (50 * GiB)) false
                    no_other_iso floats_true MAX_DIGITS depth_900 "docker.io/nginx" st0)) = [] /\
  In (Warning, "Insufficient storage available for pulling image: ")
     (logs unit (snd (run_pull unit no_paths (host_exec pull_ok_host) (disk (50 * GiB)) false
                        no_other_iso floats_true MAX_DIGITS depth_900 "docker.io/nginx" st0))).
Proof. vm_compute. split; [reflexivity | right; right; left; reflexivity]. Qed.

(** Claim C7, as amended: with [image_lock] free and the free space of
    the disk known, at most 50 GiB free makes [run_pull] log the
    insufficient-storage warning and run no command; more than 50 GiB free
    makes the pull of the image the first command it runs. *)
Theorem C7_storage_floor :
  forall (World : Type) (path_exists : World -> string -> bool)
         (exec : World -> list string -> World * proc)
         (disk_free : World -> string -> exn + Z) (IN_CONTAINER : bool)
         (fo : string -> option datetime) (ft : string -> bool) (mx : Z)
         (jd : World -> nat)
         (image : string) (s : St World) (free : Z),
    locked World s = false ->
    disk_free (world World s) (if IN_CONTAINER then "/host" else "/") = inr free ->
    (free <= 50 * 1024 ^ 3 ->
       fst (run_pull World path_exists exec disk_free IN_CONTAINER fo ft mx jd image s) = Ok tt /\
       cmds World (snd (run_pull World path_exists exec disk_free IN_CONTAINER fo ft mx jd image s))
         = cmds World s /\
       logs World (snd (run_pull World path_exists exec disk_free IN_CONTAINER fo ft mx jd image s))
         = app (logs World s)
             [(Debug, "Lock acquired for pull operation on image: ");
              (Debug, "Lock acquired for pull operation on image: ");
              (Warning, "Insufficient storage available for pulling image: ");
              (Debug, "Lock released after pull operation for image: ")]) /\
    (50 * 1024 ^ 3 < free ->
       exists rest,
         cmds World (snd (run_pull World path_exists exec disk_free IN_CONTAINER fo ft mx jd image s))
         = app (cmds World s) (["pull"; image] :: rest)).
Proof.
  intros World pe ex df ic fo ft mx jd image s free Hl Hd.
  split; [|intro Hf; exact (run_pull_invokes_pull pe ex ic fo ft mx jd df image s free Hl Hd Hf)].
  intro Hf. apply Z.ltb_ge in Hf.
  unfold run_pull, with_image_lock.
  cbv [bind log catch disk_usage_free].
  cbn [locked world]. rewrite Hl, Hd, Hf.
  cbn. rewrite <- !app_assoc. auto.
Qed.

Lemma C7_storage_floor_witness :
  exists rest,
    cmds unit (snd (run_pull unit no_paths (host_exec pull_ok_host) (disk (100 * GiB)) false
                      no_other_iso floats_true MAX_DIGITS depth_900 "docker.io/nginx" st0))
    = app [] (["pull"; "docker.io/nginx"] :: rest).
Proof.
  apply (C7_storage_floor unit no_paths (host_exec pull_ok_host) (disk (100 * GiB)) false
           no_other_iso floats_true MAX_DIGITS depth_900 "docker.io/nginx" st0 (100 * GiB));
    [reflexivity | reflexivity | vm_compute; reflexivity].
Defined.


(** Claim C10: started with [image_lock] free, [run_pull] and
    [run_prune] release it on every path on which they return, normally
    or by an exception. *)
Theorem C10_lock_released :
  forall (World : Type) (path_exists : World -> string -> bool)
         (exec : World -> list string -> World * proc)
         (disk_free : World -> string -> exn + Z) (clock : World -> datetime)
         (IN_CONTAINER : bool) (fo : string -> option datetime) (ft : string -> bool) (mx : Z)
         (jd : World -> nat)
         (image : string) (days : Z) (s : St World),
    locked World s = false ->
    (fst (run_pull World path_exists exec disk_free IN_CONTAINER fo ft mx jd image s) <> Diverge ->
     locked World (snd (run_pull World path_exists exec disk_free IN_CONTAINER fo ft mx jd image s))
       = false) /\
    (fst (run_prune World path_exists exec clock IN_CONTAINER fo ft mx jd days s) <> Diverge ->
     locked World (snd (run_prune World path_exists exec clock IN_CONTAINER fo ft mx jd days s))
       = false).
Proof.
  intros World pe ex df clk ic fo ft mx jd image days s Hl.
  split; [unfold run_pull | unfold run_prune];
    rewrite (bind_ok _ _ _ _ _ (log_step _ _ s));
    match goal with |- context [bind World (with_image_lock World ?b) (fun _ => log World ?l ?m) ?st] =>
      destruct (bind_log_locked (with_image_lock World b) l m st) as [L D];
      rewrite L; intro Hd; apply with_image_lock_released; [exact Hl | exact (D Hd)]
    end.
Qed.

Lemma C10_lock_released_witness :
  locked unit (snd (run_prune unit no_paths (host_exec bad_inspect_host) clock_2024 false
                      no_other_iso floats_true MAX_DIGITS depth_900 14 st0)) = false.
Proof.
  apply (C10_lock_released unit no_paths (host_exec bad_inspect_host) (disk 0) clock_2024
           false no_other_iso floats_true MAX_DIGITS depth_900 "docker.io/nginx" 14 st0);
    [reflexivity | vm_compute; discriminate].
Defined.


(** Claim C9: in every interleaving of pulls and prunes, each taking
    [image_lock] around its body, at most one body runs at any time. *)
Theorem C9_mutual_exclusion :
  forall c : Interleave.config,
    Interleave.reachable c -> (Interleave.bodies_running (Interleave.threads c) <= 1)%nat.
Proof.
  intros c Hr. rewrite (lock_invariant c Hr).
  destruct (Interleave.held c); lia.
Qed.

Lemma C9_mutual_exclusion_witness :
  (Interleave.bodies_running
     [{| Interleave.t_op := Interleave.OpPull; Interleave.t_pc := Interleave.Inside 3 |};
      {| Interleave.t_op := Interleave.OpPrune; Interleave.t_pc := Interleave.Before |}]
   <= 1)%nat.
Proof.
  apply (C9_mutual_exclusion
           {| Interleave.held := true;
              Interleave.threads :=
                [{| Interleave.t_op := Interleave.OpPull; Interleave.t_pc := Interleave.Inside 3 |};
                 {| Interleave.t_op := Interleave.OpPrune; Interleave.t_pc := Interleave.Before |}] |}).
  apply (Interleave.reach_step
           {| Interleave.held := false;
              Interleave.threads :=
                [{| Interleave.t_op := Interleave.OpPull; Interleave.t_pc := Interleave.Before |};
                 {| Interleave.t_op := Interleave.OpPrune; Interleave.t_pc := Interleave.Before |}] |}).
  - apply (Interleave.reach_step
             {| Interleave.held := false;
                Interleave.threads :=
                  [{| Interleave.t_op := Interleave.OpPull; Interleave.t_pc := Interleave.Before |}] |}).
    + apply (Interleave.reach_step Interleave.init).
      * exact Interleave.reach_init.
      * exact (Interleave.step_spawn Interleave.init Interleave.OpPull).
    + exact (Interleave.step_spawn
               {| Interleave.held := false;
                  Interleave.threads :=
                    [{| Interleave.t_op := Interleave.OpPull; Interleave.t_pc := Interleave.Before |}] |}
               Interleave.OpPrune).
  - exact (Interleave.step_acquire
             {| Interleave.held := false;
                Interleave.threads :=
                  [{| Interleave.t_op := Interleave.OpPull; Interleave.t_pc := Interleave.Before |};
                   {| Interleave.t_op := Interleave.OpPrune; Interleave.t_pc := Interleave.Before |}] |}
             0
             {| Interleave.t_op := Interleave.OpPull; Interleave.t_pc := Interleave.Before |} 3
             eq_refl eq_refl eq_refl).
Defined.

End Props.

(** * Further properties of the program *)

Module Extra.

Import Host Json Time Http Fixtures Props.

(** ** Helper lemmas *)

Lemma keeps_run_pull_cmds :
  forall (World : Type) (path_exists : World -> string -> bool)
         (exec : World -> list string -> World * proc)
         (disk_free : World -> string -> exn + Z) (IN_CONTAINER : bool)
         (fo : string -> option datetime) (ft : string -> bool) (mx : Z)
         (jd : World -> nat) (image : string),
  Frame.keeps (fun c => c = ["pull"; image] \/ c = ["inspecti"; image]) (fun _ => True)
    (run_pull World path_exists exec disk_free IN_CONTAINER fo ft mx jd image).
Proof.
  intros. unfold run_pull. frame_tac; auto.
Qed.

Lemma keeps_run_prune_cmds :
  forall (World : Type) (path_exists : World -> string -> bool)
         (exec : World -> list string -> World * proc) (clock : World -> datetime)
         (IN_CONTAINER : bool) (fo : string -> option datetime) (ft : string -> bool) (mx : Z)
         (jd : World -> nat)
         (days : Z),
  Frame.keeps (fun c => c = ["ps"; "-a"; "-q"] \/ c = ["images"; "-q"] \/
                        exists id, c = ["inspect"; id] \/ c = ["inspecti"; id] \/ c = ["rmi"; id])
    (fun _ => True)
    (run_prune World path_exists exec clock IN_CONTAINER fo ft mx jd days).
Proof.
  intros. unfold run_prune. frame_tac; eauto 7.
Qed.

(** ** Properties *)

(** X1.  [run_pull] never raises: every exception of its body is caught
    by one of its [except] clauses, whose handlers only log. *)
Theorem X1_run_pull_never_raises :
  forall (World : Type) (path_exists : World -> string -> bool)
         (exec : World -> list string -> World * proc)
         (disk_free : World -> string -> exn + Z) (IN_CONTAINER : bool)
         (fo : string -> option datetime) (ft : string -> bool) (mx : Z)
         (jd : World -> nat)
         (image : string) (s : St World) (e : exn),
    fst (run_pull World path_exists exec disk_free IN_CONTAINER fo ft mx jd image s) <> Raise e.
Proof.
  intros World pe ex df ic fo ft mx jd image s e.
  assert (H : Frame.raises_only (fun _ => False)
                (run_pull World pe ex df ic fo ft mx jd image)) by (unfold run_pull; frame_tac).
  intro E. exact (H s e E).
Qed.

(** X2.  A pull only runs [crictl pull image] and [crictl inspecti image]
    on the host: it never removes an image and never touches another
    image. *)
Theorem X2_pull_commands :
  forall (World : Type) (path_exists : World -> string -> bool)
         (exec : World -> list string -> World * proc)
         (disk_free : World -> string -> exn + Z) (IN_CONTAINER : bool)
         (fo : string -> option datetime) (ft : string -> bool) (mx : Z)
         (jd : World -> nat)
         (image : string) (s : St World),
    exists lc,
      cmds World (snd (run_pull World path_exists exec disk_free IN_CONTAINER fo ft mx jd image s))
        = app (cmds World s) lc /\
      Forall (fun c => c = ["pull"; image] \/ c = ["inspecti"; image]) lc.
Proof.
  intros World pe ex df ic fo ft mx jd image s.
  destruct (keeps_run_pull_cmds World pe ex df ic fo ft mx jd image s) as (lc & ll & C & F & _).
  exists lc. auto.
Qed.

(** X3.  A prune pass, requested over HTTP ([run_prune]) or scheduled
    ([run_prune_job]), only runs [crictl ps -a -q], [crictl images -q],
    [crictl inspect], [crictl inspecti] and [crictl rmi]: it never pulls
    an image. *)
Theorem X3_prune_commands :
  forall (World : Type) (path_exists : World -> string -> bool)
         (exec : World -> list string -> World * proc) (clock : World -> datetime)
         (IN_CONTAINER : bool) (fo : string -> option datetime) (ft : string -> bool) (mx : Z)
         (jd : World -> nat)
         (days : Z) (s : St World),
    (exists lc,
      cmds World (snd (run_prune World path_exists exec clock IN_CONTAINER fo ft mx jd days s))
        = app (cmds World s) lc /\
      Forall (fun c => c = ["ps"; "-a"; "-q"] \/ c = ["images"; "-q"] \/
                       exists id, c = ["inspect"; id] \/ c = ["inspecti"; id] \/
                                  c = ["rmi"; id]) lc) /\
    (exists lc,
      cmds World (snd (run_prune_job World path_exists exec clock IN_CONTAINER fo ft mx jd days s))
        = app (cmds World s) lc /\
      Forall (fun c => c = ["ps"; "-a"; "-q"] \/ c = ["images"; "-q"] \/
                       exists id, c = ["inspect"; id] \/ c = ["inspecti"; id] \/
                                  c = ["rmi"; id]) lc).
Proof.
  intros World pe ex clk ic fo ft mx jd days s. split.
  - destruct (keeps_run_prune_cmds World pe ex clk ic fo ft mx jd days s) as (lc & ll & C & F & _).
    exists lc. auto.
  - unfold run_prune_job.
    rewrite (bind_ok _ _ _ _ _ (log_step _ _ s)).
    match goal with |- context [run_prune World pe ex clk ic fo ft mx jd days ?st] =>
      destruct (keeps_run_prune_cmds World pe ex clk ic fo ft mx jd days st) as (lc & ll & C & F & _)
    end.
    exists lc. auto.
Qed.

(** [keeps_at Pc Pl m s]: run from the state [s], [m] only appends to the
    commands run and to the log, as [Frame.keeps] says for every state. *)
Definition keeps_at {World A} (Pc : list string -> Prop) (Pl : level * string -> Prop)
    (m : M World A) (s : St World) : Prop :=
  exists lc ll,
    cmds World (snd (m s)) = app (cmds World s) lc /\ Forall Pc lc /\
    logs World (snd (m s)) = app (logs World s) ll /\ Forall Pl ll.

Lemma keeps_at_of {World A} Pc Pl (m : M World A) s :
  Frame.keeps Pc Pl m -> keeps_at Pc Pl m s.
Proof. intro H. exact (H s). Qed.

Lemma keeps_at_bind {World A B} Pc Pl (m : M World A) (k : A -> M World B) s :
  keeps_at Pc Pl m s ->
  (forall a s', m s = (Ok a, s') -> keeps_at Pc Pl (k a) s') ->
  keeps_at Pc Pl (bind World m k) s.
Proof.
  intros (lc1 & ll1 & C1 & F1 & L1 & G1) Hk. unfold keeps_at, bind.
  destruct (m s) as [[a|e|] s1] eqn:Em; cbn [snd] in C1, L1 |- *.
  - destruct (Hk a s1 eq_refl) as (lc2 & ll2 & C2 & F2 & L2 & G2).
    exists (app lc1 lc2), (app ll1 ll2).
    rewrite C2, C1, L2, L1, !app_assoc.
    repeat split; auto; apply Forall_app; auto.
  - exists lc1, ll1. auto.
  - exists lc1, ll1. auto.
Qed.

Lemma keeps_at_lock {World A} Pc Pl (body : M World A) s :
  (locked World s = false ->
   keeps_at Pc Pl body {| world := world World s; locked := true; logs := logs World s;
                          cmds := cmds World s |}) ->
  keeps_at Pc Pl (with_image_lock World body) s.
Proof.
  intros Hb. unfold keeps_at, with_image_lock.
  destruct (locked World s).
  - exists [], []. cbn. rewrite !app_nil_r. auto.
  - destruct (Hb eq_refl) as (lc & ll & C & F & L & G).
    cbn [cmds logs] in C, L.
    destruct (body _) as [[a|e|] s1]; cbn [snd cmds logs] in C, L |- *;
      exists lc, ll; auto.
Qed.

Lemma keeps_at_catch {World A} Pc Pl (E : exn -> Prop) (m : M World A) (h : exn -> M World A) s :
  keeps_at Pc Pl m s ->
  (forall e s', m s = (Raise e, s') -> E e) ->
  (forall e, E e -> Frame.keeps Pc Pl (h e)) ->
  keeps_at Pc Pl (catch World m h) s.
Proof.
  intros (lc1 & ll1 & C1 & F1 & L1 & G1) He Hh. unfold keeps_at, catch.
  destruct (m s) as [[a|e|] s1] eqn:Em; cbn [snd] in C1, L1 |- *.
  - exists lc1, ll1. auto.
  - destruct (Hh e (He e s1 eq_refl) s1) as (lc2 & ll2 & C2 & F2 & L2 & G2).
    exists (app lc1 lc2), (app ll1 ll2).
    rewrite C2, C1, L2, L1, !app_assoc.
    repeat split; auto; apply Forall_app; auto.
  - exists lc1, ll1. auto.
Qed.

(** X4.  When the free-space query fails, if at all, with an [OSError]
    (in the model [OSError] or its subclass [FileNotFoundError], the one
    the handler singles out), [run_pull] never logs the timeout message,
    and logs the missing-binary message only when [shutil.disk_usage]
    raised [FileNotFoundError] for the disk path: [run_in_host] turns a
    [FileNotFoundError] from launching crictl into a [RuntimeError], so a
    missing crictl is reported as an unexpected error. *)
Theorem X4_pull_error_messages :
  forall (World : Type) (path_exists : World -> string -> bool)
         (exec : World -> list string -> World * proc)
         (disk_free : World -> string -> exn + Z) (IN_CONTAINER : bool)
         (fo : string -> option datetime) (ft : string -> bool) (mx : Z)
         (jd : World -> nat)
         (image : string) (s : St World),
    (forall w e, disk_free w (if IN_CONTAINER then "/host" else "/") = inl e ->
                 e = OSError \/ e = FileNotFoundError) ->
    exists ll,
      logs World (snd (run_pull World path_exists exec disk_free IN_CONTAINER fo ft mx jd image s))
        = app (logs World s) ll /\
      Forall (fun r => r <> (Error, "Pull operation timed out for image: , command was blocked after 30 minutes")) ll /\
      (In (Error, "Required binary not found during pull for image ") ll ->
       disk_free (world World s) (if IN_CONTAINER then "/host" else "/") = inl FileNotFoundError).
Proof.
  intros World pe ex df ic fo ft mx jd image s Hd.
  set (path := if ic then "/host" else "/") in *.
  assert (K : Frame.keeps (fun _ => True)
                (fun r => r <> (Error, "Pull operation timed out for image: , command was blocked after 30 minutes"))
                (run_pull World pe ex df ic fo ft mx jd image)).
  { unfold run_pull.
    apply keeps_bind; [apply keeps_log; discriminate|intros _].
    apply keeps_bind; [|intros _; apply keeps_log; discriminate].
    apply keeps_with_image_lock.
    apply keeps_bind; [apply keeps_log; discriminate|intros _].
    apply (keeps_catch_only _ _ (fun e => e <> TimeoutExpired)).
    - frame_tac; try exact I; try discriminate;
        match goal with H : Frame.host_log _ |- _ =>
          unfold Frame.host_log in H; destruct H as [ -> | [ -> | [ -> | -> ]]] end;
        discriminate.
    - frame_tac; try discriminate;
        try (match goal with D : df _ _ = inl _ |- _ => destruct (Hd _ _ D) as [-> | ->]; discriminate end);
        match goal with |- ?e <> _ => destruct e; discriminate end.
    - intros e He; destruct e; try (apply keeps_log; discriminate); congruence. }
  destruct (K s) as (lc & ll & _ & _ & L & G). exists ll. split; [exact L|split; [exact G|]].
  destruct (df (world World s) path) as [e0|free0] eqn:D0;
    [destruct (Hd _ _ D0) as [-> | ->]; [|intros _; reflexivity]|].
  all: intro Hin; exfalso.
  all: assert (K2 : keeps_at (fun _ => True)
                      (fun r => r <> (Error, "Required binary not found during pull for image "))
                      (run_pull World pe ex df ic fo ft mx jd image) s).
  all: try (destruct K2 as (lc2 & ll2 & _ & _ & L2 & G2);
            rewrite L in L2; apply app_inv_head in L2; subst ll2;
            exact (proj1 (Forall_forall _ _) G2 _ Hin eq_refl)).
  all: unfold run_pull; apply keeps_at_bind;
         [apply keeps_at_of, keeps_log; discriminate|intros [] s1 E1; rewrite log_step in E1;
          injection E1 as <-].
  all: apply keeps_at_bind; [|intros; apply keeps_at_of, keeps_log; discriminate].
  all: apply keeps_at_lock; intros _.
  all: apply keeps_at_bind; [apply keeps_at_of, keeps_log; discriminate|intros [] s3 E3;
         rewrite log_step in E3; injection E3 as <-].
  all: match goal with |- keeps_at _ _ (catch _ (bind _ (disk_usage_free _ _ _) ?k) _) _ =>
         assert (R : forall f, Frame.raises_only (fun e => e <> FileNotFoundError) (k f))
           by (intro f; cbv beta; frame_tac; try discriminate;
               match goal with |- ?e <> _ => destruct e; discriminate end)
       end.
  all: apply keeps_at_catch with (E := fun e => e <> FileNotFoundError);
         [apply keeps_at_of; frame_tac; try exact I; try discriminate;
          try (match goal with H : Frame.host_log _ |- _ =>
                 unfold Frame.host_log in H; destruct H as [ -> | [ -> | [ -> | -> ]]] end;
               discriminate);
          match goal with |- ?e <> _ => destruct e; discriminate end
         | intros e s' Hr; unfold bind, disk_usage_free in Hr; cbn [world] in Hr;
           fold path in Hr; rewrite D0 in Hr
         | intros e He; destruct e; try (apply keeps_log; discriminate); congruence].
  - injection Hr as <- _. discriminate.
  - exact (R free0 _ _ (f_equal fst Hr)).
Qed.

Lemma X4_pull_error_messages_witness :
  exists ll,
    logs unit (snd (run_pull unit no_paths (host_exec pull_ok_host) (disk (100 * GiB)) false
                      no_other_iso floats_true MAX_DIGITS depth_900 "docker.io/nginx" st0))
      = app (logs unit st0) ll /\
    Forall (fun r => r <> (Error, "Pull operation timed out for image: , command was blocked after 30 minutes")) ll /\
    (In (Error, "Required binary not found during pull for image ") ll ->
     disk (100 * GiB) (world unit st0) (if false then "/host" else "/") = inl FileNotFoundError).
Proof.
  apply (X4_pull_error_messages unit no_paths (host_exec pull_ok_host) (disk (100 * GiB)) false
           no_other_iso floats_true MAX_DIGITS depth_900 "docker.io/nginx" st0).
  intros w e D. discriminate D.
Defined.


Lemma fold_m_steps {World A B} (f : A -> B -> M World A) (g : B -> list string) :
  (forall acc b st, fst (f acc b st) = Ok acc /\
                    cmds World (snd (f acc b st)) = app (cmds World st) [g b]) ->
  forall l acc st, fst (fold_m World f acc l st) = Ok acc /\
                   cmds World (snd (fold_m World f acc l st)) = app (cmds World st) (map g l).
Proof.
  intros Hf l. induction l as [|b l IH]; intros acc st; cbn [fold_m].
  - cbn. rewrite app_nil_r. auto.
  - unfold bind. specialize (Hf acc b st).
    destruct (f acc b st) as [o st1]. cbn [fst snd] in Hf. destruct Hf as [-> C].
    cbv beta iota.
    destruct (IH acc st1) as [IH1 IH2]. split; [exact IH1|].
    rewrite IH2, C, <- app_assoc. reflexivity.
Qed.

Lemma get_all_images_failed :
  forall (World : Type) (path_exists : World -> string -> bool)
         (exec : World -> list string -> World * proc) (IN_CONTAINER : bool),
    (forall w, exists w' d r,
        exec w (full_cmd World path_exists IN_CONTAINER w ["images"; "-q"]) = (w', Finished d r)
        /\ returncode r <> 0) ->
    forall s a s', get_all_images World path_exists exec IN_CONTAINER s = (Ok a, s') -> a = [].
Proof.
  intros World pe ex ic Hi s a s' E.
  unfold get_all_images in E.
  rewrite (bind_ok _ _ _ _ _ (log_step _ _ s)) in E. cbv beta in E.
  match type of E with context [bind World (run_in_host World pe ex ic ["images"; "-q"]) _ ?st] =>
    destruct (Hi (world World st)) as (w' & d & r & X & Hr);
    destruct (run_in_host_finished pe ex ic ["images"; "-q"] st _ _ _ X) as [lg R]
  end.
  rewrite (bind_ok _ _ _ _ _ R) in E.
  apply Z.eqb_neq in Hr. rewrite Hr in E. cbn in E. unfold ret in E. congruence.
Qed.

(** X5.  When [crictl ps -a -q] exits with a non-zero status, or lists no
    container, [get_used_images] returns the empty set after running only
    that command: no image then counts as in use. *)
Theorem X5_no_used_images :
  forall (World : Type) (path_exists : World -> string -> bool)
         (exec : World -> list string -> World * proc) (IN_CONTAINER : bool)
         (ft : string -> bool) (mx : Z)
         (jd : World -> nat) (s : St World) (w' : World) (d : Z) (r : completed),
    exec (world World s) (full_cmd World path_exists IN_CONTAINER (world World s) ["ps"; "-a"; "-q"])
      = (w', Finished d r) ->
    returncode r <> 0 \/ Py.splitlines (Py.strip (stdout r)) = [] ->
    fst (get_used_images World path_exists exec IN_CONTAINER ft mx jd s) = Ok [] /\
    cmds World (snd (get_used_images World path_exists exec IN_CONTAINER ft mx jd s))
      = app (cmds World s) [["ps"; "-a"; "-q"]].
Proof.
  intros World pe ex ic ft mx jd s w' d r X H.
  unfold get_used_images.
  destruct (run_in_host_finished pe ex ic ["ps"; "-a"; "-q"] s _ _ _ X) as [lg R].
  rewrite (bind_ok _ _ _ _ _ R).
  destruct H as [Hr | Hids].
  - apply Z.eqb_neq in Hr. rewrite Hr. cbn. auto.
  - destruct (returncode r =? 0); cbn [negb]; cbv zeta; [rewrite Hids|]; cbn; auto.
Qed.

Lemma X5_no_used_images_witness :
  fst (get_used_images unit no_paths (host_exec (fun _ => failed)) false floats_true MAX_DIGITS depth_900 st0)
    = Ok [].
Proof.
  apply (X5_no_used_images unit no_paths (host_exec (fun _ => failed)) false floats_true MAX_DIGITS depth_900 st0
           tt 1 {| returncode := 1; stdout := EmptyString; stderr := "error" |});
    [reflexivity | left; discriminate].
Defined.

(** X6.  When every [crictl inspect] exits with a non-zero status,
    [get_used_images] inspects each listed container once, in order,
    skips it, and returns the empty set without raising. *)
Theorem X6_failed_inspections_skipped :
  forall (World : Type) (path_exists : World -> string -> bool)
         (exec : World -> list string -> World * proc) (IN_CONTAINER : bool)
         (ft : string -> bool) (mx : Z)
         (jd : World -> nat) (s : St World) (w1 : World) (d : Z) (r : completed)
         (ids : list string),
    exec (world World s) (full_cmd World path_exists IN_CONTAINER (world World s) ["ps"; "-a"; "-q"])
      = (w1, Finished d r) ->
    returncode r = 0 ->
    Py.splitlines (Py.strip (stdout r)) = ids ->
    (forall w c, exists w' d' r',
        exec w (full_cmd World path_exists IN_CONTAINER w ["inspect"; c]) = (w', Finished d' r')
        /\ returncode r' <> 0) ->
    fst (get_used_images World path_exists exec IN_CONTAINER ft mx jd s) = Ok [] /\
    cmds World (snd (get_used_images World path_exists exec IN_CONTAINER ft mx jd s))
      = app (cmds World s) (["ps"; "-a"; "-q"] :: map (fun c => ["inspect"; c]) ids).
Proof.
  intros World pe ex ic ft mx jd s w1 d r ids X Hr Hids Hins.
  unfold get_used_images.
  destruct (run_in_host_finished pe ex ic ["ps"; "-a"; "-q"] s _ _ _ X) as [lg R].
  rewrite (bind_ok _ _ _ _ _ R).
  rewrite Hr. cbn [negb Z.eqb]. cbv zeta. rewrite Hids.
  destruct ids as [|c0 ids'].
  - cbn. auto.
  - match goal with |- context [bind World (fold_m World ?f [] ?ll) _ ?stt] =>
      destruct (fold_m_steps f (fun c => ["inspect"; c])) with (l := ll) (acc := @nil json) (st := stt)
        as [F1 F2];
      [ intros acc c st0;
        rewrite (bind_ok _ _ _ _ _ (log_step _ _ st0)); cbv beta;
        match goal with |- context [bind World (run_in_host World pe ex ic ["inspect"; c]) _ ?st1] =>
          destruct (Hins (world World st1) c) as (w' & d' & r' & X' & Hr');
          destruct (run_in_host_finished pe ex ic ["inspect"; c] st1 _ _ _ X') as [lg' R']
        end;
        rewrite (bind_ok _ _ _ _ _ R');
        apply Z.eqb_neq in Hr'; rewrite Hr'; cbn; auto
      | remember (fold_m World f (@nil json) ll stt) as p eqn:Ep; destruct p as [o st2];
        cbn [fst snd] in F1, F2; subst o;
        rewrite (bind_ok _ _ _ _ _ (eq_sym Ep)); cbn; rewrite F2; cbn;
        rewrite <- app_assoc; auto ]
    end.
Qed.

Lemma X6_failed_inspections_skipped_witness :
  fst (get_used_images unit no_paths (host_exec (fun c => if is_cmd c ["ps"; "-a"; "-q"]
                                                       then ok (lines ["c1"; "c2"]) else failed))
         false floats_true MAX_DIGITS depth_900 st0) = Ok [].
Proof.
  apply (X6_failed_inspections_skipped unit no_paths
           (host_exec (fun c => if is_cmd c ["ps"; "-a"; "-q"] then ok (lines ["c1"; "c2"])
                                else failed))
           false floats_true MAX_DIGITS depth_900 st0 tt 1
           {| returncode := 0; stdout := lines ["c1"; "c2"]; stderr := EmptyString |}
           ["c1"; "c2"]); [reflexivity | reflexivity | vm_compute; reflexivity |].
  intros w c. exists tt, 1, {| returncode := 1; stdout := EmptyString; stderr := "error" |}.
  split; [reflexivity | discriminate].
Defined.

(** X7.  When [crictl images -q] exits with a non-zero status, a prune
    pass removes nothing: besides [crictl ps] and [crictl inspect] it only
    runs [crictl images -q], and no [crictl inspecti] or [crictl rmi]. *)
Theorem X7_failed_image_list_prunes_nothing :
  forall (World : Type) (path_exists : World -> string -> bool)
         (exec : World -> list string -> World * proc) (clock : World -> datetime)
         (IN_CONTAINER : bool) (fo : string -> option datetime) (ft : string -> bool) (mx : Z)
         (jd : World -> nat)
         (days : Z) (s : St World),
    (forall w, exists w' d r,
        exec w (full_cmd World path_exists IN_CONTAINER w ["images"; "-q"]) = (w', Finished d r)
        /\ returncode r <> 0) ->
    exists lc,
      cmds World (snd (run_prune World path_exists exec clock IN_CONTAINER fo ft mx jd days s))
        = app (cmds World s) lc /\
      Forall (fun c => c = ["ps"; "-a"; "-q"] \/ c = ["images"; "-q"] \/
                       exists id, c = ["inspect"; id]) lc.
Proof.
  intros World pe ex clk ic fo ft mx jd days s Hi.
  assert (K : Frame.keeps (fun c => c = ["ps"; "-a"; "-q"] \/ c = ["images"; "-q"] \/
                                    exists id, c = ["inspect"; id]) (fun _ => True)
                (run_prune World pe ex clk ic fo ft mx jd days)).
  { unfold run_prune.
    apply keeps_bind; [apply keeps_log; exact I | intros _].
    apply keeps_bind; [| intros _; apply keeps_log; exact I].
    apply keeps_with_image_lock.
    apply keeps_bind; [apply keeps_log; exact I | intros _].
    apply keeps_bind; [apply keeps_now | intros now_dt]. cbv zeta.
    apply keeps_bind; [frame_tac; eauto | intros used].
    apply (keeps_bind_post _ _ (fun a => a = []));
      [frame_tac; eauto | exact (get_all_images_failed World pe ex ic Hi) | intros a ->].
    apply keeps_bind; [apply keeps_log; exact I | intros _].
    cbn [fold_m]. apply keeps_ret. }
  destruct (K s) as (lc & ll & C & F & _). exists lc. auto.
Qed.

Lemma X7_failed_image_list_prunes_nothing_witness :
  exists lc,
    cmds unit (snd (run_prune unit no_paths (host_exec (fun _ => failed)) clock_2024 false
                      no_other_iso floats_true MAX_DIGITS depth_900 14 st0))
      = app (cmds unit st0) lc /\
    Forall (fun c => c = ["ps"; "-a"; "-q"] \/ c = ["images"; "-q"] \/
                     exists id, c = ["inspect"; id]) lc.
Proof.
  apply (X7_failed_image_list_prunes_nothing unit no_paths (host_exec (fun _ => failed))
           clock_2024 false no_other_iso floats_true MAX_DIGITS depth_900 14 st0).
  intros w. exists tt, 1, {| returncode := 1; stdout := EmptyString; stderr := "error" |}.
  split; [reflexivity | discriminate].
Defined.


Lemma startswith_app (p s : string) : Py.startswith p (p ++ s) = true.
Proof.
  unfold Py.startswith. induction p as [|a p IH]; cbn.
  - destruct s; reflexivity.
  - destruct (ascii_dec a a) as [_|n]; [exact IH | congruence].
Qed.

(** X8.  [prune_images] never rejects an admitted caller: whatever the
    body, it answers 200 with a number of days and schedules exactly one
    prune with that same number; a body that is not JSON, or whose JSON
    value is falsy ([{}], [[]], [null], [0], ...), gives 14 days.  Not
    JSON covers every body [request.json()] fails on: bytes that do not
    decode in the detected encoding, text that is not JSON, an integer
    of more than [sys.get_int_max_str_digits()] digits, or nesting past
    the recursion limit. *)
Theorem X8_prune_images_always_accepted :
  forall v6addr ft fi dec mx bd net remote_ip body,
    Net.is_allowed_ip v6addr net remote_ip = true ->
    exists d,
      prune_images v6addr ft fi dec mx bd net remote_ip body = (ROkPrune d, [TPrune d]) /\
      ((forall data, request_json mx bd body = inr data -> truthy ft data = false) -> d = 14).
Proof.
  intros v6addr ft fi dec mx bd net remote_ip body Hallow.
  unfold prune_images. rewrite Hallow. cbn [negb].
  exists (match prune_days_block ft fi dec mx bd body with inr d => d | inl _ => 14 end).
  split; [reflexivity|].
  intro H. unfold prune_days_block.
  destruct (request_json mx bd body) as [f|data] eqn:E; [|rewrite (H data eq_refl)]; reflexivity.
Qed.

Lemma X8_prune_images_always_accepted_witness :
  exists d,
    prune_images no_v6_addr floats_true float_int_none decimal_nd MAX_DIGITS BODY_DEPTH (Some net_0_0_0_0_1) "10.0.0.1"
      "not json" = (ROkPrune d, [TPrune d]) /\
    ((forall data, request_json MAX_DIGITS BODY_DEPTH "not json" = inr data ->
                   truthy floats_true data = false) -> d = 14).
Proof.
  apply (X8_prune_images_always_accepted no_v6_addr floats_true float_int_none decimal_nd
           MAX_DIGITS BODY_DEPTH (Some net_0_0_0_0_1) "10.0.0.1" "not json").
  vm_compute. reflexivity.
Defined.

(** X9.  [prune_images] does not range-check [days]: any value that
    [int()] converts, zero and negative numbers included, is answered and
    scheduled as is.  The only bound is the one of [json.loads] and
    [int()] themselves: a [days] of more than
    [sys.get_int_max_str_digits()] digits is not converted. *)
Theorem X9_prune_days_unchecked :
  forall v6addr ft fi dec mx bd net remote_ip body data v n,
    Net.is_allowed_ip v6addr net remote_ip = true ->
    request_json mx bd body = inr data ->
    truthy ft data = true ->
    get data "days" (JInt 14) = Some v ->
    py_int fi dec mx v = inr n ->
    prune_images v6addr ft fi dec mx bd net remote_ip body = (ROkPrune n, [TPrune n]).
Proof.
  intros v6addr ft fi dec mx bd net remote_ip body data v n Hallow Hl Ht Hg Hi.
  unfold prune_images, prune_days_block.
  rewrite Hallow, Hl, Ht, Hg, Hi. reflexivity.
Qed.

Lemma X9_prune_days_unchecked_witness :
  prune_images no_v6_addr floats_true float_int_none decimal_nd MAX_DIGITS BODY_DEPTH (Some net_0_0_0_0_1) "10.0.0.1"
    (dq "{'days': -5}") = (ROkPrune (-5), [TPrune (-5)]).
Proof.
  apply (X9_prune_days_unchecked no_v6_addr floats_true float_int_none decimal_nd
           MAX_DIGITS BODY_DEPTH (Some net_0_0_0_0_1) "10.0.0.1" (dq "{'days': -5}") (JObj [("days", JInt (-5))]) (JInt (-5)) (-5));
    vm_compute; reflexivity.
Defined.

(** X10.  The image-name rewriting of [pull_image] is idempotent: a name
    it produced is never rewritten again. *)
Theorem X10_normalize_idempotent :
  forall image, normalize_image (normalize_image image) = normalize_image image.
Proof.
  intro image. unfold normalize_image.
  destruct ((Py.count "/" image <=? 1)%nat && negb (Py.startswith "docker.io/" image)) eqn:C.
  - rewrite startswith_app, andb_false_r. reflexivity.
  - rewrite C. reflexivity.
Qed.

(** X11.  [pull_image] schedules at most one pull, and only for an
    admitted caller answered 200 whose body is JSON with a non-empty
    string [image]: the pull is for the normalised name of that string. *)
Theorem X11_pull_scheduled_only_when_valid :
  forall v6addr ft mx bd net remote_ip body r t ts,
    pull_image v6addr ft mx bd net remote_ip body = (r, t :: ts) ->
    Net.is_allowed_ip v6addr net remote_ip = true /\ r = ROkPull /\ ts = [] /\
    exists data s, request_json mx bd body = inr data /\ get data "image" JNull = Some (JStr s) /\
                   s <> EmptyString /\ t = TPull (normalize_image s).
Proof.
  intros v6addr ft mx bd net remote_ip body r t ts. unfold pull_image.
  destruct (Net.is_allowed_ip v6addr net remote_ip); cbn [negb]; [|discriminate].
  destruct (request_json mx bd body) as [f|data] eqn:L; [discriminate|].
  destruct (get data "image" JNull) as [v|] eqn:G; [|discriminate].
  destruct (truthy ft v) eqn:T; cbn [negb]; [|discriminate].
  destruct v as [| | | |s| |]; try discriminate. cbv zeta.
  destruct (_ || _); [discriminate|].
  intro H. injection H as <- <- <-.
  repeat split. exists data, s. repeat split; auto.
  intros ->. discriminate T.
Qed.

Lemma X11_pull_scheduled_only_when_valid_witness :
  exists data s, request_json MAX_DIGITS BODY_DEPTH (dq "{'image': 'nginx'}") = inr data /\
                 get data "image" JNull = Some (JStr s) /\ s <> EmptyString /\
                 TPull "docker.io/nginx" = TPull (normalize_image s).
Proof.
  apply (X11_pull_scheduled_only_when_valid no_v6_addr floats_true MAX_DIGITS BODY_DEPTH
           (Some net_0_0_0_0_1)
           "10.0.0.1" (dq "{'image': 'nginx'}") ROkPull (TPull "docker.io/nginx") []).
  vm_compute. reflexivity.
Defined.

(** X12.  The error answers of [pull_image] to an admitted caller, none
    of which schedules a pull: a body [request.json()] fails on (bytes
    that do not decode in the detected encoding, text that is not JSON,
    an integer of more than [sys.get_int_max_str_digits()] digits, nesting
    past the recursion limit), or whose JSON value is not an object, gives
    500; a missing or falsy [image] gives 400; a truthy [image] that is
    not a string gives 500. *)
Theorem X12_pull_image_errors :
  forall v6addr ft mx bd net remote_ip body,
    Net.is_allowed_ip v6addr net remote_ip = true ->
    (forall f, request_json mx bd body = inl f ->
       pull_image v6addr ft mx bd net remote_ip body = (RStatus 500, [])) /\
    (forall data, request_json mx bd body = inr data -> get data "image" JNull = None ->
       pull_image v6addr ft mx bd net remote_ip body = (RStatus 500, [])) /\
    (forall data v, request_json mx bd body = inr data -> get data "image" JNull = Some v ->
       truthy ft v = false -> pull_image v6addr ft mx bd net remote_ip body = (RStatus 400, [])) /\
    (forall data v, request_json mx bd body = inr data -> get data "image" JNull = Some v ->
       truthy ft v = true -> (forall s, v <> JStr s) ->
       pull_image v6addr ft mx bd net remote_ip body = (RStatus 500, [])).
Proof.
  intros v6addr ft mx bd net remote_ip body Hallow.
  unfold pull_image. rewrite Hallow. cbn [negb].
  repeat split.
  - intros f L. rewrite L. reflexivity.
  - intros data L G. rewrite L, G. reflexivity.
  - intros data v L G T. rewrite L, G, T. reflexivity.
  - intros data v L G T Hn. rewrite L, G, T. cbn [negb].
    destruct v; try reflexivity. exfalso. eapply Hn. reflexivity.
Qed.

Lemma X12_pull_image_errors_witness :
  pull_image no_v6_addr floats_true MAX_DIGITS BODY_DEPTH (Some net_0_0_0_0_1) "10.0.0.1" (dq "{'image': 5}")
    = (RStatus 500, []).
Proof.
  apply (proj2 (proj2 (proj2 (X12_pull_image_errors no_v6_addr floats_true MAX_DIGITS BODY_DEPTH
           (Some net_0_0_0_0_1) "10.0.0.1" (dq "{'image': 5}") ltac:(vm_compute; reflexivity))))
           (JObj [("image", JInt 5)]) (JInt 5));
    [vm_compute; reflexivity | vm_compute; reflexivity | vm_compute; reflexivity | discriminate].
Defined.


Lemma list_ascii_app (a b : string) :
  list_ascii_of_string (a ++ b) = app (list_ascii_of_string a) (list_ascii_of_string b).
Proof. induction a as [|c a IH]; cbn; [reflexivity | now rewrite IH]. Qed.

Lemma rstrip_Z_snoc (ts : string) :
  Py.rstrip_char "Z" (ts ++ "Z") = Py.rstrip_char "Z" ts.
Proof.
  unfold Py.rstrip_char. rewrite list_ascii_app. cbn [list_ascii_of_string].
  rewrite rev_app_distr. reflexivity.
Qed.

Lemma split_once_dot (base f : string) :
  Py.contains "." base = false ->
  Py.split_once "." (base ++ "." ++ f) = Some (base, f).
Proof.
  unfold Py.contains. change ("." ++ f) with (String "."%char f).
  induction base as [|c base IH]; cbn; intro H.
  - reflexivity.
  - apply orb_false_iff in H as [Hc Hb]. rewrite Hc, (IH Hb). reflexivity.
Qed.

Lemma contains_dot (base f : string) : Py.contains "." (base ++ "." ++ f) = true.
Proof.
  unfold Py.contains. rewrite list_ascii_app, existsb_app. cbn.
  apply orb_true_r.
Qed.

Lemma rstrip_Z_digits (base f : string) :
  forallb Py.is_digit (list_ascii_of_string f) = true ->
  Py.rstrip_char "Z" (base ++ "." ++ f) = base ++ "." ++ f.
Proof.
  intro Hf.
  assert (Hrev : exists d r, rev (list_ascii_of_string (base ++ "." ++ f)) = d :: r /\
                             Ascii.eqb d "Z" = false).
  { rewrite list_ascii_app. cbn [list_ascii_of_string append].
    rewrite rev_app_distr. cbn [rev].
    destruct (rev (list_ascii_of_string f)) as [|d r] eqn:R.
    - exists "."%char, (rev (list_ascii_of_string base)). split; reflexivity.
    - exists d, (app r (app ["."%char] (rev (list_ascii_of_string base)))).
      split; [cbn; rewrite <- app_assoc; reflexivity|].
      assert (Hin : In d (list_ascii_of_string f)).
      { apply in_rev. rewrite R. left. reflexivity. }
      rewrite forallb_forall in Hf. specialize (Hf d Hin).
      destruct (Ascii.eqb_spec d "Z") as [->|]; [discriminate Hf | reflexivity]. }
  destruct Hrev as (d & r & E & Hd).
  unfold Py.rstrip_char. rewrite E. lazy beta iota zeta. rewrite Hd.
  lazy beta iota. rewrite <- E, rev_involutive, string_of_list_ascii_of_string.
  reflexivity.
Qed.

Lemma parse_rfc3339_fraction (fo : string -> option datetime) (base f : string) :
  Py.contains "." base = false ->
  forallb Py.is_digit (list_ascii_of_string f) = true ->
  parse_rfc3339 fo (base ++ "." ++ f)
  = fromisoformat fo (base ++ "." ++ substring 0 6 (f ++ "000000")).
Proof.
  intros Hb Hf. unfold parse_rfc3339. cbv zeta.
  rewrite (rstrip_Z_digits base f Hf), contains_dot, (split_once_dot base f Hb).
  reflexivity.
Qed.

Lemma count_righthand_zero_bits_range (n : Z) :
  0 <= Net.count_righthand_zero_bits n <= 32.
Proof.
  unfold Net.count_righthand_zero_bits. destruct (n =? 0); [lia|].
  split; [apply Z.min_glb; [lia | apply Z.log2_up_nonneg] | apply Z.le_min_l].
Qed.

Lemma prefix_from_ip_int_range (x p : Z) :
  Net.prefix_from_ip_int x = Some p -> 0 <= p <= 32.
Proof.
  unfold Net.prefix_from_ip_int. cbv zeta.
  pose proof (count_righthand_zero_bits_range x) as R.
  generalize dependent (Net.count_righthand_zero_bits x). intros tz R.
  destruct (_ =? _); [intro H; assert (E : 32 - tz = p) by congruence; lia | discriminate].
Qed.

Lemma make_netmask_range (m : option string) (p : Z) :
  Net.make_netmask m = Some p -> 0 <= p <= 32.
Proof.
  destruct m as [s|]; cbn [Net.make_netmask]; [|intros [= <-]; lia].
  unfold Net.prefix_from_prefix_string.
  destruct (negb (Py.all_digits s)).
  - unfold Net.prefix_from_ip_string.
    destruct (Net.ip_int_from_string s) as [x|]; [|discriminate].
    destruct (Net.prefix_from_ip_int x) as [q|] eqn:P.
    + intros [= <-]. exact (prefix_from_ip_int_range _ _ P).
    + apply prefix_from_ip_int_range.
  - cbv zeta. destruct ((0 <=? _) && (_ <=? 32)) eqn:R.
    + intros [= <-]. apply andb_true_iff in R as [R1 R2].
      apply Z.leb_le in R1, R2. lia.
    + unfold Net.prefix_from_ip_string.
      destruct (Net.ip_int_from_string s) as [x|]; [|discriminate].
      destruct (Net.prefix_from_ip_int x) as [q|] eqn:P.
      * intros [= <-]. exact (prefix_from_ip_int_range _ _ P).
      * apply prefix_from_ip_int_range.
Qed.

(** X13.  [parse_rfc3339] ignores a trailing "Z": a timestamp with a
    "Z" appended parses exactly as the timestamp without it. *)
Theorem X13_parse_trailing_Z :
  forall fo ts, parse_rfc3339 fo (ts ++ "Z") = parse_rfc3339 fo ts.
Proof.
  intros fo ts. unfold parse_rfc3339. rewrite rstrip_Z_snoc. reflexivity.
Qed.

(** X14.  [parse_rfc3339] truncates the fraction of a second to six
    digits and pads it with zeros: two timestamps that share the text
    before the first "." and whose digit fractions agree on their first six
    digits, once padded, parse to the same result. *)
Theorem X14_fraction_truncated :
  forall fo base f1 f2,
    Py.contains "." base = false ->
    forallb Py.is_digit (list_ascii_of_string f1) = true ->
    forallb Py.is_digit (list_ascii_of_string f2) = true ->
    substring 0 6 (f1 ++ "000000") = substring 0 6 (f2 ++ "000000") ->
    parse_rfc3339 fo (base ++ "." ++ f1) = parse_rfc3339 fo (base ++ "." ++ f2).
Proof.
  intros fo base f1 f2 Hb H1 H2 E.
  rewrite (parse_rfc3339_fraction fo base f1 Hb H1), (parse_rfc3339_fraction fo base f2 Hb H2), E.
  reflexivity.
Qed.

Lemma X14_fraction_truncated_witness :
  parse_rfc3339 no_other_iso ("2024-01-02T03:04:05" ++ "." ++ "1234567")
  = parse_rfc3339 no_other_iso ("2024-01-02T03:04:05" ++ "." ++ "123456").
Proof.
  apply X14_fraction_truncated; vm_compute; reflexivity.
Defined.

(** X15.  A network that [IPv4Network] accepts is canonical: its prefix
    length is between 0 and 32, its netmask is the one of that prefix
    length, and its network address has no host bit set. *)
Theorem X15_ipv4_network_canonical :
  forall s n,
    Net.ipv4_network s = Net.V4Net n ->
    Net.net_version n = 4%nat /\ 0 <= Net.prefixlen n <= 32 /\
    Net.netmask n = Net.ip_int_from_prefix (Net.prefixlen n) /\
    Z.land (Net.network_address n) (Net.netmask n) = Net.network_address n.
Proof.
  intros s n. unfold Net.ipv4_network.
  destruct (2 <? _)%Z; [discriminate|]. cbv zeta.
  destruct (Py.contains "/" _); [discriminate|].
  destruct (Net.ip_int_from_string _) as [packed|]; [|discriminate].
  destruct (Net.make_netmask _) as [p|] eqn:M; [|discriminate].
  destruct (Z.land packed (Net.ip_int_from_prefix p) =? packed) eqn:L; cbn [negb];
    [|discriminate].
  intro H. assert (E : n = {| Net.net_version := 4; Net.network_address := packed;
                             Net.netmask := Net.ip_int_from_prefix p; Net.prefixlen := p |})
    by congruence.
  subst n. cbn [Net.net_version Net.prefixlen Net.netmask Net.network_address].
  apply Z.eqb_eq in L.
  repeat split; auto; apply (make_netmask_range _ _ M).
Qed.

Lemma X15_ipv4_network_canonical_witness :
  Net.ipv4_network "10.0.0.0/8"
    = Net.V4Net {| Net.net_version := 4; Net.network_address := 167772160;
                   Net.netmask := 4278190080; Net.prefixlen := 8 |} /\
  Z.land 167772160 4278190080 = 167772160.
Proof.
  assert (E : Net.ipv4_network "10.0.0.0/8"
              = Net.V4Net {| Net.net_version := 4; Net.network_address := 167772160;
                             Net.netmask := 4278190080; Net.prefixlen := 8 |})
    by (vm_compute; reflexivity).
  split; [exact E|].
  exact (proj2 (proj2 (proj2 (X15_ipv4_network_canonical _ _ E)))).
Defined.


Lemma prefix_iff (p s : string) :
  String.prefix p s = true <-> exists post, s = p ++ post.
Proof.
  revert s. induction p as [|a p IH]; intro s.
  - split; [intros _; exists s; reflexivity | destruct s; reflexivity].
  - destruct s as [|b s]; cbn.
    + split; [discriminate | intros [post E]; discriminate E].
    + destruct (ascii_dec a b) as [<-|n].
      * rewrite IH. split; intros [post E]; exists post; congruence.
      * split; [discriminate | intros [post E]; congruence].
Qed.

(** [contains_sub] is Python's substring test. *)
Lemma contains_sub_iff (sub s : string) :
  Startup.contains_sub sub s = true <-> exists pre post, s = pre ++ sub ++ post.
Proof.
  induction s as [|c s IH]; cbn [Startup.contains_sub]; rewrite orb_true_iff, prefix_iff.
  - split.
    + intros [[post E]|F]; [exists EmptyString, post; exact E | discriminate F].
    + intros (pre & post & E). left. destruct pre; [exists post; exact E | discriminate E].
  - rewrite IH. split.
    + intros [[post E] | (pre & post & E)].
      * exists EmptyString, post. exact E.
      * exists (String c pre), post. cbn. congruence.
    + intros (pre & post & E). destruct pre as [|d pre].
      * left. exists post. exact E.
      * right. exists pre, post. cbn in E. congruence.
Qed.

Ltac split_ifs H :=
  repeat match type of H with
         | context [if ?b then _ else _] => destruct b
         end.

(** X16.  [is_container] raises exactly when reading [/proc/1/cgroup]
    raises an exception other than [FileNotFoundError] and [OSError]
    ([IOError]), for instance a [ValueError] from undecodable text; the
    exception is then the one of the read. *)
Theorem X16_is_container_raises :
  forall cgroup dockerenv environ e,
    Startup.is_container cgroup dockerenv environ = inl e <->
    cgroup = inl e /\ e <> FileNotFoundError /\ e <> OSError.
Proof.
  intros cgroup de env e. split.
  - unfold Startup.is_container. intro H.
    destruct cgroup as [e0|txt]; [destruct e0|];
      try (injection H as <-; split; [reflexivity | split; discriminate]);
      split_ifs H; discriminate H.
  - intros (-> & H1 & H2). unfold Startup.is_container.
    destruct e; try reflexivity; congruence.
Qed.

Lemma X16_is_container_raises_witness :
  Startup.is_container (inl ValueError) true [] = inl ValueError.
Proof.
  apply (proj2 (X16_is_container_raises (inl ValueError) true [] ValueError)).
  split; [reflexivity | split; discriminate].
Defined.

(** X17.  When reading [/proc/1/cgroup] succeeds, or fails with
    [FileNotFoundError] or [OSError], [is_container] returns a boolean,
    and it is [True] exactly when one marker is present: the text contains
    "docker", "kubepods" or "kublet"; [/.dockerenv] exists;
    [KUBERNETES_SERVICE_HOST] is set to a non-empty value; or some
    environment variable's name starts with "DOCKER_" or "containerd_". *)
Theorem X17_is_container_markers :
  forall cgroup dockerenv environ,
    (exists txt, cgroup = inr txt) \/ cgroup = inl FileNotFoundError \/ cgroup = inl OSError ->
    exists b, Startup.is_container cgroup dockerenv environ = inr b /\
    (b = true <->
       (exists txt, cgroup = inr txt /\
          exists marker, In marker ["docker"; "kubepods"; "kublet"] /\
                         exists pre post, txt = pre ++ marker ++ post) \/
       dockerenv = true \/
       (exists v, Startup.env_get environ "KUBERNETES_SERVICE_HOST" = Some v /\
                  v <> EmptyString) \/
       (exists name value post, In (name, value) environ /\
          (name = "DOCKER_" ++ post \/ name = "containerd_" ++ post))).
Proof.
  intros cgroup de env Hc.
  assert (Hm : forall b, (if de then inr true
                   else if match Startup.env_get env "KUBERNETES_SERVICE_HOST" with
                           | Some v => negb (String.eqb v EmptyString)
                           | None => false end then inr true
                   else if existsb (fun env_var => String.prefix "DOCKER_" env_var
                                                   || String.prefix "containerd_" env_var)
                                   (map fst env) then inr true
                   else inr false) = @inr exn bool b ->
                  (b = true <->
                   de = true \/
                   (exists v, Startup.env_get env "KUBERNETES_SERVICE_HOST" = Some v /\
                              v <> EmptyString) \/
                   (exists name value post, In (name, value) env /\
                      (name = "DOCKER_" ++ post \/ name = "containerd_" ++ post)))).
  { intros b Hb.
    assert (Hex : existsb (fun env_var => String.prefix "DOCKER_" env_var
                                          || String.prefix "containerd_" env_var)
                          (map fst env) = true <->
                  exists name value post, In (name, value) env /\
                    (name = "DOCKER_" ++ post \/ name = "containerd_" ++ post)).
    { rewrite existsb_exists. split.
      - intros (name & Hin & Hp). apply in_map_iff in Hin as ([k v] & Hk & Hin).
        cbn in Hk. subst name.
        apply orb_true_iff in Hp as [Hp|Hp]; apply prefix_iff in Hp as [post ->];
          [exists ("DOCKER_" ++ post), v, post | exists ("containerd_" ++ post), v, post];
          auto.
      - intros (name & value & post & Hin & Hn). exists name. split.
        + apply in_map_iff. exists (name, value). auto.
        + apply orb_true_iff. destruct Hn as [->| ->]; [left|right];
            apply prefix_iff; eauto. }
    destruct de; [injection Hb as <-; tauto|].
    destruct (Startup.env_get env "KUBERNETES_SERVICE_HOST") as [v|] eqn:K.
    - destruct (String.eqb_spec v EmptyString) as [->|Hv]; cbn [negb] in Hb.
      + rewrite <- Hex. destruct existsb; injection Hb as <-.
        * split; [intros _; right; right; reflexivity | reflexivity].
        * split; [discriminate|]. intros [F | [(v' & [= <-] & F) | F]]; congruence.
      + injection Hb as <-. split; [intros _; right; left; eauto | reflexivity].
    - rewrite <- Hex. destruct existsb; injection Hb as <-.
      + split; [intros _; right; right; reflexivity | reflexivity].
      + split; [discriminate|]. intros [F | [(v' & F & _) | F]]; congruence. }
  unfold Startup.is_container. cbv zeta.
  destruct Hc as [(txt & ->) | [-> | ->]].
  - destruct (Startup.contains_sub "docker" txt) eqn:D1;
      [|destruct (Startup.contains_sub "kubepods" txt) eqn:D2;
        [|destruct (Startup.contains_sub "kublet" txt) eqn:D3]]; cbn [orb].
    + exists true. split; [reflexivity|]. split; [intros _|reflexivity].
      left. exists txt. split; [reflexivity|]. exists "docker". split; [left; reflexivity|].
      apply contains_sub_iff. exact D1.
    + exists true. split; [reflexivity|]. split; [intros _|reflexivity].
      left. exists txt. split; [reflexivity|]. exists "kubepods". split; [right; left; reflexivity|].
      apply contains_sub_iff. exact D2.
    + exists true. split; [reflexivity|]. split; [intros _|reflexivity].
      left. exists txt. split; [reflexivity|]. exists "kublet". split; [right; right; left; reflexivity|].
      apply contains_sub_iff. exact D3.
    + match goal with |- exists b, ?m = inr b /\ _ =>
        case_eq m; [intros e Em; split_ifs Em; discriminate Em | intros b Em] end.
      exists b. split; [reflexivity|]. rewrite (Hm b Em).
      split; [tauto|]. intros [(txt' & [= <-] & marker & Hin & Hs) | H]; [|exact H].
      exfalso. apply contains_sub_iff in Hs.
      destruct Hin as [<- | [<- | [<- | []]]]; congruence.
  - match goal with |- exists b, ?m = inr b /\ _ =>
      case_eq m; [intros e Em; split_ifs Em; discriminate Em | intros b Em] end.
    exists b. split; [reflexivity|]. rewrite (Hm b Em).
    split; [tauto|]. intros [(txt & F & _) | H]; [discriminate F | exact H].
  - match goal with |- exists b, ?m = inr b /\ _ =>
      case_eq m; [intros e Em; split_ifs Em; discriminate Em | intros b Em] end.
    exists b. split; [reflexivity|]. rewrite (Hm b Em).
    split; [tauto|]. intros [(txt & F & _) | H]; [discriminate F | exact H].
Qed.

Lemma X17_is_container_markers_witness :
  exists b, Startup.is_container (inl FileNotFoundError) false [("containerd_x", "1")] = inr b /\
    (b = true <->
       (exists txt, @inl exn string FileNotFoundError = inr txt /\
          exists marker, In marker ["docker"; "kubepods"; "kublet"] /\
                         exists pre post, txt = pre ++ marker ++ post) \/
       false = true \/
       (exists v, Startup.env_get [("containerd_x", "1")] "KUBERNETES_SERVICE_HOST" = Some v /\
                  v <> EmptyString) \/
       (exists name value post, In (name, value) [("containerd_x", "1")] /\
          (name = "DOCKER_" ++ post \/ name = "containerd_" ++ post))).
Proof.
  apply X17_is_container_markers. right. left. reflexivity.
Defined.


Lemma filter_same_id {T} (id : string) (l : list (string * T)) :
  filter (fun j => String.eqb (fst j) id)
         (filter (fun j => negb (String.eqb (fst j) id)) l) = [].
Proof.
  induction l as [|[k t] l IH]; cbn; [reflexivity|].
  destruct (String.eqb k id) eqn:E; cbn; [exact IH | rewrite E; exact IH].
Qed.

(** X18.  Whatever [PRUNE_SCHEDULE] is and whether the cron expression
    parses, running [startup_event] and then [shutdown_event] on the
    scheduler created at import leaves it stopped with no job. *)
Theorem X18_startup_shutdown_clean :
  forall (Trigger : Type) (from_crontab : string -> option Trigger)
         (PRUNE_SCHEDULE : string) logs0,
    let s := Startup.shutdown_event Trigger
               (Startup.startup_event Trigger from_crontab PRUNE_SCHEDULE
                  (Startup.fresh Trigger logs0)) in
    Startup.jobs Trigger s = [] /\ Startup.running Trigger s = false.
Proof.
  intros Trigger from_crontab sched logs0. cbv zeta.
  unfold Startup.shutdown_event, Startup.startup_event, Startup.configure_scheduler.
  destruct (String.eqb sched EmptyString); [split; reflexivity|].
  destruct (from_crontab sched); split; reflexivity.
Qed.

(** X19.  What [startup_event] does to the scheduler created at import:
    with an empty [PRUNE_SCHEDULE] nothing is scheduled; with a cron
    expression that does not parse, no job is added, the scheduler stays
    stopped, and an error then a warning are logged; with one that
    parses, the single job [image_prune_job] is registered with its
    trigger and the scheduler runs. *)
Theorem X19_startup_schedules :
  forall (Trigger : Type) (from_crontab : string -> option Trigger)
         (PRUNE_SCHEDULE : string) logs0,
    let s := Startup.startup_event Trigger from_crontab PRUNE_SCHEDULE
               (Startup.fresh Trigger logs0) in
    (PRUNE_SCHEDULE = EmptyString ->
       Startup.jobs Trigger s = [] /\ Startup.running Trigger s = false /\
       Startup.slogs Trigger s = app logs0 [(Info, "Application startup complete")]) /\
    (PRUNE_SCHEDULE <> EmptyString -> from_crontab PRUNE_SCHEDULE = None ->
       Startup.jobs Trigger s = [] /\ Startup.running Trigger s = false /\
       Startup.slogs Trigger s =
         app logs0 [(Error, "Failed to configure scheduler with cron expression '");
                   (Warning, "Prune scheduler will not run; manual operation only");
                   (Info, "Application startup complete")]) /\
    (forall t, from_crontab PRUNE_SCHEDULE = Some t -> PRUNE_SCHEDULE <> EmptyString ->
       Startup.jobs Trigger s = [("image_prune_job", t)] /\ Startup.running Trigger s = true).
Proof.
  intros Trigger from_crontab sched logs0. cbv zeta.
  unfold Startup.startup_event, Startup.configure_scheduler.
  split; [|split].
  - intros ->. cbn. auto.
  - intros Hs Hc. apply String.eqb_neq in Hs. rewrite Hs, Hc. cbn.
    rewrite <- !app_assoc. auto.
  - intros t Hc Hs. apply String.eqb_neq in Hs. rewrite Hs, Hc. cbn. auto.
Qed.

Lemma X19_startup_schedules_witness :
  Startup.jobs unit (Startup.startup_event unit (fun _ => Some tt) "0 3 * * *"
                       (Startup.fresh unit [])) = [("image_prune_job", tt)].
Proof.
  apply (proj2 (proj2 (X19_startup_schedules unit (fun _ => Some tt) "0 3 * * *" [])) tt);
    [reflexivity | discriminate].
Defined.

(** X20.  [configure_scheduler] with a cron expression that parses
    leaves exactly one job named [image_prune_job], carrying the new
    trigger, and a running scheduler, whatever jobs there were before
    ([replace_existing=True]); if the scheduler was already running, the
    [scheduler.start()] that fails is reported as an error. *)
Theorem X20_configure_replaces_job :
  forall (Trigger : Type) (from_crontab : string -> option Trigger)
         (PRUNE_SCHEDULE : string) (s : Startup.sched Trigger) (t : Trigger),
    PRUNE_SCHEDULE <> EmptyString ->
    from_crontab PRUNE_SCHEDULE = Some t ->
    let s' := Startup.configure_scheduler Trigger from_crontab PRUNE_SCHEDULE s in
    filter (fun j => String.eqb (fst j) "image_prune_job") (Startup.jobs Trigger s')
      = [("image_prune_job", t)] /\
    Startup.running Trigger s' = true /\
    (Startup.running Trigger s = true ->
       In (Error, "Failed to configure scheduler with cron expression '")
          (Startup.slogs Trigger s')).
Proof.
  intros Trigger from_crontab sched s t Hs Hc. cbv zeta.
  unfold Startup.configure_scheduler. apply String.eqb_neq in Hs. rewrite Hs, Hc.
  unfold Startup.start. cbn [Startup.running Startup.jobs Startup.slogs Startup.add_job Startup.slog].
  destruct (Startup.running Trigger s) eqn:R; cbn;
    rewrite filter_app, filter_same_id; cbn; (split; [reflexivity|]); split; auto.
  - intros _. apply in_or_app. left. apply in_or_app. right. left. reflexivity.
  - discriminate.
Qed.

Lemma X20_configure_replaces_job_witness :
  Startup.running unit
    (Startup.configure_scheduler unit (fun _ => Some tt) "0 3 * * *"
       {| Startup.jobs := [("image_prune_job", tt); ("other", tt)];
          Startup.running := true; Startup.slogs := [] |}) = true.
Proof.
  apply (proj1 (proj2 (X20_configure_replaces_job unit (fun _ => Some tt) "0 3 * * *"
           {| Startup.jobs := [("image_prune_job", tt); ("other", tt)];
              Startup.running := true; Startup.slogs := [] |} tt ltac:(discriminate)
           eq_refl))).
Defined.


Lemma line_break_is_space (ch : list ascii) :
  Py.is_line_break ch = true -> Py.is_space ch = true.
Proof.
  unfold Py.is_line_break, Py.is_space, Py.char_in. intro H.
  apply existsb_exists in H as (cp & Hin & Heq).
  apply existsb_exists. exists cp. split; [|exact Heq].
  cbn in Hin |- *.
  repeat (destruct Hin as [<- | Hin]; [tauto|]). destruct Hin.
Qed.

Lemma chars_aux_app (a b cur : list ascii) :
  (forall c b', b = c :: b' -> Py.is_cont c = false) ->
  Py.chars_aux (app a b) cur = app (Py.chars_aux a cur) (Py.chars_aux b []).
Proof.
  intro Hb. revert cur. induction a as [|c a IH]; intro cur.
  - destruct b as [|c b']; cbn [app].
    + destruct cur; cbn; reflexivity.
    + cbn [Py.chars_aux]. rewrite (Hb c b' eq_refl). destruct cur; reflexivity.
  - cbn [app Py.chars_aux]. destruct (Py.is_cont c); [apply IH|].
    destruct cur; [apply IH|]. cbn [app]. rewrite IH. reflexivity.
Qed.

Lemma chars_aux_nonempty (l cur : list ascii) :
  cur <> [] -> Py.chars_aux l cur <> [].
Proof.
  revert cur. induction l as [|c l IH]; intros cur H; cbn.
  - destruct cur; [congruence | discriminate].
  - destruct (Py.is_cont c); [apply IH; discriminate|].
    destruct cur; [apply IH; discriminate | discriminate].
Qed.

Lemma chars_nonempty (x : string) : x <> EmptyString -> Py.chars x <> [].
Proof.
  destruct x as [|c x]; [congruence|]. intros _. unfold Py.chars. cbn.
  destruct (Py.is_cont c); apply chars_aux_nonempty; discriminate.
Qed.

(** An image id as [crictl images -q] prints it: not empty, not starting
    with a UTF-8 continuation byte, with no whitespace character. *)
Definition plain_id (x : string) : Prop :=
  x <> EmptyString /\
  (forall c r, list_ascii_of_string x = c :: r -> Py.is_cont c = false) /\
  forallb (fun ch => negb (Py.is_space ch)) (Py.chars x) = true.

(** The characters of [x1 ++ "\n" ++ ... ++ "\n" ++ xn]. *)
Fixpoint id_chunks (x : string) (xs : list string) : list (list ascii) :=
  match xs with
  | [] => Py.chars x
  | y :: ys => app (Py.chars x) ([Py.chr 10] :: id_chunks y ys)
  end.

Lemma lines_head (x : string) (xs : list string) :
  plain_id x -> forall c r, list_ascii_of_string (lines (x :: xs)) = c :: r -> Py.is_cont c = false.
Proof.
  intros (Hne & Hh & _) c r E. destruct x as [|c0 x]; [congruence|].
  cbn in E. injection E as -> _. exact (Hh _ _ eq_refl).
Qed.

Lemma chars_lines (x : string) (xs : list string) :
  Forall plain_id (x :: xs) ->
  Py.chars (lines (x :: xs)) = app (id_chunks x xs) [[Py.chr 10]].
Proof.
  revert x. induction xs as [|y ys IH]; intros x Hall.
  - unfold Py.chars. cbn [lines fold_right id_chunks]. rewrite list_ascii_app.
    rewrite chars_aux_app by (intros c b' E; injection E as <- _; reflexivity).
    reflexivity.
  - inversion Hall as [|? ? Hx Hrest]; subst.
    unfold Py.chars.
    change (lines (x :: y :: ys)) with (x ++ String (Py.chr 10) (lines (y :: ys))).
    rewrite list_ascii_app.
    change (list_ascii_of_string (String (Py.chr 10) (lines (y :: ys))))
      with (app [Py.chr 10] (list_ascii_of_string (lines (y :: ys)))).
    rewrite chars_aux_app by (intros c b' E; cbn in E; injection E as <- _; reflexivity).
    rewrite chars_aux_app
      by (inversion Hrest as [|? ? Hy _]; exact (lines_head y ys Hy)).
    fold (Py.chars (lines (y :: ys))). rewrite (IH y Hrest).
    cbn [id_chunks]. change (Py.chars_aux [Py.chr 10] []) with [[Py.chr 10]].
    rewrite <- app_assoc. reflexivity.
Qed.

Lemma id_chunks_first (x : string) (xs : list string) :
  plain_id x -> exists d r, id_chunks x xs = d :: r /\ Py.is_space d = false.
Proof.
  intros (Hne & _ & Hs).
  assert (E : exists r, id_chunks x xs = app (Py.chars x) r)
    by (destruct xs; [exists []; rewrite app_nil_r|eexists]; reflexivity).
  destruct E as [r E]. rewrite E.
  destruct (Py.chars x) as [|d c] eqn:C; [exfalso; exact (chars_nonempty x Hne C)|].
  exists d, (app c r). split; [reflexivity|].
  cbn [forallb] in Hs. apply andb_true_iff in Hs as [Hd _].
  destruct (Py.is_space d); [discriminate | reflexivity].
Qed.

Lemma id_chunks_last (x : string) (xs : list string) :
  Forall plain_id (x :: xs) ->
  exists r d, id_chunks x xs = app r [d] /\ Py.is_space d = false.
Proof.
  revert x. induction xs as [|y ys IH]; intros x Hall.
  - inversion Hall as [|? ? (Hne & _ & Hs) _]; subst. cbn [id_chunks].
    destruct (exists_last (l := Py.chars x) (chars_nonempty x Hne)) as (r & d & E).
    exists r, d. split; [exact E|].
    rewrite E, forallb_app in Hs. apply andb_true_iff in Hs as [_ Hs].
    cbn [forallb] in Hs. apply andb_true_iff in Hs as [Hs _].
    destruct (Py.is_space d); [discriminate | reflexivity].
  - inversion Hall as [|? ? _ Hrest]; subst.
    destruct (IH y Hrest) as (r & d & E & Hd).
    exists (app (Py.chars x) ([Py.chr 10] :: r)), d.
    split; [cbn [id_chunks]; rewrite E, <- app_assoc; reflexivity | exact Hd].
Qed.

Lemma splitlines_chunk (lx l : list (list ascii)) (cur : list (list ascii)) :
  forallb (fun ch => negb (Py.is_space ch)) lx = true ->
  Py.splitlines_aux (app lx l) cur = Py.splitlines_aux l (app (rev lx) cur).
Proof.
  revert cur. induction lx as [|c lx IH]; intros cur H; [reflexivity|].
  cbn [forallb] in H. apply andb_true_iff in H as [Hc H].
  cbn [app Py.splitlines_aux].
  assert (Hb : Py.is_line_break c = false).
  { destruct (Py.is_line_break c) eqn:B; [|reflexivity].
    rewrite (line_break_is_space c B) in Hc. discriminate Hc. }
  rewrite Hb, (IH _ H). cbn [rev]. rewrite <- app_assoc. reflexivity.
Qed.

Lemma splitlines_id_chunks (x : string) (xs : list string) :
  Forall plain_id (x :: xs) -> Py.splitlines_aux (id_chunks x xs) [] = x :: xs.
Proof.
  revert x. induction xs as [|y ys IH]; intros x Hall;
    inversion Hall as [|? ? (Hne & _ & Hs) Hrest]; subst.
  - cbn [id_chunks]. rewrite <- (app_nil_r (Py.chars x)), splitlines_chunk by exact Hs.
    rewrite !app_nil_r. cbn [Py.splitlines_aux].
    destruct (rev (Py.chars x)) as [|c r] eqn:R.
    + apply (f_equal (@rev (list ascii))) in R. rewrite rev_involutive in R.
      exfalso. exact (chars_nonempty x Hne R).
    + rewrite <- R, rev_involutive. unfold Py.chars. rewrite concat_chars_aux.
      cbn [rev app]. rewrite string_of_list_ascii_of_string. reflexivity.
  - cbn [id_chunks]. rewrite splitlines_chunk by exact Hs. rewrite app_nil_r.
    cbn [Py.splitlines_aux].
    change (Py.is_line_break [Py.chr 10]) with true.
    change (Py.bytes_eqb [Py.chr 10] [Py.chr 13]) with false. cbn [andb].
    specialize (IH y Hrest). remember (id_chunks y ys) as L eqn:EL.
    rewrite rev_involutive. unfold Py.chars at 1. rewrite concat_chars_aux.
    cbn [rev app]. rewrite string_of_list_ascii_of_string.
    destruct L; rewrite IH; reflexivity.
Qed.

Lemma strip_lines_split (ids : list string) :
  Forall plain_id ids -> Py.splitlines (Py.strip (lines ids)) = ids.
Proof.
  destruct ids as [|x xs]; intro Hall; [reflexivity|].
  unfold Py.strip. rewrite chars_lines by exact Hall.
  destruct (id_chunks_first x xs (Forall_inv Hall)) as (d & r & Ed & Hd).
  destruct (id_chunks_last x xs Hall) as (r' & d' & Ed' & Hd').
  assert (D1 : Py.drop_spaces (app (id_chunks x xs) [[Py.chr 10]])
               = app (id_chunks x xs) [[Py.chr 10]])
    by (rewrite Ed; cbn [app Py.drop_spaces]; rewrite Hd; reflexivity).
  rewrite D1, rev_app_distr. cbn [rev app].
  change (Py.drop_spaces ([Py.chr 10] :: rev (id_chunks x xs)))
    with (Py.drop_spaces (rev (id_chunks x xs))).
  assert (D2 : Py.drop_spaces (rev (id_chunks x xs)) = rev (id_chunks x xs))
    by (rewrite Ed', rev_app_distr; cbn [rev app Py.drop_spaces]; rewrite Hd'; reflexivity).
  rewrite D2, rev_involutive. unfold Py.splitlines, Py.chars.
  rewrite list_ascii_of_string_of_list_ascii.
  assert (C : Py.chars_aux (List.concat (id_chunks x xs)) [] = id_chunks x xs).
  { apply (app_inv_tail [[Py.chr 10]]).
    change [[Py.chr 10]] with (Py.chars_aux [Py.chr 10] []) at 1.
    rewrite <- chars_aux_app by (intros c b' E; injection E as <- _; reflexivity).
    rewrite <- (chars_lines x xs Hall).
    assert (E2 : app (List.concat (id_chunks x xs)) [Py.chr 10]
                 = list_ascii_of_string (lines (x :: xs))).
    { transitivity (List.concat (Py.chars (lines (x :: xs)))).
      - rewrite (chars_lines x xs Hall), concat_app. reflexivity.
      - unfold Py.chars. rewrite concat_chars_aux. reflexivity. }
    rewrite E2. reflexivity. }
  rewrite C. exact (splitlines_id_chunks x xs Hall).
Qed.

(** X21.  When [crictl images -q] exits with status 0 and prints image
    ids one per line, each id non-empty, free of whitespace characters
    (Unicode whitespace included) and not starting with a UTF-8
    continuation byte, [get_all_images] returns exactly those ids, in
    order, after running that single command. *)
Theorem X21_all_images_round_trip :
  forall (World : Type) (path_exists : World -> string -> bool)
         (exec : World -> list string -> World * proc) (IN_CONTAINER : bool)
         (s : St World) (w' : World) (d : Z) (r : completed) (ids : list string),
    exec (world World s) (full_cmd World path_exists IN_CONTAINER (world World s) ["images"; "-q"])
      = (w', Finished d r) ->
    returncode r = 0 ->
    stdout r = lines ids ->
    Forall plain_id ids ->
    fst (get_all_images World path_exists exec IN_CONTAINER s) = Ok ids /\
    cmds World (snd (get_all_images World path_exists exec IN_CONTAINER s))
      = app (cmds World s) [["images"; "-q"]].
Proof.
  intros World pe ex ic s w' d r ids X Hr Ho Hids.
  unfold get_all_images.
  rewrite (bind_ok _ _ _ _ _ (log_step _ _ s)). cbv beta.
  match goal with |- context [bind World (run_in_host World pe ex ic ["images"; "-q"]) _ ?st] =>
    destruct (run_in_host_finished pe ex ic ["images"; "-q"] st w' d r X) as [lg R];
    rewrite (bind_ok _ _ _ _ _ R)
  end.
  rewrite Hr, Ho, (strip_lines_split ids Hids). cbn. auto.
Qed.

Lemma X21_all_images_round_trip_witness :
  fst (get_all_images unit no_paths (host_exec prune_host) false st0) = Ok ["A"; "B"; "C"].
Proof.
  apply (X21_all_images_round_trip unit no_paths (host_exec prune_host) false st0 tt 1
           {| returncode := 0; stdout := lines ["A"; "B"; "C"]; stderr := EmptyString |});
    [reflexivity | reflexivity | reflexivity |].
  repeat (apply Forall_cons;
    [split; [discriminate | split; [intros c r E; injection E as <- _; reflexivity | reflexivity]]|]).
  apply Forall_nil.
Defined.


Lemma ro_now_x {World} (E : exn -> Prop) (clock : World -> datetime) :
  Frame.raises_only E (now World clock).
Proof. intros s e H. discriminate H. Qed.

Lemma ro_fold_m_x {World A B} (E : exn -> Prop) (f : A -> B -> M World A) :
  (forall a b, Frame.raises_only E (f a b)) ->
  forall l acc, Frame.raises_only E (fold_m World f acc l).
Proof.
  intros Hf l. induction l as [|b l IH]; intro acc; cbn [fold_m].
  - apply ro_ret.
  - apply ro_bind; auto.
Qed.

(** [json.loads] on a [str] never fails with a decoding error: that
    failure only comes from the bytes of a request body. *)
Definition no_undecodable {A} (r : failure + A) : Prop :=
  match r with inl Undecodable => False | _ => True end.

Lemma scan_number_no_undecodable (mx : Z) (l : list ascii) res :
  scan_number mx l = Some res -> no_undecodable res.
Proof.
  intro H. unfold scan_number in H.
  repeat match type of H with
  | context [match ?x with _ => _ end] => destruct x
  | context [if ?b then _ else _] => destruct b
  end; try discriminate H; injection H as <-; exact I.
Qed.

Ltac undec_tac IH :=
  repeat match goal with
  | |- no_undecodable (inr _) => exact I
  | |- no_undecodable (inl DecodeError) => exact I
  | |- no_undecodable (inl TooDeep) => exact I
  | |- no_undecodable (inl IntTooLong) => exact I
  | H : forall _ _, no_undecodable _ |- _ => apply H
  | E : scan_once ?m ?d ?l = inl ?e |- no_undecodable (inl ?e) => rewrite <- E; apply IH
  | E : scan_number ?m ?l = Some ?res |- no_undecodable ?res =>
      exact (scan_number_no_undecodable _ _ _ E)
  | |- no_undecodable (?F ?g ?l ?a) =>
      is_fix F;
      let g' := fresh "g" in let l' := fresh "l" in let a' := fresh "a" in
      let IHg := fresh "IHg" in
      generalize g l a; intros g' l' a'; revert l' a';
      induction g' as [|g' IHg]; intros l' a'; cbn beta iota zeta
  | |- context [match scan_once ?m ?d ?l with _ => _ end] =>
      destruct (scan_once m d l) as [?|[? ?]] eqn:?
  | |- context [match scan_number ?m ?l with _ => _ end] =>
      destruct (scan_number m l) eqn:?
  | |- context [match ?x with _ => _ end] => destruct x
  | |- context [if ?b then _ else _] => destruct b
  end.

Lemma scan_once_no_undecodable (mx : Z) (d : nat) :
  forall l, no_undecodable (scan_once mx d l).
Proof.
  induction d as [|d IH]; intro l; destruct l as [|c r]; cbn [scan_once]; undec_tac IH.
Qed.

Lemma loads_no_undecodable (mx : Z) (d : nat) (s : string) :
  loads mx d s <> inl Undecodable.
Proof.
  unfold loads, decode_text.
  destruct (starts _ _); [discriminate|].
  pose proof (scan_once_no_undecodable mx d (skip_ws (list_ascii_of_string s))) as H.
  destruct (scan_once _ _ _) as [f|[v r]]; [|destruct (skip_ws r); discriminate].
  destruct f; [destruct H | discriminate ..].
Qed.

Lemma ro_bind_json_loads {World A} (E : exn -> Prop) (mx : Z) (jd : World -> nat)
    (text : string) (k : failure + json -> M World A) :
  (forall r, r <> inl Undecodable -> Frame.raises_only E (k r)) ->
  Frame.raises_only E (bind World (json_loads World mx jd text) k).
Proof.
  intros Hk s e H. unfold bind, json_loads in H.
  exact (Hk _ (loads_no_undecodable _ _ _) s e H).
Qed.

Ltac ro_tac :=
  repeat match goal with
  | |- forall _, _ => intro
  | |- Frame.raises_only _ (bind _ (json_loads _ _ _ _) _) => apply ro_bind_json_loads
  | |- Frame.raises_only _ (bind _ _ _) => apply ro_bind
  | |- Frame.raises_only _ (ret _ _) => apply ro_ret
  | |- Frame.raises_only _ (raise _ (exn_of_failure Undecodable)) => exfalso; congruence
  | |- Frame.raises_only _ (raise _ _) => apply ro_raise
  | |- Frame.raises_only _ (log _ _ _) => apply ro_log
  | |- Frame.raises_only _ (opt_raise _ _ _) => apply ro_opt_raise
  | |- Frame.raises_only _ (run_in_host _ _ _ _ _) => apply ro_run_in_host
  | |- Frame.raises_only _ (with_image_lock _ _) => apply ro_with_image_lock
  | |- Frame.raises_only _ (set_add _ _ _) => apply ro_set_add
  | |- Frame.raises_only _ (raise_failure _ _) => unfold raise_failure
  | |- Frame.raises_only _ (catch _ _ _) => apply ro_catch
  | |- Frame.raises_only _ (fold_m _ _ _ _) => apply ro_fold_m_x
  | |- Frame.raises_only _ (now _ _) => apply ro_now_x
  | |- Frame.raises_only _ (get_image_created _ _ _ _ _ _ _ _ _) => unfold get_image_created
  | |- Frame.raises_only _ (get_used_images _ _ _ _ _ _ _) => unfold get_used_images
  | |- Frame.raises_only _ (get_all_images _ _ _ _) => unfold get_all_images
  | |- Frame.raises_only _ (prune_one _ _ _ _ _ _ _ _ _ _ _ _ _) => unfold prune_one
  | |- Frame.raises_only _ (let _ := _ in _) => cbv zeta
  | |- Frame.raises_only _ (if ?b then _ else _) => destruct b
  | |- Frame.raises_only _ (match ?x with _ => _ end) => destruct x
  end.

(** X22.  [run_in_host] raises nothing but [RuntimeError]: a command
    that cannot be launched, whatever the exception, is reported as a
    [RuntimeError] after the command is recorded and one debug record
    is logged. *)
Theorem X22_run_in_host_runtime_error :
  forall (World : Type) (path_exists : World -> string -> bool)
         (exec : World -> list string -> World * proc) (IN_CONTAINER : bool)
         (cmd : list string) (s : St World),
    (forall e, fst (run_in_host World path_exists exec IN_CONTAINER cmd s) = Raise e ->
               e = RuntimeError) /\
    (forall w' e,
       exec (world World s) (full_cmd World path_exists IN_CONTAINER (world World s) cmd)
         = (w', Launch_error e) ->
       run_in_host World path_exists exec IN_CONTAINER cmd s
       = (Raise RuntimeError,
          {| world := w'; locked := locked World s;
             logs := app (logs World s) [(Debug, "Error executing command ")];
             cmds := app (cmds World s) [cmd] |})).
Proof.
  intros World pe ex ic cmd s. split.
  - intro e. apply (ro_run_in_host (fun e => e = RuntimeError)). reflexivity.
  - intros w' e X. unfold run_in_host. rewrite X. reflexivity.
Qed.

(** X23.  A prune pass, run directly or as the scheduled job, lets out
    no exception other than a [RuntimeError] from a command that cannot
    be launched, and, from malformed inspection output, the
    [JSONDecodeError], [AttributeError] and [TypeError] of its shape, the
    [ValueError] of an integer of more than
    [sys.get_int_max_str_digits()] digits, and the [RecursionError] of
    nesting past the recursion limit; in particular never a
    [TimeoutExpired]. *)
Theorem X23_prune_exceptions :
  forall (World : Type) (path_exists : World -> string -> bool)
         (exec : World -> list string -> World * proc) (clock : World -> datetime)
         (IN_CONTAINER : bool) (fo : string -> option datetime) (ft : string -> bool) (mx : Z)
         (jd : World -> nat)
         (days : Z) (s : St World) (e : exn),
    (fst (run_prune World path_exists exec clock IN_CONTAINER fo ft mx jd days s) = Raise e \/
     fst (run_prune_job World path_exists exec clock IN_CONTAINER fo ft mx jd days s) = Raise e) ->
    e = RuntimeError \/ e = JSONDecodeError \/ e = AttributeError \/ e = TypeError \/
    e = ValueError \/ e = RecursionError.
Proof.
  intros World pe ex clk ic fo ft mx jd days s e.
  assert (H : Frame.raises_only
                (fun e => e = RuntimeError \/ e = JSONDecodeError \/ e = AttributeError \/
                          e = TypeError \/ e = ValueError \/ e = RecursionError)
                (run_prune World pe ex clk ic fo ft mx jd days)).
  { unfold run_prune. ro_tac.
    all: try (match goal with |- context [exn_of_failure ?f] => is_var f; destruct f end).
    all: try (exfalso; congruence).
    all: cbn; repeat (first [reflexivity | left; reflexivity | right]). }
  assert (Hj : Frame.raises_only
                (fun e => e = RuntimeError \/ e = JSONDecodeError \/ e = AttributeError \/
                          e = TypeError \/ e = ValueError \/ e = RecursionError)
                (run_prune_job World pe ex clk ic fo ft mx jd days)).
  { unfold run_prune_job. apply ro_bind; [apply ro_log | intros _; exact H]. }
  intros [R | R]; [exact (H s e R) | exact (Hj s e R)].
Qed.

Lemma X23_prune_exceptions_witness :
  fst (run_prune unit no_paths (host_exec (fun _ => Launch_error FileNotFoundError)) clock_2024
         false no_other_iso floats_true MAX_DIGITS depth_900 14 st0) = Raise RuntimeError /\
  (RuntimeError = RuntimeError \/ RuntimeError = JSONDecodeError \/
   RuntimeError = AttributeError \/ RuntimeError = TypeError \/
   RuntimeError = ValueError \/ RuntimeError = RecursionError).
Proof.
  assert (R : fst (run_prune unit no_paths (host_exec (fun _ => Launch_error FileNotFoundError))
                     clock_2024 false no_other_iso floats_true MAX_DIGITS depth_900 14 st0) = Raise RuntimeError)
    by (vm_compute; reflexivity).
  split; [exact R|].
  exact (X23_prune_exceptions unit no_paths (host_exec (fun _ => Launch_error FileNotFoundError))
           clock_2024 false no_other_iso floats_true MAX_DIGITS depth_900 14 st0 RuntimeError (or_introl R)).
Defined.

Lemma X22_run_in_host_runtime_error_witness :
  run_in_host unit no_paths (host_exec (fun _ => Launch_error FileNotFoundError)) false
    ["pull"; "x"] st0
  = (Raise RuntimeError,
     {| world := tt; locked := false; logs := [(Debug, "Error executing command ")];
        cmds := [["pull"; "x"]] |}).
Proof.
  exact (proj2 (X22_run_in_host_runtime_error unit no_paths
           (host_exec (fun _ => Launch_error FileNotFoundError)) false ["pull"; "x"] st0)
           tt FileNotFoundError eq_refl).
Defined.

End Extra.
